(** * gisquick-server: session and identity resolution

    A shallow embedding of the authentication service of gisquick-server
    ([internal/server/auth], [internal/domain], the PostgreSQL accounts
    repository and the login handler), with the properties its
    specification states about them.

    Go values are modelled as follows: a [string] is a byte string, a
    function returning [(T, error)] returns a pair [T * option error]
    (Go returns both components, the first one being the zero value or
    a sentinel on failure), a pointer that may be [nil] is an [option],
    interfaces are type classes, and the mutable state a request handler
    touches is threaded through a state monad. *)

From stdpp Require Import gmap strings list.
From Stdlib Require Import ZArith Ascii String.

Open Scope string_scope.
Open Scope Z_scope.

(** ** Go's [strings] package, on byte strings *)
Module strings.

Fixpoint Contains (s substr : string) : bool :=
  String.prefix substr s ||
  match s with
  | EmptyString => false
  | String _ s' => Contains s' substr
  end.

(** [s[:n]] and [s[n:]], for [n] within bounds. *)
Fixpoint slice_to (n : nat) (s : string) : string :=
  match n, s with
  | S n', String a s' => String a (slice_to n' s')
  | _, _ => EmptyString
  end.

Fixpoint slice_from (n : nat) (s : string) : string :=
  match n, s with
  | S n', String _ s' => slice_from n' s'
  | _, _ => s
  end.

Definition lower (a : ascii) : ascii :=
  let n := N_of_ascii a in
  if ((65 <=? n) && (n <=? 90))%N then ascii_of_N (n + 32) else a.

(** [strings.EqualFold] on strings of single-byte runes: simple case
    folding relates only an ASCII letter and its other case.  (A rune
    above 0x7F takes several bytes or is invalid; against an ASCII
    string of the same byte length the comparison then fails, as it
    does here.) *)
Fixpoint EqualFold (s t : string) : bool :=
  match s, t with
  | EmptyString, EmptyString => true
  | String a s', String b t' =>
      bool_decide (lower a = lower b) && EqualFold s' t'
  | _, _ => false
  end.

(** [strings.SplitN(s, sep, 2)] for a one-byte separator: the part
    before the first separator and the rest, or [s] alone. *)
Fixpoint cut (sep : ascii) (s : string) : option (string * string) :=
  match s with
  | EmptyString => None
  | String a s' =>
      if bool_decide (a = sep) then Some (EmptyString, s')
      else match cut sep s' with
           | Some (before, after) => Some (String a before, after)
           | None => None
           end
  end.

Definition SplitN2 (s : string) (sep : ascii) : list string :=
  match cut sep s with
  | Some (before, after) => [before; after]
  | None => [s]
  end.

End strings.

(** ** [encoding/base64], the standard padded encoding *)
Module base64.

(** The value of a character of the standard alphabet. *)
Definition sextet (a : ascii) : option N :=
  let n := N_of_ascii a in
  if ((65 <=? n) && (n <=? 90))%N then Some (n - 65)%N
  else if ((97 <=? n) && (n <=? 122))%N then Some (n - 71)%N
  else if ((48 <=? n) && (n <=? 57))%N then Some (n + 4)%N
  else if (n =? 43)%N then Some 62%N
  else if (n =? 47)%N then Some 63%N
  else None.

Definition is_newline (a : ascii) : bool :=
  let n := N_of_ascii a in ((n =? 10) || (n =? 13))%N.

Definition pad : ascii := "="%char.

Definition byte_of (n : N) : ascii := ascii_of_N (n mod 256).

(** Decoding of the input with line breaks removed, four characters
    at a time.  A final quantum may end in one or two padding
    characters; anything after the padding, a character outside the
    alphabet, or an incomplete quantum is corrupt input.  The decoder
    is not strict: the unused low bits of a padded quantum are not
    checked. *)
Definition last_quantum (a b p1 p2 : ascii) : option (list ascii) :=
  match sextet a, sextet b with
  | Some x, Some y =>
      let n2 := (x * 64 + y)%N in
      if bool_decide (p1 = pad) then
        if bool_decide (p2 = pad) then Some [byte_of (n2 / 16)] else None
      else
        match sextet p1 with
        | Some z =>
            let n3 := (n2 * 64 + z)%N in
            if bool_decide (p2 = pad)
            then Some [byte_of (n3 / 1024); byte_of (n3 / 4)]
            else match sextet p2 with
                 | Some v =>
                     let n4 := (n3 * 64 + v)%N in
                     Some [byte_of (n4 / 65536); byte_of (n4 / 256);
                           byte_of n4]
                 | None => None
                 end
        | None => None
        end
  | _, _ => None
  end.

Fixpoint quanta (l : list ascii) : option (list ascii) :=
  match l with
  | [] => Some []
  | a :: b :: c :: d :: rest =>
      match rest with
      | [] => last_quantum a b c d
      | _ :: _ =>
          match sextet a, sextet b, sextet c, sextet d with
          | Some x, Some y, Some z, Some v =>
              let n4 := (((x * 64 + y) * 64 + z) * 64 + v)%N in
              match quanta rest with
              | Some out =>
                  Some (byte_of (n4 / 65536) :: byte_of (n4 / 256)
                          :: byte_of n4 :: out)
              | None => None
              end
          | _, _, _, _ => None
          end
      end
  | _ => None
  end.

(** [StdEncoding.DecodeString]: [None] stands for the
    [CorruptInputError] (its byte offset is not modelled). *)
Definition DecodeString (s : string) : option string :=
  let l := List.filter (fun a => negb (is_newline a)) (list_ascii_of_string s) in
  match quanta l with
  | Some out => Some (string_of_list_ascii out)
  | None => None
  end.

End base64.

(** ** Errors

    The sentinel errors of the packages involved, the two ways
    [fmt.Errorf] builds an error from another one, and [errors.Is]. *)
Inductive error : Type :=
  | ErrUserNotFound                      (* auth: "User not found" *)
  | ErrInvalidPassword                   (* auth: "Password doesn't match" *)
  | ErrInvalidSession                    (* auth: "Invalid session" *)
  | ErrAccountNotFound                   (* domain *)
  | ErrAccountExists                     (* domain *)
  | ErrNoRows                            (* database/sql *)
  | ErrNoCookie                          (* net/http *)
  | ErrNotExist                          (* os *)
  | redis_Nil                            (* go-redis: key does not exist *)
  | CorruptInputError                    (* encoding/base64 *)
  | errorString (msg : string)           (* errors.New, fmt.Errorf without verbs *)
  | BindingError (msg : string)          (* echo: the request cannot be bound *)
  | ValidationErrors (fields : list string)     (* validator *)
  | HTTPError (code : Z) (message : string)     (* echo.NewHTTPError *)
  | HTTPError_of (code : Z) (err : error)  (* echo.NewHTTPError(code, err.Error()) *)
  | Errorf_v (format : string) (err : error)   (* fmt.Errorf("...%v", err) *)
  | Errorf_w (format : string) (err : error).  (* fmt.Errorf("...%w", err) *)

#[global] Instance error_eq_dec : EqDecision error.
Proof. solve_decision. Defined.

Module errors.

(** [errors.Is]: the error itself or one it wraps; only [%w] wraps. *)
Fixpoint Is (err target : error) : bool :=
  bool_decide (err = target) ||
  match err with
  | Errorf_w _ inner => Is inner target
  | _ => false
  end.

End errors.

(** A value with its error, as a Go function returns them. *)
Abbreviation with_error T := (T * option error)%type (only parsing).

#[global] Instance byte_eq_dec : EqDecision Byte.byte := Byte.byte_eq_dec.

(** ** Package [domain] *)
Module domain.

(** [map[string]any], possibly [nil]; values are kept as JSON text. *)
Definition Profile : Type := option (gmap string string).

(** Modelled from the spec: the [Account] type is declared in
    [internal/domain], outside the sources at hand.  Section 3 of the
    specification lists its content (username, email, password
    material, names, superuser and active flags, profile, the three
    timestamps), which are the fields [postgres.toAccount] fills in. *)
Record Account : Type := mkAccount {
  Account_Username : string;
  Account_Email : string;
  Account_Password : list Byte.byte;
  Account_FirstName : string;
  Account_LastName : string;
  Account_Active : bool;
  Account_Superuser : bool;
  Account_Created : option Z;
  Account_Confirmed : option Z;
  Account_LastLogin : option Z;
  Account_Profile : Profile;
}.

(** [domain.Account{}] *)
Definition Account_zero : Account :=
  mkAccount "" "" [] "" "" false false None None None None.

Record User : Type := mkUser {
  Username : string;
  Email : string;
  FirstName : string;
  LastName : string;
  IsSuperuser : bool;
  IsAuthenticated : bool;
  IsGuest : bool;
  Profile_ : Profile;
}.

(** [domain.User{}] *)
Definition User_zero : User := mkUser "" "" "" "" false false false None.

#[global] Instance User_eq_dec : EqDecision User.
Proof. solve_decision. Defined.

Definition AccountToUser (account : Account) : User :=
  {| Username := Account_Username account;
     Email := Account_Email account;
     FirstName := Account_FirstName account;
     LastName := Account_LastName account;
     IsSuperuser := Account_Superuser account;
     IsGuest := false;
     IsAuthenticated := true;
     Profile_ := Account_Profile account |}.

(** [Account.CheckPassword] is declared with the account type; the
    password scheme is a parameter. *)
Class PasswordScheme : Type :=
  CheckPassword : Account -> string -> bool.

(** Modelled from the spec: the [AccountsRepository] interface is
    declared in [internal/domain], outside the sources at hand.  These
    are the methods of its contract (section 6) that the authentication
    service calls, with the signatures the PostgreSQL repository gives
    them.  [R] is the repository's state. *)
Class AccountsRepository (R : Type) : Type := {
  GetByUsername : R -> string -> with_error Account;
  GetByEmail : R -> string -> with_error Account;
  Update : R -> Account -> R * option error;
}.

End domain.

(** ** Package [postgres]: the accounts repository *)
Module postgres.
Import domain.

Record User : Type := mkUser {
  Username : string;
  Email : string;
  Password : list Byte.byte;
  FirstName : string;
  LastName : string;
  IsSuperuser : bool;
  IsActive : bool;
  Created : option Z;
  Confirmed : option Z;
  LastLogin : option Z;
  Profile : domain.Profile;
}.

Definition User_zero : User :=
  mkUser "" "" [] "" "" false false None None None None.

Definition toAccount (user : User) : Account :=
  {| Account_Username := Username user;
     Account_Email := Email user;
     Account_Password := Password user;
     Account_FirstName := FirstName user;
     Account_LastName := LastName user;
     Account_Active := IsActive user;
     Account_Superuser := IsSuperuser user;
     Account_Created := Created user;
     Account_Confirmed := Confirmed user;
     Account_LastLogin := LastLogin user;
     Account_Profile := Profile user |}.

Definition toUser (a : Account) : User :=
  {| Username := Account_Username a;
     Email := Account_Email a;
     Password := Account_Password a;
     FirstName := Account_FirstName a;
     LastName := Account_LastName a;
     IsActive := Account_Active a;
     IsSuperuser := Account_Superuser a;
     Created := Account_Created a;
     Confirmed := Account_Confirmed a;
     LastLogin := Account_LastLogin a;
     Profile := Account_Profile a |}.

(** The statements that read table [users]. *)
Inductive Query : Type :=
  | by_username (username : string)  (* SELECT * FROM users WHERE username=$1 *)
  | by_email (pattern : string)      (* SELECT * FROM users WHERE email LIKE $1 *)
  | active                           (* SELECT * FROM users WHERE is_active=true *)
  | all.                             (* SELECT * FROM users *)

(** None of these statements has an [ORDER BY], so the engine returns
    the rows in an order of its choosing.  The choice is kept as a
    code: [arrange code rows] puts each row at the position the code
    gives it among the rows after it.  Every code rearranges the rows,
    and every rearrangement has a code. *)
Fixpoint place {A} (n : nat) (x : A) (l : list A) : list A :=
  match n, l with
  | Datatypes.S n, y :: l => y :: place n x l
  | _, _ => x :: l
  end.

Fixpoint arrange {A} (code : list nat) (l : list A) : list A :=
  match l with
  | [] => []
  | x :: l => place (hd 0%nat code) x (arrange (tl code) l)
  end.

(** The database behind [sqlx.DB], as far as the repository's
    statements see it: the rows of table [users]; the engine's [LIKE]
    operator (text, then pattern); the failure, if any, with which the
    connection answers every statement; the order in which the engine
    returns the rows of each statement; the verdict of the table's
    constraints on the table an [UPDATE] would leave (the schema is
    not part of the repository; [Create] expects a unique violation
    from it); and what a timestamp column keeps of an instant given in
    nanoseconds. *)
Record DB : Type := mkDB {
  users : list User;
  like : string -> string -> bool;
  failure : option error;
  order : Query -> list nat;
  constraints : list User -> option error;
  timestamp : Z -> Z;
}.

Definition with_users (rows : list User) (db : DB) : DB :=
  mkDB rows (like db) (failure db) (order db) (constraints db) (timestamp db).

(** The [WHERE] clause of a statement. *)
Definition where_ (db : DB) (q : Query) (u : User) : bool :=
  match q with
  | by_username username => bool_decide (Username u = username)
  | by_email pattern => like db (Email u) pattern
  | active => IsActive u
  | all => true
  end.

(** [db.Select(&rows, q, args...)] *)
Definition Select (db : DB) (q : Query) : with_error (list User) :=
  match failure db with
  | Some err => ([], Some err)
  | None => (arrange (order db q) (List.filter (where_ db q) (users db)), None)
  end.

(** [db.Get(&row, q, args...)]: the first row of the result,
    [sql.ErrNoRows] when there is none. *)
Definition Get (db : DB) (q : Query) : with_error User :=
  match Select db q with
  | (_, Some err) => (User_zero, Some err)
  | ([], None) => (User_zero, Some ErrNoRows)
  | (row :: _, None) => (row, None)
  end.

Definition find (db : DB) (q : Query) : with_error Account :=
  match Get db q with
  | (_, Some err) =>
      if bool_decide (err = ErrNoRows)
      then (Account_zero, Some ErrAccountNotFound)
      else (Account_zero, Some err)
  | (user, None) => (toAccount user, None)
  end.

Definition GetByUsername (db : DB) (username : string) : with_error Account :=
  find db (by_username username).

Definition GetByEmail (db : DB) (email : string) : with_error Account :=
  match Select db (by_email email) with
  | (_, Some err) => (Account_zero, Some err)
  | (dbUsers, None) =>
      match dbUsers with
      | [] => (Account_zero, Some ErrAccountNotFound)
      | [row] => (toAccount row, None)
      | _ :: _ :: _ =>
          (Account_zero, Some (errorString "More than 1 accounts with email address"))
      end
  end.

(** The values of a row as the columns keep them. *)
Definition stored (db : DB) (user : User) : User :=
  {| Username := Username user; Email := Email user;
     Password := Password user; FirstName := FirstName user;
     LastName := LastName user; IsSuperuser := IsSuperuser user;
     IsActive := IsActive user;
     Created := timestamp db <$> Created user;
     Confirmed := timestamp db <$> Confirmed user;
     LastLogin := timestamp db <$> LastLogin user;
     Profile := Profile user |}.

(** [UPDATE users SET ... WHERE username = :username]; the profile
    column is not among the columns set.  A statement the constraints
    refuse changes nothing and its error is the one returned. *)
Definition Update (db : DB) (account : Account) : DB * option error :=
  match failure db with
  | Some err => (db, Some err)
  | None =>
      let user := stored db (toUser account) in
      let set row :=
        if bool_decide (Username row = Username user)
        then {| Username := Username user; Email := Email user;
                Password := Password user; FirstName := FirstName user;
                LastName := LastName user; IsSuperuser := IsSuperuser user;
                IsActive := IsActive user; Created := Created user;
                Confirmed := Confirmed user; LastLogin := LastLogin user;
                Profile := Profile row |}
        else row in
      match constraints db (List.map set (users db)) with
      | Some err => (db, Some err)
      | None => (with_users (List.map set (users db)) db, None)
      end
  end.

(** [DELETE FROM users WHERE username=$1] *)
Definition Delete (db : DB) (username : string) : DB * option error :=
  match failure db with
  | Some err => (db, Some err)
  | None =>
      (with_users
         (List.filter (fun u => negb (bool_decide (Username u = username)))
                      (users db))
         db, None)
  end.

(** [SELECT exists (SELECT 1 FROM users WHERE username = $1)], scanned
    into a boolean that starts as [false]. *)
Definition UsernameExists (db : DB) (username : string) : with_error bool :=
  match failure db with
  | Some err =>
      if bool_decide (err = ErrNoRows) then (false, None) else (false, Some err)
  | None =>
      (existsb (fun u => bool_decide (Username u = username)) (users db), None)
  end.

(** The two listings return [nil] with the error, and otherwise a
    slice with the account of every row of the result, in the order
    of the result. *)
Definition GetActiveAccounts (db : DB) : with_error (option (list Account)) :=
  match Select db active with
  | (_, Some err) => (None, Some err)
  | (dbUsers, None) => (Some (List.map toAccount dbUsers), None)
  end.

Definition GetAllAccounts (db : DB) : with_error (option (list Account)) :=
  match Select db all with
  | (_, Some err) => (None, Some err)
  | (dbUsers, None) => (Some (List.map toAccount dbUsers), None)
  end.

#[global] Instance AccountsRepository : domain.AccountsRepository DB :=
  {| domain.GetByUsername := GetByUsername;
     domain.GetByEmail := GetByEmail;
     domain.Update := Update |}.

End postgres.

(** ** [net/http]: cookies and the parts of a request the service reads *)
Module http.

Inductive SameSite : Type :=
  SameSiteUnset | SameSiteDefaultMode | SameSiteLaxMode
| SameSiteStrictMode | SameSiteNoneMode.

Record Cookie : Type := mkCookie {
  Name : string;
  Value : string;
  Path : string;
  Expires : option Z;
  MaxAge : Z;
  HttpOnly : bool;
  Secure : bool;
  SameSite_ : SameSite;
}.

(** What the binder finds in the request: fields by name, or a body
    it cannot decode. *)
Inductive Payload : Type :=
  | Malformed (msg : string)
  | Fields (fields : gmap string string).

Record Request : Type := mkRequest {
  Header : gmap string (list string);
  Cookies : list Cookie;
  Body : Payload;
}.

(** [Header.Get]: the first value of the header, [""] without one. *)
Definition Header_Get (h : gmap string (list string)) (key : string) : string :=
  match h !! key with
  | Some (v :: _) => v
  | _ => ""
  end.

Definition Cookie_zero : Cookie :=
  mkCookie "" "" "" None 0 false false SameSiteUnset.

(** [Request.Cookie]: the first cookie of that name, or [ErrNoCookie]. *)
Definition Request_Cookie (r : Request) (name : string) : with_error Cookie :=
  match List.find (fun ck => bool_decide (Name ck = name)) (Cookies r) with
  | Some ck => (ck, None)
  | None => (Cookie_zero, Some ErrNoCookie)
  end.

Definition StatusOK : Z := 200.
Definition StatusBadRequest : Z := 400.
Definition StatusUnauthorized : Z := 401.

End http.

(** ** [ttlcache]: a cache whose items expire

    The cache of [github.com/jellydator/ttlcache/v3] as one goroutine
    sees it: items by key, each with its expiry; an expired item is a
    miss (items are expired lazily, on access).  With touch-on-hit disabled a hit leaves the item's expiry as
    it is, otherwise it is extended by the item's time to live. *)
Module ttlcache.

Record Item (V : Type) : Type := mkItem {
  Value : V;
  TTL : Z;
  ExpiresAt : Z;
}.
Arguments mkItem {V}.
Arguments Value {V}.
Arguments TTL {V}.
Arguments ExpiresAt {V}.

Record Cache (V : Type) : Type := mkCache {
  items : gmap string (Item V);
  ttl : Z;                       (* WithTTL *)
  disableTouchOnHit : bool;      (* WithDisableTouchOnHit *)
}.
Arguments mkCache {V}.
Arguments items {V}.
Arguments ttl {V}.
Arguments disableTouchOnHit {V}.

(** [ttlcache.New(WithTTL(ttl), WithDisableTouchOnHit())] *)
Definition New {V} (ttl : Z) : Cache V := mkCache ∅ ttl true.

(** An item without a positive time to live never expires. *)
Definition isExpired {V} (now : Z) (item : Item V) : bool :=
  if bool_decide (TTL item <= 0) then false
  else bool_decide (ExpiresAt item < now).

(** The lookup of [Cache.Get], before any loader runs. *)
Definition get {V} (c : Cache V) (now : Z) (key : string)
  : option (Item V) * Cache V :=
  match items c !! key with
  | Some item =>
      if isExpired now item then (None, c)
      else if disableTouchOnHit c then (Some item, c)
      else
        let item' := mkItem (Value item) (TTL item) (now + TTL item) in
        (Some item', mkCache (<[key := item']> (items c)) (ttl c)
                             (disableTouchOnHit c))
  | None => (None, c)
  end.

(** [Cache.Set(key, value, DefaultTTL)] *)
Definition Set_ {V} (c : Cache V) (now : Z) (key : string) (value : V)
  : Item V * Cache V :=
  let item := mkItem value (ttl c) (now + ttl c) in
  (item, mkCache (<[key := item]> (items c)) (ttl c) (disableTouchOnHit c)).

End ttlcache.

(** ** [time] *)
Module time.
Definition Millisecond : Z := 1000000.
Definition Second : Z := 1000000000.
End time.

(** ** Package [auth] *)
Module auth.
Import domain.

Definition AnonymousUser : User :=
  {| Username := ""; Email := ""; FirstName := ""; LastName := "";
     IsSuperuser := false; IsAuthenticated := false; IsGuest := true;
     Profile_ := None |}.

Definition basic : string := "basic".

Record SessionInfo : Type := mkSessionInfo {
  ID : string;
  Username_ : string;
}.

(** The [SessionStore] interface; [S] is the store's state.  (The
    [context.Context] argument, which carries cancellation only, is
    left out.) *)
Class SessionStore (S : Type) : Type := {
  Set_ : S -> string -> string -> Z -> S * option error;
  Get : S -> string -> with_error string;
  Del : S -> string -> S * option error;
}.

(** *** The Redis session store *)

(** The Redis server behind [redis.Client]: the keys it holds, each
    with its value and the instant at which it expires, if it does;
    the server's clock, in milliseconds; and the failure, if any, with
    which every command ends.  A key whose instant of expiry has
    passed is one the server no longer holds. *)
Record redis_Client : Type := mkClient {
  keys : gmap string (string * option Z);
  clock : Z;
  unavailable : option error;
}.

Record RedisSessionStore : Type := NewRedisStore { rdb : redis_Client }.

(** The value and expiry of a key the server still holds. *)
Definition redis_held (rdb : redis_Client) (key : string)
  : option (string * option Z) :=
  match keys rdb !! key with
  | Some (value, Some expiry) =>
      if bool_decide (expiry < clock rdb) then None else Some (value, Some expiry)
  | held => held
  end.

(** The time to live [redis.Client.Set] sends with a positive
    expiration: whole seconds ([EX]) when the expiration is a number of
    whole seconds, milliseconds ([PX]) otherwise, and at least one of
    either. *)
Definition redis_KeepTTL : Z := -1.

Definition usePrecise (dur : Z) : bool :=
  bool_decide (dur < time.Second) || negb (bool_decide (Z.rem dur time.Second = 0)).

Definition formatMs (dur : Z) : Z :=
  if bool_decide (0 < dur) && bool_decide (dur < time.Millisecond) then 1
  else Z.quot dur time.Millisecond.

Definition formatSec (dur : Z) : Z :=
  if bool_decide (0 < dur) && bool_decide (dur < time.Second) then 1
  else Z.quot dur time.Second.

Definition redis_ttl (expiration : Z) : Z :=
  if usePrecise expiration then formatMs expiration
  else formatSec expiration * 1000.

(** [rdb.Set(ctx, key, value, expiration)]: without a positive
    expiration the key does not expire, except that [KeepTTL] keeps
    the expiry of the key it replaces. *)
Definition redis_Set (rdb : redis_Client) (key value : string) (expiration : Z)
  : redis_Client * option error :=
  match unavailable rdb with
  | Some err => (rdb, Some err)
  | None =>
      let expiry :=
        if bool_decide (0 < expiration)
        then Some (clock rdb + redis_ttl expiration)
        else if bool_decide (expiration = redis_KeepTTL)
             then held ← redis_held rdb key; snd held
             else None in
      (mkClient (<[key := (value, expiry)]> (keys rdb)) (clock rdb) None, None)
  end.

Definition redis_Get (rdb : redis_Client) (key : string) : with_error string :=
  match unavailable rdb with
  | Some err => ("", Some err)
  | None =>
      match redis_held rdb key with
      | Some (value, _) => (value, None)
      | None => ("", Some redis_Nil)
      end
  end.

Definition redis_Del (rdb : redis_Client) (key : string)
  : redis_Client * option error :=
  match unavailable rdb with
  | Some err => (rdb, Some err)
  | None => (mkClient (delete key (keys rdb)) (clock rdb) None, None)
  end.

(** Time passing at the server. *)
Definition redis_elapse (ms : Z) (rdb : redis_Client) : redis_Client :=
  mkClient (keys rdb) (clock rdb + ms) (unavailable rdb).

Definition RedisSessionStore_Set (s : RedisSessionStore)
    (sessionID data : string) (expiration : Z)
  : RedisSessionStore * option error :=
  match redis_Set (rdb s) sessionID data expiration with
  | (rdb', Some err) =>
      (NewRedisStore rdb', Some (Errorf_v "redis save session: %v" err))
  | (rdb', None) => (NewRedisStore rdb', None)
  end.

Definition RedisSessionStore_Get (s : RedisSessionStore) (sessionID : string)
  : with_error string :=
  match redis_Get (rdb s) sessionID with
  | (_, Some err) =>
      if bool_decide (err = redis_Nil) then ("", Some ErrInvalidSession)
      else ("", Some (Errorf_v "redis get session: %v" err))
  | (val, None) => (val, None)
  end.

Definition RedisSessionStore_Del (s : RedisSessionStore) (sessionID : string)
  : RedisSessionStore * option error :=
  match redis_Del (rdb s) sessionID with
  | (rdb', Some err) =>
      (NewRedisStore rdb', Some (Errorf_v "redis delete session: %v" err))
  | (rdb', None) => (NewRedisStore rdb', None)
  end.

#[global] Instance RedisSessionStore_SessionStore : SessionStore RedisSessionStore :=
  {| Set_ := RedisSessionStore_Set;
     Get := RedisSessionStore_Get;
     Del := RedisSessionStore_Del |}.

(** *** The request context and the service *)

(** A value kept in the request context ([interface{}]). *)
Inductive any : Type :=
  | nil
  | any_SessionInfo (si : SessionInfo)
  | any_User (user : User).

Inductive Level : Type := Warn | Error.

Record LogEntry : Type := mkLogEntry {
  level : Level;
  msg : string;
  cause : error;
}.

(** The calls made to the collaborators of the service: the request's
    cookies, the session store, the two caches and the accounts
    repository. *)
Inductive Call : Type :=
  | Call_Cookie (name : string)
  | Call_store_Set (sessionID : string)
  | Call_store_Get (sessionID : string)
  | Call_store_Del (sessionID : string)
  | Call_cache_Get (key : string)
  | Call_cache_Set (key : string)
  | Call_basicAuthCache_Get (key : string)
  | Call_basicAuthCache_Set (key : string)
  | Call_GetByUsername (username : string)
  | Call_GetByEmail (email : string)
  | Call_Update (username : string).

#[global] Instance Call_eq_dec : EqDecision Call.
Proof. solve_decision. Defined.

(** *** The state monad in which the service runs *)
Definition M (St A : Type) : Type := St -> A * St.

Definition ret {St A} (a : A) : M St A := fun w => (a, w).

Definition bind {St A B} (m : M St A) (k : A -> M St B) : M St B :=
  fun w => let (a, w') := m w in k a w'.

Declare Scope go_scope.
Delimit Scope go_scope with go.
Notation "x <- m ;; k" := (bind m (fun x => k))
  (at level 100, m at next level, right associativity) : go_scope.
Notation "m ;; k" := (bind m (fun _ => k))
  (at level 100, right associativity) : go_scope.

Section Service.
Context {S R : Type} `{!SessionStore S} `{!AccountsRepository R}
        `{!PasswordScheme}.

Record AuthService : Type := mkAuthService {
  expiration : Z;
  accounts : R;
  store : S;
  cache : ttlcache.Cache User;
  basicAuthCache : ttlcache.Cache User;
}.

(** Both caches keep an item for 45 seconds and do not extend it
    when it is read.  The loader of [cache] is [loader] below. *)
Definition NewAuthService (expiration : Z) (accounts : R) (store : S)
  : AuthService :=
  {| expiration := expiration;
     accounts := accounts;
     store := store;
     cache := ttlcache.New (45 * time.Second);
     basicAuthCache := ttlcache.New (45 * time.Second) |}.

(** What a call of the service can read and change: the request
    context [c] (request, stored values, cookies set on the
    response) and the service [s], with the logger's output, the
    clock, the source of random tokens and the calls made so far. *)
Record World : Type := mkWorld {
  c_Request : http.Request;
  c_store : gmap string any;
  c_Response : list http.Cookie;
  s : AuthService;
  logger : list LogEntry;
  now : Z;
  uuid_source : nat -> with_error string;
  uuid_count : nat;
  calls : list Call;
}.

Definition with_c_store (v : gmap string any) (w : World) : World :=
  mkWorld (c_Request w) v (c_Response w) (s w) (logger w) (now w)
    (uuid_source w) (uuid_count w) (calls w).

Definition with_c_Response (v : list http.Cookie) (w : World) : World :=
  mkWorld (c_Request w) (c_store w) v (s w) (logger w) (now w)
    (uuid_source w) (uuid_count w) (calls w).

Definition with_s (v : AuthService) (w : World) : World :=
  mkWorld (c_Request w) (c_store w) (c_Response w) v (logger w) (now w)
    (uuid_source w) (uuid_count w) (calls w).

Definition with_logger (v : list LogEntry) (w : World) : World :=
  mkWorld (c_Request w) (c_store w) (c_Response w) (s w) v (now w)
    (uuid_source w) (uuid_count w) (calls w).

Definition with_uuid_count (v : nat) (w : World) : World :=
  mkWorld (c_Request w) (c_store w) (c_Response w) (s w) (logger w)
    (now w) (uuid_source w) v (calls w).

Definition with_calls (v : list Call) (w : World) : World :=
  mkWorld (c_Request w) (c_store w) (c_Response w) (s w) (logger w)
    (now w) (uuid_source w) (uuid_count w) v.

Definition with_accounts (v : R) (a : AuthService) : AuthService :=
  mkAuthService (expiration a) v (store a) (cache a) (basicAuthCache a).

Definition with_store (v : S) (a : AuthService) : AuthService :=
  mkAuthService (expiration a) (accounts a) v (cache a) (basicAuthCache a).

Definition with_cache (v : ttlcache.Cache User) (a : AuthService) : AuthService :=
  mkAuthService (expiration a) (accounts a) (store a) v (basicAuthCache a).

Definition with_basicAuthCache (v : ttlcache.Cache User) (a : AuthService)
  : AuthService :=
  mkAuthService (expiration a) (accounts a) (store a) (cache a) v.

Local Open Scope go_scope.

(** **** The operations on the world *)

Definition record (call : Call) : M World unit :=
  fun w => (tt, with_calls (calls w ++ [call]) w).

(** [c.Get(key)]: [nil] when nothing is stored under the key. *)
Definition c_Get (key : string) : M World any :=
  fun w => (default nil (c_store w !! key), w).

Definition c_Set (key : string) (val : any) : M World unit :=
  fun w => (tt, with_c_store (<[key := val]> (c_store w)) w).

Definition Header_Get (key : string) : M World string :=
  fun w => (http.Header_Get (http.Header (c_Request w)) key, w).

Definition Cookie (name : string) : M World (with_error http.Cookie) :=
  record (Call_Cookie name) ;;
  fun w => (http.Request_Cookie (c_Request w) name, w).

(** [http.SetCookie(c.Response(), cookie)] *)
Definition SetCookie (cookie : http.Cookie) : M World unit :=
  fun w => (tt, with_c_Response (c_Response w ++ [cookie]) w).

Definition time_Now : M World Z := fun w => (now w, w).

Definition uuid_NewV4 : M World (with_error string) :=
  fun w => (uuid_source w (uuid_count w),
            with_uuid_count (Datatypes.S (uuid_count w)) w).

Definition logger_Errorw (msg : string) (err : error) : M World unit :=
  fun w => (tt, with_logger (logger w ++ [mkLogEntry Error msg err]) w).

Definition logger_Warnw (msg : string) (err : error) : M World unit :=
  fun w => (tt, with_logger (logger w ++ [mkLogEntry Warn msg err]) w).

Definition s_store_Set (sessionID data : string) (expiration : Z)
  : M World (option error) :=
  record (Call_store_Set sessionID) ;;
  fun w => let (st, err) := Set_ (store (s w)) sessionID data expiration in
           (err, with_s (with_store st (s w)) w).

Definition s_store_Get (sessionID : string) : M World (with_error string) :=
  record (Call_store_Get sessionID) ;;
  fun w => (Get (store (s w)) sessionID, w).

Definition s_store_Del (sessionID : string) : M World (option error) :=
  record (Call_store_Del sessionID) ;;
  fun w => let (st, err) := Del (store (s w)) sessionID in
           (err, with_s (with_store st (s w)) w).

Definition s_accounts_GetByUsername (username : string)
  : M World (with_error Account) :=
  record (Call_GetByUsername username) ;;
  fun w => (GetByUsername (accounts (s w)) username, w).

Definition s_accounts_GetByEmail (email : string)
  : M World (with_error Account) :=
  record (Call_GetByEmail email) ;;
  fun w => (GetByEmail (accounts (s w)) email, w).

Definition s_accounts_Update (account : Account) : M World (option error) :=
  record (Call_Update (Account_Username account)) ;;
  fun w => let (r, err) := Update (accounts (s w)) account in
           (err, with_s (with_accounts r (s w)) w).

(** [c.Set(key, value, ttlcache.DefaultTTL)] on the cache [s.cache] *)
Definition s_cache_Set (key : string) (value : User)
  : M World (ttlcache.Item User) :=
  record (Call_cache_Set key) ;;
  fun w => let (item, c) := ttlcache.Set_ (cache (s w)) (now w) key value in
           (item, with_s (with_cache c (s w)) w).

(** The loader [NewAuthService] registers with [s.cache]. *)
Definition loader (username : string) : M World (option (ttlcache.Item User)) :=
  r <- s_accounts_GetByUsername username ;;
  match r with
  | (_, Some err) =>
      logger_Errorw "getting account" err ;;
      ret None
  | (account, None) =>
      item <- s_cache_Set username (AccountToUser account) ;;
      ret (Some item)
  end.

(** [s.cache.Get(key)]: on a miss the loader's item, if any. *)
Definition s_cache_Get (key : string) : M World (option (ttlcache.Item User)) :=
  record (Call_cache_Get key) ;;
  found <- (fun w => let (item, c) := ttlcache.get (cache (s w)) (now w) key in
                     (item, with_s (with_cache c (s w)) w)) ;;
  match found with
  | Some item => ret (Some item)
  | None => loader key
  end.

(** [s.basicAuthCache.Get(key)]: this cache has no loader. *)
Definition s_basicAuthCache_Get (key : string)
  : M World (option (ttlcache.Item User)) :=
  record (Call_basicAuthCache_Get key) ;;
  fun w => let (item, c) := ttlcache.get (basicAuthCache (s w)) (now w) key in
           (item, with_s (with_basicAuthCache c (s w)) w).

Definition s_basicAuthCache_Set (key : string) (value : User)
  : M World (ttlcache.Item User) :=
  record (Call_basicAuthCache_Set key) ;;
  fun w => let (item, c) :=
             ttlcache.Set_ (basicAuthCache (s w)) (now w) key value in
           (item, with_s (with_basicAuthCache c (s w)) w).

(** **** The methods of [AuthService] *)

Definition LogoutUser : M World unit :=
  r <- Cookie "gq_session" ;;
  match r with
  | (cookie, None) =>
      err <- s_store_Del (http.Value cookie) ;;
      match err with
      | Some err => logger_Errorw "deleting session on logout" err
      | None => ret tt
      end
  | (_, Some _) => ret tt
  end ;;
  SetCookie {| http.Path := "/";
               http.SameSite_ := http.SameSiteLaxMode;
               http.Name := "gq_session";
               http.Value := "";
               http.MaxAge := -1;
               http.HttpOnly := true;
               http.Expires := None;
               http.Secure := false |}.

Definition GetSessionInfo : M World (with_error (option SessionInfo)) :=
  v <- c_Get "session" ;;
  match v with
  | any_SessionInfo si => ret (Some si, None)
  | _ =>
      r <- Cookie "gq_session" ;;
      let sessionid :=
        match r with
        | (cookie, None) => http.Value cookie
        | (_, Some _) => ""
        end in
      if bool_decide (sessionid = "") then
        c_Set "session" nil ;;
        ret (None, None)
      else
        r <- s_store_Get sessionid ;;
        match r with
        | (_, Some err) =>
            if errors.Is err ErrInvalidSession then
              LogoutUser ;;
              c_Set "session" nil ;;
              ret (None, None)
            else ret (None, Some err)
        | (data, None) =>
            let si := {| ID := sessionid; Username_ := data |} in
            c_Set "session" (any_SessionInfo si) ;;
            ret (Some si, None)
        end
  end.

Definition Authenticate (login password : string)
  : M World (with_error Account) :=
  r <- (if strings.Contains login "@"
        then s_accounts_GetByEmail login
        else s_accounts_GetByUsername login) ;;
  match r with
  | (_, Some err) => ret (Account_zero, Some err)
  | (account, None) =>
      if negb (Account_Active account) then
        ret (Account_zero, Some ErrUserNotFound)
      else if negb (CheckPassword account password) then
        ret (Account_zero, Some ErrInvalidPassword)
      else ret (account, None)
  end.

(** The end of [GetUser]: [c.Set("user", user); return user, nil]. *)
Definition save_user (user : User) : M World (with_error User) :=
  c_Set "user" (any_User user) ;;
  ret (user, None).

Definition GetUser : M World (with_error User) :=
  v <- c_Get "user" ;;
  match v with
  | any_User user => ret (user, None)
  | _ =>
      let user := User_zero in
      auth <- Header_Get "Authorization" ;;
      if negb (bool_decide (auth = "")) then
        item <- s_basicAuthCache_Get auth ;;
        match item with
        | Some item => save_user (ttlcache.Value item)
        | None =>
            let prefixLen := String.length basic in
            if bool_decide (prefixLen + 1 < String.length auth)%nat
               && strings.EqualFold (strings.slice_to prefixLen auth) basic
            then
              match base64.DecodeString
                      (strings.slice_from (prefixLen + 1) auth) with
              | None => ret (AnonymousUser, Some CorruptInputError)
              | Some b =>
                  match strings.SplitN2 b ":" with
                  | [login; password] =>
                      r <- Authenticate login password ;;
                      match r with
                      | (_, Some err) => ret (AnonymousUser, Some err)
                      | (account, None) =>
                          let user := AccountToUser account in
                          s_basicAuthCache_Set auth user ;;
                          save_user user
                      end
                  | _ => save_user user
                  end
              end
            else save_user user
        end
      else
        r <- GetSessionInfo ;;
        match r with
        | (_, Some err) =>
            ret (AnonymousUser,
                 Some (Errorf_w "auth: get session user: %w" err))
        | (None, None) => ret (AnonymousUser, None)
        | (Some session, None) =>
            item <- s_cache_Get (Username_ session) ;;
            match item with
            | None => ret (AnonymousUser, None)
            | Some item => save_user (ttlcache.Value item)
            end
        end
  end.

Definition LoginUserWithExpiration (userAccount : Account) (expiration : Z)
  : M World (option error) :=
  r <- uuid_NewV4 ;;
  match r with
  | (_, Some err) => ret (Some err)
  | (sessionid, None) =>
      err <- s_store_Set sessionid (Account_Username userAccount) expiration ;;
      match err with
      | Some err => ret (Some (Errorf_v "save session: %v" err))
      | None =>
          r <- Cookie "gq_session" ;;
          match r with
          | (oldCookie, None) =>
              err <- s_store_Del (http.Value oldCookie) ;;
              match err with
              | Some err => logger_Errorw "deleting old session on login" err
              | None => ret tt
              end
          | (_, Some _) => ret tt
          end ;;
          now <- time_Now ;;
          let userAccount :=
            {| Account_Username := Account_Username userAccount;
               Account_Email := Account_Email userAccount;
               Account_Password := Account_Password userAccount;
               Account_FirstName := Account_FirstName userAccount;
               Account_LastName := Account_LastName userAccount;
               Account_Active := Account_Active userAccount;
               Account_Superuser := Account_Superuser userAccount;
               Account_Created := Account_Created userAccount;
               Account_Confirmed := Account_Confirmed userAccount;
               Account_LastLogin := Some now;
               Account_Profile := Account_Profile userAccount |} in
          err <- s_accounts_Update userAccount ;;
          match err with
          | Some err => logger_Warnw "updating time of last login" err
          | None => ret tt
          end ;;
          now <- time_Now ;;
          SetCookie {| http.Path := "/";
                       http.SameSite_ := http.SameSiteLaxMode;
                       http.Name := "gq_session";
                       http.Value := sessionid;
                       http.HttpOnly := true;
                       http.Expires := Some (now + expiration);
                       http.MaxAge := 0;
                       http.Secure := false |} ;;
          ret None
      end
  end.

Definition LoginUser (userAccount : Account) : M World (option error) :=
  expiration <- (fun w => (expiration (s w), w)) ;;
  LoginUserWithExpiration userAccount expiration.

End Service.

Arguments AuthService S R : clear implicits.
Arguments World S R : clear implicits.

End auth.

(** ** Package [server]: the login and logout handlers *)
Module server.
Import domain auth.

Section Handlers.
Context {S R : Type} `{!SessionStore S} `{!AccountsRepository R}
        `{!PasswordScheme}.

Record LoginForm : Type := mkLoginForm {
  Username : string;
  Password : string;
}.

(** The server around a request: the world of the authentication
    service, the files under the projects root ([os.ReadFile], by
    the path elements joined), the JSON decoder on profile files,
    the server's log and the response written, if any (its status
    and the value sent as JSON). *)
Record Server : Type := mkServer {
  auth : World S R;
  ProjectsRoot : string;
  ReadFile : list string -> with_error string;
  Unmarshal : string -> with_error Profile;
  log : list LogEntry;
  written : option (Z * option User);
}.

Definition with_auth (v : World S R) (srv : Server) : Server :=
  mkServer v (ProjectsRoot srv) (ReadFile srv) (Unmarshal srv) (log srv)
    (written srv).

Definition with_log (v : list LogEntry) (srv : Server) : Server :=
  mkServer (auth srv) (ProjectsRoot srv) (ReadFile srv) (Unmarshal srv) v
    (written srv).

Definition with_written (v : option (Z * option User)) (srv : Server) : Server :=
  mkServer (auth srv) (ProjectsRoot srv) (ReadFile srv) (Unmarshal srv)
    (log srv) v.

Local Open Scope go_scope.

(** A call of the authentication service. *)
Definition s_auth {A} (m : M (World S R) A) : M Server A :=
  fun srv => let (a, w) := m (auth srv) in (a, with_auth w srv).

Definition log_Warnw (msg : string) (err : error) : M Server unit :=
  fun srv => (tt, with_log (log srv ++ [mkLogEntry Warn msg err]) srv).

(** [c.Bind(form)] *)
Definition Bind : M Server (with_error LoginForm) :=
  fun srv =>
    match http.Body (c_Request (auth srv)) with
    | http.Malformed msg => (mkLoginForm "" "", Some (BindingError msg), srv)
    | http.Fields fields =>
        (mkLoginForm (default "" (fields !! "username"))
                     (default "" (fields !! "password")), None, srv)
    end.

(** [validate.Struct(form)]: both fields are required. *)
Definition validate_Struct (form : LoginForm) : option error :=
  let missing :=
    ((if bool_decide (Username form = "") then ["Username"] else []) ++
     (if bool_decide (Password form = "") then ["Password"] else []))%list in
  match missing with
  | [] => None
  | _ :: _ => Some (ValidationErrors missing)
  end.

(** [c.JSON(code, user)] *)
Definition c_JSON (code : Z) (user : User) : M Server (option error) :=
  fun srv => (None, with_written (Some (code, Some user)) srv).

Definition getUserProfile (user : User) : M Server (with_error Profile) :=
  if IsAuthenticated user then
    fun srv =>
      match ReadFile srv [ProjectsRoot srv; domain.Username user; "profile.json"] with
      | (content, None) =>
          match Unmarshal srv content with
          | (_, Some err) =>
              (None, Some (Errorf_w "parsing user profile file: %w" err), srv)
          | (userProfile, None) => (userProfile, None, srv)
          end
      | (_, Some err) =>
          if negb (errors.Is err ErrNotExist)
          then (None, Some (Errorf_w "reading user profile file: %w" err), srv)
          else (None, None, srv)
      end
  else ret (None, None).

Definition handleLogin : M Server (option error) :=
  r <- Bind ;;
  match r with
  | (_, Some err) => ret (Some (HTTPError_of http.StatusBadRequest err))
  | (form, None) =>
      match validate_Struct form with
      | Some err => ret (Some (HTTPError_of http.StatusBadRequest err))
      | None =>
          r <- s_auth (Authenticate (Username form) (Password form)) ;;
          match r with
          | (_, Some _) =>
              ret (Some (HTTPError http.StatusUnauthorized
                           "Please provide valid credentials"))
          | (account, None) =>
              err <- s_auth (LoginUser account) ;;
              match err with
              | Some err => ret (Some err)
              | None =>
                  let user := AccountToUser account in
                  match Profile_ user with
                  | None =>
                      r <- getUserProfile user ;;
                      match r with
                      | (_, Some err) => log_Warnw "handleLogin" err
                      | (_, None) => ret tt
                      end ;;
                      c_JSON http.StatusOK
                        {| domain.Username := domain.Username user;
                           Email := Email user;
                           FirstName := FirstName user;
                           LastName := LastName user;
                           IsSuperuser := IsSuperuser user;
                           IsAuthenticated := IsAuthenticated user;
                           IsGuest := IsGuest user;
                           Profile_ := fst r |}
                  | Some _ => c_JSON http.StatusOK user
                  end
              end
          end
      end
  end.

(** [c.NoContent(code)] *)
Definition c_NoContent (code : Z) : M Server (option error) :=
  fun srv => (None, with_written (Some (code, None)) srv).

Definition handleLogout : M Server (option error) :=
  s_auth LogoutUser ;;
  c_NoContent http.StatusOK.

End Handlers.

Arguments Server S R : clear implicits.

(** [Account.SetPassword] is declared with the account type, like
    [CheckPassword]: the account with its new password material, or an
    error. *)
Class PasswordSetter : Type :=
  SetPassword : Account -> string -> with_error Account.

Section AccountHandlers.
Context {S R : Type} `{!SessionStore S} `{!AccountsRepository R}
        `{!PasswordScheme} `{!PasswordSetter}.

Local Open Scope go_scope.

(** [c.JSON(http.StatusOK, SessionData{user})]; the response is kept
    as the user sent. *)
Definition handleGetSessionUser : M (Server S R) (option error) :=
  r <- s_auth GetUser ;;
  match r with
  | (_, Some err) => ret (Some err)
  | (user, None) => c_JSON http.StatusOK user
  end.

Record ChangePasswordForm : Type := mkChangePasswordForm {
  OldPassword : string;
  NewPassword : string;
  NewPasswordConfirm : string;
}.

(** [c.Bind(form)] on a [ChangePasswordForm] *)
Definition BindChangePassword : M (Server S R) (with_error ChangePasswordForm) :=
  fun srv =>
    match http.Body (c_Request (auth srv)) with
    | http.Malformed msg =>
        (mkChangePasswordForm "" "" "", Some (BindingError msg), srv)
    | http.Fields fields =>
        (mkChangePasswordForm (default "" (fields !! "old_password"))
                              (default "" (fields !! "new_password1"))
                              (default "" (fields !! "new_password2")),
         None, srv)
    end.

(** [validate.Struct(form)]: the three fields are required. *)
Definition validate_ChangePassword (form : ChangePasswordForm) : option error :=
  let missing :=
    ((if bool_decide (OldPassword form = "") then ["OldPassword"] else []) ++
     (if bool_decide (NewPassword form = "") then ["NewPassword"] else []) ++
     (if bool_decide (NewPasswordConfirm form = "")
      then ["NewPasswordConfirm"] else []))%list in
  match missing with
  | [] => None
  | _ :: _ => Some (ValidationErrors missing)
  end.

(** The repository of the accounts service is the one the
    authentication service was built with. *)
Definition handleChangePassword : M (Server S R) (option error) :=
  r <- BindChangePassword ;;
  match r with
  | (_, Some err) => ret (Some (HTTPError_of http.StatusBadRequest err))
  | (form, None) =>
      match validate_ChangePassword form with
      | Some err => ret (Some (HTTPError_of http.StatusBadRequest err))
      | None =>
          if negb (bool_decide (NewPassword form = NewPasswordConfirm form))
          then ret (Some (HTTPError http.StatusBadRequest
                            "New passwords doesn't match"))
          else
            r <- s_auth GetSessionInfo ;;
            match r with
            | (_, Some err) => ret (Some err)
            | (None, None) =>
                ret (Some (HTTPError http.StatusUnauthorized "Unauthorized"))
            | (Some sessionInfo, None) =>
                r <- s_auth (s_accounts_GetByUsername (Username_ sessionInfo)) ;;
                match r with
                | (_, Some err) =>
                    if errors.Is err ErrAccountNotFound
                    then ret (Some (HTTPError http.StatusBadRequest
                                      "Invalid account"))
                    else ret (Some err)
                | (account, None) =>
                    if negb (CheckPassword account (OldPassword form))
                    then ret (Some (HTTPError http.StatusBadRequest
                                      "Old password doesn't match"))
                    else
                      match SetPassword account (NewPassword form) with
                      | (_, Some err) => ret (Some err)
                      | (account, None) => s_auth (s_accounts_Update account)
                      end
                end
            end
      end
  end.

End AccountHandlers.

End server.

(** ** A concrete deployment

    The PostgreSQL repository and the Redis store with a few accounts,
    used to run the service on concrete requests. *)
Module scenario.
Import domain auth.

(** A password scheme that keeps the password as it is. *)
#[global] Instance plaintext : PasswordScheme :=
  fun account password =>
    bool_decide (Account_Password account = list_byte_of_string password).

(** Setting a password keeps it as it is, too. *)
#[global] Instance plaintext_setter : server.PasswordSetter :=
  fun account password =>
    ({| Account_Username := Account_Username account;
        Account_Email := Account_Email account;
        Account_Password := list_byte_of_string password;
        Account_FirstName := Account_FirstName account;
        Account_LastName := Account_LastName account;
        Account_Active := Account_Active account;
        Account_Superuser := Account_Superuser account;
        Account_Created := Account_Created account;
        Account_Confirmed := Account_Confirmed account;
        Account_LastLogin := Account_LastLogin account;
        Account_Profile := Account_Profile account |}, None).

(** A [LIKE] operator: [%] matches any run of bytes, [_] any one. *)
Fixpoint wildcard (pattern : list ascii) : list ascii -> bool :=
  match pattern with
  | [] => fun text => match text with [] => true | _ :: _ => false end
  | p :: pattern' =>
      if bool_decide (p = "%"%char) then
        fix any_run (text : list ascii) : bool :=
          wildcard pattern' text ||
          match text with
          | [] => false
          | _ :: text' => any_run text'
          end
      else
        fun text =>
          match text with
          | [] => false
          | t :: text' =>
              (bool_decide (p = "_"%char) || bool_decide (p = t))
              && wildcard pattern' text'
          end
  end.

Definition like (text pattern : string) : bool :=
  wildcard (list_ascii_of_string pattern) (list_ascii_of_string text).

Definition row (username email password : string) (active : bool)
  : postgres.User :=
  {| postgres.Username := username;
     postgres.Email := email;
     postgres.Password := list_byte_of_string password;
     postgres.FirstName := "";
     postgres.LastName := "";
     postgres.IsSuperuser := false;
     postgres.IsActive := active;
     postgres.Created := Some 0;
     postgres.Confirmed := Some 0;
     postgres.LastLogin := None;
     postgres.Profile := None |}.

Definition alice : postgres.User := row "alice" "alice@x.com" "s3cret" true.
Definition carol : postgres.User := row "carol" "carol@x.com" "pa55" false.
Definition alicia : postgres.User := row "alicia" "alice@x.com" "other" true.

(** A table whose email addresses must be unique. *)
Fixpoint unique_email (rows : list postgres.User) : option error :=
  match rows with
  | [] => None
  | row :: rows =>
      if existsb (fun u => bool_decide (postgres.Email u = postgres.Email row)) rows
      then Some (errorString "duplicate key value violates unique constraint")
      else unique_email rows
  end.

(** Timestamps are kept to the microsecond. *)
Definition microseconds (t : Z) : Z := t / 1000 * 1000.

(** A database without constraints that returns rows in the order of
    the table. *)
Definition db (rows : list postgres.User) : postgres.DB :=
  postgres.mkDB rows like None (fun _ => []) (fun _ => None) microseconds.

(** A Redis server whose clock reads 0 and whose sessions expire after
    an hour. *)
Definition redis (sessions : list (string * string)) : RedisSessionStore :=
  NewRedisStore
    (mkClient (list_to_map ((fun kv => (fst kv, (snd kv, Some 3600000)))
                              <$> sessions)) 0 None).

Definition request (authorization : option string)
    (session : option string) (fields : list (string * string))
  : http.Request :=
  {| http.Header :=
       match authorization with
       | Some v => {[ "Authorization" := [v] ]}
       | None => ∅
       end;
     http.Cookies :=
       match session with
       | Some v =>
           [http.mkCookie "gq_session" v "" None 0 false false http.SameSiteUnset]
       | None => []
       end;
     http.Body := http.Fields (list_to_map fields) |}.

Definition tokens (n : nat) : with_error string :=
  (String (ascii_of_nat (97 + n)) "-token", None).

(** A fresh request reaching a freshly started service. *)
Definition world (req : http.Request) (rows : list postgres.User)
    (sessions : list (string * string))
  : World RedisSessionStore postgres.DB :=
  {| c_Request := req;
     c_store := ∅;
     c_Response := [];
     s := NewAuthService (3600 * time.Second) (db rows) (redis sessions);
     logger := [];
     now := 0;
     uuid_source := tokens;
     uuid_count := 0;
     calls := [] |}.

(** A Redis server that cannot be reached. *)
Definition redis_down : RedisSessionStore :=
  NewRedisStore (mkClient ∅ 0 (Some (errorString "dial tcp: connection refused"))).

(** A fresh request reaching a service in a given state. *)
Definition world_of (req : http.Request)
    (service : AuthService RedisSessionStore postgres.DB)
  : World RedisSessionStore postgres.DB :=
  {| c_Request := req;
     c_store := ∅;
     c_Response := [];
     s := service;
     logger := [];
     now := 0;
     uuid_source := tokens;
     uuid_count := 0;
     calls := [] |}.

Definition serving (w : World RedisSessionStore postgres.DB)
  : server.Server RedisSessionStore postgres.DB :=
  {| server.auth := w;
     server.ProjectsRoot := "/publish";
     server.ReadFile := fun _ => ("", Some ErrNotExist);
     server.Unmarshal := fun _ => (None, None);
     server.log := [];
     server.written := None |}.

End scenario.

(** * Properties *)

Import domain auth.
Local Open Scope go_scope.

(** ** Vocabulary *)
Section Vocabulary.
Context {S R : Type} `{!SessionStore S} `{!AccountsRepository R}
        `{!PasswordScheme}.

(** The repository lookup a login identifier selects. *)
Definition lookup (w : World S R) (login : string) : with_error Account :=
  if strings.Contains login "@"
  then GetByEmail (accounts (s w)) login
  else GetByUsername (accounts (s w)) login.

Definition lookup_call (login : string) : Call :=
  if strings.Contains login "@"
  then Call_GetByEmail login
  else Call_GetByUsername login.

(** The world after some more calls were made, nothing else changed. *)
Definition after_calls (w : World S R) (more : list Call) : World S R :=
  with_calls (calls w ++ more) w.

(** What the request context remembers. *)
Definition memo_session (w : World S R) : option SessionInfo :=
  match c_store w !! "session" with
  | Some (any_SessionInfo si) => Some si
  | _ => None
  end.

Definition memo_user (w : World S R) : option User :=
  match c_store w !! "user" with
  | Some (any_User user) => Some user
  | _ => None
  end.

Definition Authorization (w : World S R) : string :=
  http.Header_Get (http.Header (c_Request w)) "Authorization".

(** The value of the request's session cookie, [""] without one. *)
Definition session_cookie (w : World S R) : string :=
  match http.Request_Cookie (c_Request w) "gq_session" with
  | (cookie, None) => http.Value cookie
  | (_, Some _) => ""
  end.

(** The cookie with which [LogoutUser] overwrites the session cookie. *)
Definition clearing_cookie : http.Cookie :=
  {| http.Name := "gq_session"; http.Value := ""; http.Path := "/";
     http.Expires := None; http.MaxAge := -1; http.HttpOnly := true;
     http.Secure := false; http.SameSite_ := http.SameSiteLaxMode |}.

(** Calls of the cookie path: the request's cookies, the session
    store and the identity cache. *)
Definition session_call (call : Call) : bool :=
  match call with
  | Call_Cookie _ | Call_store_Set _ | Call_store_Get _ | Call_store_Del _
  | Call_cache_Get _ | Call_cache_Set _ => true
  | _ => false
  end.

(** Calls of the Basic-Auth path: the credential cache and the lookup
    by email; the lookup by username serves both paths. *)
Definition credential_call (call : Call) : bool :=
  match call with
  | Call_basicAuthCache_Get _ | Call_basicAuthCache_Set _
  | Call_GetByEmail _ => true
  | _ => false
  end.

(** The header names the Basic scheme and has a payload. *)
Definition basic_scheme (auth : string) : bool :=
  bool_decide (String.length basic + 1 < String.length auth)%nat
  && strings.EqualFold (strings.slice_to (String.length basic) auth) basic.

Definition payload (auth : string) : string :=
  strings.slice_from (String.length basic + 1) auth.

Definition credential_cache_miss (w : World S R) : Prop :=
  fst (ttlcache.get (basicAuthCache (s w)) (now w) (Authorization w)) = None.

Definition identity_cache_miss (w : World S R) (username : string) : Prop :=
  fst (ttlcache.get (cache (s w)) (now w) username) = None.

(** The session a request resolves to: the one remembered, or the one
    the store holds for the session cookie. *)
Definition resolves_to (w : World S R) (si : SessionInfo) : Prop :=
  memo_session w = Some si \/
  (memo_session w = None /\ session_cookie w <> "" /\
   ID si = session_cookie w /\
   Get (store (s w)) (session_cookie w) = (Username_ si, None)).

(** The requests of the cookie path that carry no usable session:
    no session cookie, a session the store no longer holds, or a
    session whose account cannot be loaded. *)
Inductive without_identity (w : World S R) : Prop :=
  | no_session_cookie :
      memo_session w = None -> session_cookie w = "" ->
      without_identity w
  | expired_session data err :
      memo_session w = None -> session_cookie w <> "" ->
      Get (store (s w)) (session_cookie w) = (data, Some err) ->
      errors.Is err ErrInvalidSession = true ->
      without_identity w
  | dangling_session si account err :
      resolves_to w si ->
      identity_cache_miss w (Username_ si) ->
      GetByUsername (accounts (s w)) (Username_ si) = (account, Some err) ->
      without_identity w.

(** An identity is not both authenticated and a guest. *)
Definition consistent (user : User) : Prop :=
  ~ (IsAuthenticated user = true /\ IsGuest user = true).

Definition cache_consistent (c : ttlcache.Cache User) : Prop :=
  forall key item, ttlcache.items c !! key = Some item ->
                   consistent (ttlcache.Value item).

Definition world_consistent (w : World S R) : Prop :=
  cache_consistent (cache (s w)) /\
  cache_consistent (basicAuthCache (s w)) /\
  (forall user, memo_user w = Some user -> consistent user).

(** Later calls on the same request context. *)
Inductive Op : Type := op_GetSessionInfo | op_GetUser.

Definition run_op (w : World S R) (op : Op) : World S R :=
  match op with
  | op_GetSessionInfo => snd (GetSessionInfo w)
  | op_GetUser => snd (GetUser w)
  end.

Definition run_ops (ops : list Op) (w : World S R) : World S R :=
  fold_left run_op ops w.

End Vocabulary.

(** ** Vocabulary for requests in sequence *)
Section Sequences.
Context {S R : Type} `{!SessionStore S} `{!AccountsRepository R}
        `{!PasswordScheme}.

(** A later request reaching the same service: a new request context,
    the service, the log and the calls as they were left, the clock
    advanced.  (The clock is the one [time.Now] reads; a session store
    keeps its own, see [redis_later].) *)
Definition next_request (req : http.Request) (elapsed : Z) (w : World S R)
  : World S R :=
  {| c_Request := req;
     c_store := ∅;
     c_Response := [];
     s := s w;
     logger := logger w;
     now := now w + elapsed;
     uuid_source := uuid_source w;
     uuid_count := uuid_count w;
     calls := calls w |}.

(** The cookie [LoginUserWithExpiration] sets. *)
Definition login_cookie (sessionid : string) (expires : Z) : http.Cookie :=
  {| http.Name := "gq_session"; http.Value := sessionid; http.Path := "/";
     http.Expires := Some expires; http.MaxAge := 0; http.HttpOnly := true;
     http.Secure := false; http.SameSite_ := http.SameSiteLaxMode |}.

Definition with_LastLogin (t : option Z) (a : Account) : Account :=
  {| Account_Username := Account_Username a;
     Account_Email := Account_Email a;
     Account_Password := Account_Password a;
     Account_FirstName := Account_FirstName a;
     Account_LastName := Account_LastName a;
     Account_Active := Account_Active a;
     Account_Superuser := Account_Superuser a;
     Account_Created := Account_Created a;
     Account_Confirmed := Account_Confirmed a;
     Account_LastLogin := t;
     Account_Profile := Account_Profile a |}.

Definition with_Profile (p : Profile) (a : Account) : Account :=
  {| Account_Username := Account_Username a;
     Account_Email := Account_Email a;
     Account_Password := Account_Password a;
     Account_FirstName := Account_FirstName a;
     Account_LastName := Account_LastName a;
     Account_Active := Account_Active a;
     Account_Superuser := Account_Superuser a;
     Account_Created := Account_Created a;
     Account_Confirmed := Account_Confirmed a;
     Account_LastLogin := Account_LastLogin a;
     Account_Profile := p |}.

(** The calls that write to the session store or to the repository. *)
Definition writing_call (call : Call) : bool :=
  match call with
  | Call_store_Set _ | Call_Update _ => true
  | _ => false
  end.

(** The calls to the accounts repository. *)
Definition source_call (call : Call) : bool :=
  match call with
  | Call_GetByUsername _ | Call_GetByEmail _ | Call_Update _ => true
  | _ => false
  end.

(** What a client and the handlers can make the service do. *)
Inductive Step : Type :=
  | step_GetSessionInfo
  | step_GetUser
  | step_Authenticate (login password : string)
  | step_LoginUser (account : Account)
  | step_LogoutUser
  | step_request (req : http.Request) (elapsed : Z).

Definition run_step (w : World S R) (step : Step) : World S R :=
  match step with
  | step_GetSessionInfo => snd (GetSessionInfo w)
  | step_GetUser => snd (GetUser w)
  | step_Authenticate login password => snd (Authenticate login password w)
  | step_LoginUser account => snd (LoginUser account w)
  | step_LogoutUser => snd (LogoutUser w)
  | step_request req elapsed => next_request req elapsed w
  end.

Definition run_steps (steps : list Step) (w : World S R) : World S R :=
  fold_left run_step steps w.

End Sequences.

(** ** Time passing at the Redis server *)
Section RedisTime.
Context {R : Type} `{!AccountsRepository R} `{!PasswordScheme}.

(** The world once the server's clock has advanced by [ms]
    milliseconds. *)
Definition redis_later (ms : Z) (w : World RedisSessionStore R)
  : World RedisSessionStore R :=
  with_s (with_store (NewRedisStore (redis_elapse ms (rdb (store (s w))))) (s w)) w.

End RedisTime.

(** ** Goroutines inside [s.cache.Get]

    [ttlcache.Cache.Get] holds the cache's lock for the lookup only; on
    a miss it has released the lock when it calls the loader, and
    [NewAuthService] registers its loader as it is, with nothing
    around it that would make a second goroutine wait for the first.
    A goroutine inside [s.cache.Get(key)] is thus before its lookup,
    before its load, or done, and the steps of the goroutines that
    share the service interleave.  Taken together, the two steps of
    one goroutine are [s_cache_Get]. *)
Section Goroutines.
Context {S R : Type} `{!SessionStore S} `{!AccountsRepository R}
        `{!PasswordScheme}.

Inductive Goroutine : Type :=
  | looking_up (key : string)
  | loading (key : string)
  | returned (item : option (ttlcache.Item User)).

Definition step (g : Goroutine) : M (World S R) Goroutine :=
  match g with
  | looking_up key =>
      record (Call_cache_Get key) ;;
      found <- (fun w => let (item, c) := ttlcache.get (cache (s w)) (now w) key in
                         (item, with_s (with_cache c (s w)) w)) ;;
      match found with
      | Some item => ret (returned (Some item))
      | None => ret (loading key)
      end
  | loading key =>
      item <- loader key ;;
      ret (returned item)
  | returned item => ret (returned item)
  end.

(** A schedule names the goroutine that takes each step in turn. *)
Fixpoint run_schedule (schedule : list nat) (gs : list Goroutine)
  : M (World S R) (list Goroutine) :=
  match schedule with
  | [] => ret gs
  | i :: schedule =>
      match gs !! i with
      | Some g =>
          g' <- step g ;;
          run_schedule schedule (<[i := g']> gs)
      | None => run_schedule schedule gs
      end
  end.

(** The loads of an account made so far. *)
Definition loads (key : string) (w : World S R) : nat :=
  List.length
    (List.filter (fun call => bool_decide (call = Call_GetByUsername key))
                 (calls w)).

(** What a load leaves as it was. *)
Definition loads_alike (w w' : World S R) : Prop :=
  accounts (s w') = accounts (s w) /\
  now w' = now w /\
  ttlcache.ttl (cache (s w')) = ttlcache.ttl (cache (s w)).

(** What a load of [key] returns in world [w]. *)
Definition loaded (w : World S R) (key : string) : option (ttlcache.Item User) :=
  match GetByUsername (accounts (s w)) key with
  | (account, None) =>
      Some (ttlcache.mkItem (AccountToUser account)
              (ttlcache.ttl (cache (s w)))
              (now w + ttlcache.ttl (cache (s w))))
  | (_, Some _) => None
  end.

End Goroutines.

(** ** Direct credential verification *)
Section Authenticate.
Context {S R : Type} `{!SessionStore S} `{!AccountsRepository R}
        `{!PasswordScheme}.

Lemma Authenticate_unfold (w : World S R) login password :
  Authenticate login password w =
  (match lookup w login with
   | (_, Some err) => (Account_zero, Some err)
   | (account, None) =>
       if negb (Account_Active account) then (Account_zero, Some ErrUserNotFound)
       else if negb (CheckPassword account password)
            then (Account_zero, Some ErrInvalidPassword)
            else (account, None)
   end,
   after_calls w [lookup_call login]).
Proof.
  unfold Authenticate, lookup, lookup_call, after_calls, bind.
  destruct (strings.Contains login "@"); simpl;
    [ destruct (GetByEmail _ _) as [account [err|]]
    | destruct (GetByUsername _ _) as [account [err|]] ];
    simpl; try reflexivity;
    destruct (Account_Active account); simpl; try reflexivity;
    destruct (CheckPassword account password); reflexivity.
Qed.

(** C1, as the code has it: [Authenticate] makes exactly one call to
    the repository, by email when the login contains [@] and by
    username otherwise, and changes nothing else.  A failed lookup
    (an absent account included) returns the repository's error as it
    is; an account that is found but inactive yields [ErrUserNotFound];
    an active account whose password check fails yields
    [ErrInvalidPassword]; otherwise the account is returned without
    error. *)
Theorem Authenticate_outcomes (w : World S R) (login password : string) :
  snd (Authenticate login password w) = after_calls w [lookup_call login] /\
  (strings.Contains login "@" = true ->
     lookup_call login = Call_GetByEmail login /\
     lookup w login = GetByEmail (accounts (s w)) login) /\
  (strings.Contains login "@" = false ->
     lookup_call login = Call_GetByUsername login /\
     lookup w login = GetByUsername (accounts (s w)) login) /\
  (forall a err, lookup w login = (a, Some err) ->
     fst (Authenticate login password w) = (Account_zero, Some err)) /\
  (forall account, lookup w login = (account, None) ->
     Account_Active account = false ->
     fst (Authenticate login password w) = (Account_zero, Some ErrUserNotFound)) /\
  (forall account, lookup w login = (account, None) ->
     Account_Active account = true ->
     CheckPassword account password = false ->
     fst (Authenticate login password w) = (Account_zero, Some ErrInvalidPassword)) /\
  (forall account, lookup w login = (account, None) ->
     Account_Active account = true ->
     CheckPassword account password = true ->
     fst (Authenticate login password w) = (account, None)).
Proof.
  rewrite Authenticate_unfold; simpl.
  split; [reflexivity|].
  split; [intros Hc; unfold lookup_call, lookup; rewrite Hc; split; reflexivity|].
  split; [intros Hc; unfold lookup_call, lookup; rewrite Hc; split; reflexivity|].
  repeat split.
  - intros a err ->. reflexivity.
  - intros account -> ->. reflexivity.
  - intros account -> -> ->. reflexivity.
  - intros account -> -> ->. reflexivity.
Qed.

End Authenticate.

(** The PostgreSQL repository reports an absent account with
    [ErrAccountNotFound], and [Authenticate] hands that error on: it is
    not [ErrUserNotFound], the error of an inactive account. *)
Lemma Authenticate_absent_is_not_ErrUserNotFound :
  let w := scenario.world (scenario.request None None [])
             [scenario.alice; scenario.carol] [] in
  lookup w "bob" = (Account_zero, Some ErrAccountNotFound) /\
  fst (Authenticate "bob" "x" w) = (Account_zero, Some ErrAccountNotFound) /\
  fst (Authenticate "bob" "x" w) <> (Account_zero, Some ErrUserNotFound) /\
  errors.Is ErrAccountNotFound ErrUserNotFound = false /\
  fst (Authenticate "carol" "pa55" w) = (Account_zero, Some ErrUserNotFound).
Proof. vm_compute. repeat split; congruence. Qed.

Lemma Authenticate_outcomes_witness :
  let w := scenario.world (scenario.request None None [])
             [scenario.alice; scenario.carol] [] in
  fst (Authenticate "alice" "s3cret" w) = (postgres.toAccount scenario.alice, None).
Proof.
  intros w.
  destruct (Authenticate_outcomes w "alice" "s3cret")
    as (_ & _ & _ & _ & _ & _ & Hok).
  apply Hok; reflexivity.
Defined.

(** ** The order of a result

    Whatever order the engine chooses, a result has the rows selected,
    each as often as the table has it. *)
Lemma place_Permutation {A} (n : nat) (x : A) (l : list A) :
  Permutation (postgres.place n x l) (x :: l).
Proof.
  revert n. induction l as [|y l IH]; intros [|n]; simpl; try reflexivity.
  rewrite IH. apply perm_swap.
Qed.

Lemma arrange_Permutation {A} (code : list nat) (l : list A) :
  Permutation (postgres.arrange code l) l.
Proof.
  revert code. induction l as [|x l IH]; intros code; simpl; [reflexivity|].
  rewrite place_Permutation, IH. reflexivity.
Qed.

Lemma place_app {A} (x : A) (before after : list A) :
  postgres.place (List.length before) x (before ++ after) = (before ++ x :: after)%list.
Proof.
  induction before as [|y before IH]; simpl; [reflexivity|].
  rewrite IH. reflexivity.
Qed.

(** No order is left out: every rearrangement of the rows is the
    result under some code. *)
Lemma arrange_complete {A} (l l' : list A) :
  Permutation l l' -> exists code, postgres.arrange code l = l'.
Proof.
  revert l'. induction l as [|x l IH]; intros l' Hperm.
  - apply Permutation_nil in Hperm. subst l'. exists []. reflexivity.
  - assert (Hin : In x l')
      by (apply (Permutation_in _ Hperm); left; reflexivity).
    apply in_split in Hin. destruct Hin as (before & after & ->).
    apply Permutation_cons_app_inv in Hperm.
    destruct (IH _ Hperm) as [code Hcode].
    exists (List.length before :: code). simpl. rewrite Hcode.
    apply place_app.
Qed.

Lemma arrange_nil_iff {A} (code : list nat) (l : list A) :
  postgres.arrange code l = [] <-> l = [].
Proof.
  split; intros Hl.
  - apply Permutation_nil. rewrite <- Hl. apply arrange_Permutation.
  - subst l. reflexivity.
Qed.

Lemma arrange_length {A} (code : list nat) (l : list A) :
  List.length (postgres.arrange code l) = List.length l.
Proof. apply Permutation_length, arrange_Permutation. Qed.

Lemma arrange_In {A} (code : list nat) (l : list A) (x : A) :
  In x (postgres.arrange code l) <-> In x l.
Proof.
  split; apply Permutation_in;
    [|symmetry]; apply arrange_Permutation.
Qed.

Lemma arrange_map {A B} (f : A -> B) (code : list nat) (l : list A) :
  postgres.arrange code (List.map f l) = List.map f (postgres.arrange code l).
Proof.
  revert code. induction l as [|x l IH]; intros code; simpl; [reflexivity|].
  rewrite IH. generalize (postgres.arrange (tl code) l) as rest.
  generalize (hd 0%nat code) as n.
  intros n rest. revert n.
  induction rest as [|y rest IHr]; intros [|n]; simpl; try reflexivity.
  rewrite IHr. reflexivity.
Qed.

(** ** Lookup by email in the PostgreSQL repository *)
Section ByEmail.
Context {S : Type} `{!SessionStore S} `{!PasswordScheme}.

(** C7: a login identifier containing [@] is resolved by
    [GetByEmail], which wants exactly one row whose email matches:
    with no such row the error is [ErrAccountNotFound], with more
    than one it is the error "More than 1 accounts with email
    address" and no account is picked; with exactly one, that row's
    account is the one looked up. *)
Theorem Authenticate_by_email (w : World S postgres.DB) (login password : string) :
  strings.Contains login "@" = true ->
  postgres.failure (accounts (s w)) = None ->
  let db := accounts (s w) in
  let matching :=
    List.filter (fun u => postgres.like db (postgres.Email u) login)
                (postgres.users db) in
  snd (Authenticate login password w) = after_calls w [Call_GetByEmail login] /\
  (matching = [] ->
     fst (Authenticate login password w) = (Account_zero, Some ErrAccountNotFound)) /\
  ((1 < List.length matching)%nat ->
     fst (Authenticate login password w) =
     (Account_zero, Some (errorString "More than 1 accounts with email address"))) /\
  (forall row, matching = [row] ->
     lookup w login = (postgres.toAccount row, None)).
Proof.
  intros Hat Hup db matching.
  rewrite Authenticate_unfold. unfold lookup, lookup_call. rewrite Hat. simpl.
  unfold postgres.GetByEmail, postgres.Select. rewrite Hup.
  fold db. change (postgres.where_ db (postgres.by_email login))
    with (fun u => postgres.like db (postgres.Email u) login).
  fold matching.
  pose proof (arrange_length (postgres.order db (postgres.by_email login)) matching)
    as Hlen.
  split; [reflexivity|].
  split; [intros ->; reflexivity|].
  split.
  - destruct (postgres.arrange _ matching) as [|r1 [|r2 rest]];
      simpl in Hlen; intros Hmany; [lia | lia | reflexivity].
  - intros row ->. simpl. destruct (hd _ _); reflexivity.
Qed.

End ByEmail.

Lemma Authenticate_by_email_witness :
  let w := scenario.world (scenario.request None None [])
             [scenario.alice; scenario.carol; scenario.alicia] [] in
  strings.Contains "alice@x.com" "@" = true /\
  postgres.failure (accounts (s w)) = None /\
  fst (Authenticate "alice@x.com" "s3cret" w) =
  (Account_zero, Some (errorString "More than 1 accounts with email address")) /\
  fst (Authenticate "bob@x.com" "s3cret" w) = (Account_zero, Some ErrAccountNotFound).
Proof.
  intros w.
  split; [reflexivity|]. split; [reflexivity|]. split.
  - destruct (Authenticate_by_email w "alice@x.com" "s3cret" eq_refl eq_refl)
      as (_ & _ & Hmany & _).
    apply Hmany. vm_compute. lia.
  - destruct (Authenticate_by_email w "bob@x.com" "s3cret" eq_refl eq_refl)
      as (_ & Hnone & _).
    apply Hnone. reflexivity.
Defined.

(** ** Session resolution *)
Section Sessions.
Context {S R : Type} `{!SessionStore S} `{!AccountsRepository R}
        `{!PasswordScheme}.

Lemma LogoutUser_unfold (w : World S R) :
  LogoutUser w =
  (tt,
   match http.Request_Cookie (c_Request w) "gq_session" with
   | (cookie, None) =>
       let (st, err) := Del (store (s w)) (http.Value cookie) in
       let w1 := with_s (with_store st (s w))
                   (after_calls w [Call_Cookie "gq_session";
                                   Call_store_Del (http.Value cookie)]) in
       with_c_Response (c_Response w ++ [clearing_cookie])
         match err with
         | Some err =>
             with_logger
               (logger w ++ [mkLogEntry Error "deleting session on logout" err]) w1
         | None => w1
         end
   | (_, Some _) =>
       with_c_Response (c_Response w ++ [clearing_cookie])
         (after_calls w [Call_Cookie "gq_session"])
   end).
Proof.
  unfold LogoutUser, Cookie, s_store_Del, SetCookie, logger_Errorw, record,
    bind, ret, after_calls, clearing_cookie.
  simpl.
  destruct (http.Request_Cookie _ _) as [cookie [e|]]; simpl; [reflexivity|].
  destruct (Del _ _) as [st [e|]]; simpl; rewrite <- ?app_assoc; reflexivity.
Qed.

Lemma GetSessionInfo_unfold (w : World S R) :
  GetSessionInfo w =
  match memo_session w with
  | Some si => ((Some si, None), w)
  | None =>
      let sid := session_cookie w in
      if bool_decide (sid = "") then
        ((None, None),
         with_c_store (<["session" := nil]> (c_store w))
           (after_calls w [Call_Cookie "gq_session"]))
      else
        let w2 := after_calls w [Call_Cookie "gq_session"; Call_store_Get sid] in
        match Get (store (s w)) sid with
        | (_, Some err) =>
            if errors.Is err ErrInvalidSession
            then ((None, None), snd (c_Set "session" nil (snd (LogoutUser w2))))
            else ((None, Some err), w2)
        | (data, None) =>
            let si := {| ID := sid; Username_ := data |} in
            ((Some si, None),
             with_c_store (<["session" := any_SessionInfo si]> (c_store w)) w2)
        end
  end.
Proof.
  unfold GetSessionInfo, memo_session, session_cookie, bind, c_Get.
  destruct (c_store w !! "session") as [[| si | u]|] eqn:Hmemo; simpl;
    try reflexivity;
    unfold Cookie, s_store_Get, c_Set, record, bind, ret, after_calls; simpl;
    destruct (http.Request_Cookie _ _) as [cookie [e|]]; simpl;
    try reflexivity;
    (destruct (bool_decide (http.Value cookie = "")); simpl;
     [reflexivity|]);
    rewrite <- ?app_assoc; simpl;
    (destruct (Get _ _) as [data [err|]]; simpl; [|reflexivity]);
    (destruct (errors.Is err ErrInvalidSession); simpl; [|reflexivity]);
    unfold bind; destruct (LogoutUser _); reflexivity.
Qed.

(** C3: when the store reports the session named by the cookie as
    invalid, [GetSessionInfo] does what [LogoutUser] does (the session
    is deleted from the store and the cookie overwritten by one that
    expires at once) and returns no session and no error; any other
    error of the store is returned as it is, with nothing cleared;
    and [GetSessionInfo] returns an error only in that second case. *)
Theorem GetSessionInfo_store_error (w : World S R) (data : string) (err : error) :
  memo_session w = None ->
  session_cookie w <> "" ->
  Get (store (s w)) (session_cookie w) = (data, Some err) ->
  let sid := session_cookie w in
  let w' := snd (GetSessionInfo w) in
  (errors.Is err ErrInvalidSession = true ->
     fst (GetSessionInfo w) = (None, None) /\
     w' = snd (c_Set "session" nil
                 (snd (LogoutUser
                         (after_calls w [Call_Cookie "gq_session";
                                         Call_store_Get sid])))) /\
     c_Response w' = (c_Response w ++ [clearing_cookie])%list /\
     store (s w') = fst (Del (store (s w)) sid) /\
     calls w' = (calls w ++ [Call_Cookie "gq_session"; Call_store_Get sid;
                             Call_Cookie "gq_session"; Call_store_Del sid])%list) /\
  (errors.Is err ErrInvalidSession = false ->
     fst (GetSessionInfo w) = (None, Some err) /\
     w' = after_calls w [Call_Cookie "gq_session"; Call_store_Get sid]) /\
  (forall r e, fst (GetSessionInfo w) = (r, Some e) ->
     e = err /\ errors.Is err ErrInvalidSession = false).
Proof.
  intros Hmemo Hsid Hget sid w'. subst sid w'.
  rewrite GetSessionInfo_unfold, Hmemo. cbv zeta.
  rewrite bool_decide_eq_false_2 by exact Hsid.
  rewrite Hget.
  split; [|split].
  - intros ->. simpl. split; [reflexivity|]. split; [reflexivity|].
    rewrite LogoutUser_unfold. simpl.
    assert (Hck : exists cookie, http.Request_Cookie (c_Request w) "gq_session"
                                 = (cookie, None)
                                 /\ http.Value cookie = session_cookie w).
    { unfold session_cookie in *.
      destruct (http.Request_Cookie _ _) as [cookie [e|]];
        [congruence | eauto]. }
    destruct Hck as (cookie & -> & ->).
    destruct (Del _ _) as [st [e|]]; simpl;
      rewrite <- ?app_assoc; repeat split; reflexivity.
  - intros ->. simpl. split; reflexivity.
  - intros r e. destruct (errors.Is err ErrInvalidSession); simpl;
      intros Heq; inversion Heq; subst; split; reflexivity.
Qed.


(** An error comes out of [GetSessionInfo] only as the store's answer
    to the lookup of the session cookie. *)
Lemma GetSessionInfo_error_origin (w : World S R) r e :
  fst (GetSessionInfo w) = (r, Some e) ->
  r = None /\ memo_session w = None /\ session_cookie w <> "" /\
  errors.Is e ErrInvalidSession = false /\
  exists data, Get (store (s w)) (session_cookie w) = (data, Some e).
Proof.
  rewrite GetSessionInfo_unfold.
  destruct (memo_session w); simpl; [intros [=]|].
  case_bool_decide as Hsid; simpl; [intros [=]|].
  destruct (Get _ _) as [data [err|]] eqn:Hget; simpl; [|intros [=]].
  destruct (errors.Is err ErrInvalidSession) eqn:His; simpl; intros [= <- <-].
  repeat split; eauto.
Qed.

End Sessions.



(** ** Identity resolution *)

(** The calls made so far are a prefix of the calls made in the end,
    and the calls added avoid one of the two paths. *)
Ltac solve_calls :=
  eexists; split;
  [ rewrite <- ?app_assoc; reflexivity
  | simpl;
    repeat match goal with
      | |- context [strings.Contains ?login "@"] =>
          destruct (strings.Contains login "@")
      end;
    reflexivity ].

Ltac solve_frame :=
  repeat split;
  first [ reflexivity
        | rewrite lookup_insert_ne by discriminate; reflexivity
        | solve_calls ].

Section Identity.
Context {S R : Type} `{!SessionStore S} `{!AccountsRepository R}
        `{!PasswordScheme}.

Lemma GetUser_unfold (w : World S R) :
  GetUser w =
  match memo_user w with
  | Some user => ((user, None), w)
  | None =>
      let auth := Authorization w in
      if negb (bool_decide (auth = "")) then
        let (item, c) := ttlcache.get (basicAuthCache (s w)) (now w) auth in
        let w1 := with_s (with_basicAuthCache c (s w))
                    (after_calls w [Call_basicAuthCache_Get auth]) in
        match item with
        | Some item => save_user (ttlcache.Value item) w1
        | None =>
            if basic_scheme auth then
              match base64.DecodeString (payload auth) with
              | None => ((AnonymousUser, Some CorruptInputError), w1)
              | Some b =>
                  match strings.SplitN2 b ":" with
                  | [login; password] =>
                      match Authenticate login password w1 with
                      | ((_, Some err), w2) => ((AnonymousUser, Some err), w2)
                      | ((account, None), w2) =>
                          save_user (AccountToUser account)
                            (snd (s_basicAuthCache_Set auth
                                    (AccountToUser account) w2))
                      end
                  | _ => save_user User_zero w1
                  end
              end
            else save_user User_zero w1
        end
      else
        match GetSessionInfo w with
        | ((_, Some err), w1) =>
            ((AnonymousUser, Some (Errorf_w "auth: get session user: %w" err)), w1)
        | ((None, None), w1) => ((AnonymousUser, None), w1)
        | ((Some session, None), w1) =>
            match s_cache_Get (Username_ session) w1 with
            | (None, w2) => ((AnonymousUser, None), w2)
            | (Some item, w2) => save_user (ttlcache.Value item) w2
            end
        end
  end.
Proof.
  unfold GetUser, memo_user, bind at 1, c_Get.
  destruct (c_store w !! "user") as [[| si | u]|] eqn:Hmemo; simpl;
    try reflexivity.
  all: unfold bind at 1, Header_Get, Authorization; simpl.
  all: destruct (bool_decide (http.Header_Get _ _ = "")); simpl.
  all: try (unfold bind at 1;
            destruct (GetSessionInfo w) as [[[si'|] [err|]] w1]; simpl;
            try reflexivity;
            unfold bind at 1;
            destruct (s_cache_Get _ _) as [[item|] w2]; reflexivity).
  all: unfold bind at 1, s_basicAuthCache_Get at 1, bind at 1, record,
         after_calls; simpl.
  all: destruct (ttlcache.get _ _ _) as [[item|] c]; simpl; try reflexivity.
  all: unfold basic_scheme, payload.
  all: destruct (bool_decide _ && _); try reflexivity.
  all: destruct (base64.DecodeString _) as [b|]; try reflexivity.
  all: destruct (strings.SplitN2 b ":") as [|login [|password [|]]];
         try reflexivity.
  all: unfold bind at 1;
       destruct (Authenticate _ _ _) as [[account [err|]] w2]; simpl;
         try reflexivity.
  all: unfold bind at 1; destruct (s_basicAuthCache_Set _ _ _); reflexivity.
Qed.

Lemma s_cache_Get_unfold (w : World S R) (key : string) :
  s_cache_Get key w =
  let (found, c) := ttlcache.get (cache (s w)) (now w) key in
  let w1 := with_s (with_cache c (s w)) (after_calls w [Call_cache_Get key]) in
  match found with
  | Some item => (Some item, w1)
  | None =>
      match GetByUsername (accounts (s w)) key with
      | (_, Some err) =>
          (None,
           with_logger (logger w ++ [mkLogEntry Error "getting account" err])
             (after_calls w1 [Call_GetByUsername key]))
      | (account, None) =>
          let (item, c') :=
            ttlcache.Set_ c (now w) key (AccountToUser account) in
          (Some item,
           with_s (with_cache c' (s w1))
             (after_calls w1 [Call_GetByUsername key; Call_cache_Set key]))
      end
  end.
Proof.
  unfold s_cache_Get, loader, s_accounts_GetByUsername, s_cache_Set,
    logger_Errorw, record, bind, ret, after_calls; simpl.
  destruct (ttlcache.get _ _ _) as [[item|] c]; simpl; [reflexivity|].
  destruct (GetByUsername _ _) as [account [err|]]; simpl;
    rewrite <- ?app_assoc; reflexivity.
Qed.

(** C2: a request with a non-empty [Authorization] header is resolved
    without any call to the request's cookies, the session store or
    the identity cache, none of which changes, and no session is
    remembered or cookie set; a request without the header is
    resolved without any call to the credential cache, which does
    not change, and without a lookup by email. *)
Theorem GetUser_paths_exclusive (w : World S R) :
  let w' := snd (GetUser w) in
  (Authorization w <> "" ->
     store (s w') = store (s w) /\
     cache (s w') = cache (s w) /\
     c_Response w' = c_Response w /\
     c_store w' !! "session" = c_store w !! "session" /\
     exists more, calls w' = (calls w ++ more)%list /\
                  forallb (fun call => negb (session_call call)) more = true) /\
  (Authorization w = "" ->
     basicAuthCache (s w') = basicAuthCache (s w) /\
     exists more, calls w' = (calls w ++ more)%list /\
                  forallb (fun call => negb (credential_call call)) more = true).
Proof.
  intros w'. subst w'. rewrite GetUser_unfold.
  destruct (memo_user w) as [user|]; simpl.
  { split; intros _; repeat split; exists []; rewrite app_nil_r; split; reflexivity. }
  split; intros Hauth.
  - rewrite bool_decide_eq_false_2 by exact Hauth. simpl.
    destruct (ttlcache.get _ _ _) as [[item|] c]; simpl; [solve_frame|].
    destruct (basic_scheme _); simpl; [|solve_frame].
    destruct (base64.DecodeString _) as [b|]; simpl; [|solve_frame].
    destruct (strings.SplitN2 b ":") as [|login [|password [|]]]; simpl;
      try solve_frame.
    rewrite Authenticate_unfold. unfold lookup_call.
    destruct (lookup _ _) as [account [err|]]; simpl; [solve_frame|].
    destruct (negb (Account_Active account)); simpl; [solve_frame|].
    destruct (negb (CheckPassword account password)); simpl; solve_frame.
  - rewrite Hauth. simpl.
    rewrite GetSessionInfo_unfold.
    destruct (memo_session w) as [si|]; simpl.
    + rewrite s_cache_Get_unfold.
      destruct (ttlcache.get _ _ _) as [[item|] c]; simpl; [solve_frame|].
      destruct (GetByUsername _ _) as [account [err|]]; simpl; solve_frame.
    + case_bool_decide as Hsid; simpl; [solve_frame|].
      destruct (Get _ _) as [data [err|]]; simpl.
      * destruct (errors.Is err ErrInvalidSession); simpl; [|solve_frame].
        rewrite LogoutUser_unfold; simpl.
        destruct (http.Request_Cookie _ _) as [cookie [e|]]; simpl;
          [solve_frame|].
        destruct (Del _ _) as [st [e|]]; simpl; solve_frame.
      * rewrite s_cache_Get_unfold. simpl.
        destruct (ttlcache.get _ _ _) as [[item|] c]; simpl; [solve_frame|].
        destruct (GetByUsername _ _) as [account [err|]]; simpl; solve_frame.
Qed.

End Identity.


Lemma cut_None_iff (sep : ascii) (s : string) :
  strings.cut sep s = None <-> strings.Contains s (String sep "") = false.
Proof.
  induction s as [|a s IH]; simpl.
  - split; reflexivity.
  - destruct (ascii_dec sep a) as [<-|Hne].
    + rewrite bool_decide_eq_true_2 by reflexivity.
      assert (Hp : String.prefix "" s = true) by (destruct s; reflexivity).
      rewrite Hp. simpl. split; discriminate.
    + rewrite bool_decide_eq_false_2 by congruence. simpl.
      destruct (strings.cut sep s) as [[before after]|].
      * split; [discriminate|]. intros Hn. apply IH in Hn. discriminate.
      * split; [intros _; apply IH; reflexivity | reflexivity].
Qed.

Section Malformed.
Context {S R : Type} `{!SessionStore S} `{!AccountsRepository R}
        `{!PasswordScheme}.

(** C4, as the code has it: on a miss of the credential cache, a
    header of the Basic scheme whose payload is not valid base64
    yields the decoding error together with [AnonymousUser]; a header
    that is not of the Basic scheme, or whose decoded payload has no
    colon, yields no error: the zero identity (not authenticated, not
    a guest) is returned and remembered for the request. *)
Theorem GetUser_malformed_header (w : World S R) :
  memo_user w = None ->
  Authorization w <> "" ->
  credential_cache_miss w ->
  let auth := Authorization w in
  (basic_scheme auth = true ->
   base64.DecodeString (payload auth) = None ->
     fst (GetUser w) = (AnonymousUser, Some CorruptInputError)) /\
  (basic_scheme auth = false ->
     fst (GetUser w) = (User_zero, None) /\
     memo_user (snd (GetUser w)) = Some User_zero) /\
  (forall b, basic_scheme auth = true ->
     base64.DecodeString (payload auth) = Some b ->
     strings.Contains b ":" = false ->
     fst (GetUser w) = (User_zero, None) /\
     memo_user (snd (GetUser w)) = Some User_zero).
Proof.
  intros Hmemo Hauth Hmiss auth. subst auth.
  rewrite GetUser_unfold, Hmemo. cbv zeta.
  rewrite bool_decide_eq_false_2 by exact Hauth. simpl.
  unfold credential_cache_miss in Hmiss.
  destruct (ttlcache.get _ _ _) as [found c]. simpl in Hmiss. subst found.
  split; [|split].
  - intros -> ->. reflexivity.
  - intros ->. simpl. unfold memo_user. simpl.
    rewrite lookup_insert_eq. split; reflexivity.
  - intros b -> -> Hcolon.
    apply cut_None_iff in Hcolon. unfold strings.SplitN2. rewrite Hcolon.
    simpl. unfold memo_user. simpl. rewrite lookup_insert_eq.
    split; reflexivity.
Qed.

(** C5, as the code has it: a request without [Authorization] header
    that carries no session cookie, or one the store no longer holds,
    or whose session names an account that cannot be loaded, gets
    [AnonymousUser] and no error; [AnonymousUser] is not
    authenticated and is a guest. *)
Theorem GetUser_anonymous (w : World S R) :
  memo_user w = None ->
  Authorization w = "" ->
  without_identity w ->
  fst (GetUser w) = (AnonymousUser, None) /\
  IsAuthenticated AnonymousUser = false /\
  IsGuest AnonymousUser = true.
Proof.
  intros Hmemo Hauth Hwithout.
  split; [|split; reflexivity].
  rewrite GetUser_unfold, Hmemo. cbv zeta. rewrite Hauth. simpl.
  rewrite GetSessionInfo_unfold.
  destruct Hwithout as [Hm Hsid | data err Hm Hsid Hget His
                       | si account err Hres Hmiss Hload].
  - rewrite Hm. cbv zeta. rewrite Hsid. reflexivity.
  - rewrite Hm. cbv zeta. rewrite bool_decide_eq_false_2 by exact Hsid.
    rewrite Hget, His. reflexivity.
  - unfold identity_cache_miss in Hmiss.
    destruct Hres as [Hm | (Hm & Hsid & Hid & Hget)]; rewrite Hm.
    + rewrite s_cache_Get_unfold.
      destruct (ttlcache.get _ _ _) as [found c]. simpl in Hmiss. subst found.
      simpl. rewrite Hload. reflexivity.
    + cbv zeta. rewrite bool_decide_eq_false_2 by exact Hsid.
      rewrite Hget. rewrite s_cache_Get_unfold. simpl.
      destruct (ttlcache.get _ _ _) as [found c]. simpl in Hmiss. subst found.
      simpl. rewrite Hload. reflexivity.
Qed.

End Malformed.

(** ** Memoization within a request *)
Section Memo.
Context {S R : Type} `{!SessionStore S} `{!AccountsRepository R}
        `{!PasswordScheme}.

Lemma GetSessionInfo_memo_hit (w : World S R) si :
  memo_session w = Some si -> GetSessionInfo w = ((Some si, None), w).
Proof. intros Hm. rewrite GetSessionInfo_unfold, Hm. reflexivity. Qed.

Lemma GetUser_memo_hit (w : World S R) user :
  memo_user w = Some user -> GetUser w = ((user, None), w).
Proof. intros Hm. rewrite GetUser_unfold, Hm. reflexivity. Qed.

Lemma memo_session_insert_user (w : World S R) user :
  memo_session (with_c_store (<["user" := any_User user]> (c_store w)) w)
  = memo_session w.
Proof. unfold memo_session; simpl. rewrite lookup_insert_ne by discriminate. reflexivity. Qed.

(** A found session is remembered. *)
Lemma GetSessionInfo_remembers (w : World S R) si :
  fst (GetSessionInfo w) = (Some si, None) ->
  memo_session (snd (GetSessionInfo w)) = Some si.
Proof.
  rewrite GetSessionInfo_unfold.
  destruct (memo_session w) as [si'|] eqn:Hm; simpl.
  { intros [= ->]. exact Hm. }
  case_bool_decide; simpl; [intros [=]|].
  destruct (Get _ _) as [data [err|]]; simpl.
  - destruct (errors.Is _ _); intros [=].
  - intros [= <-]. unfold memo_session; simpl.
    rewrite lookup_insert_eq. reflexivity.
Qed.

(** [GetSessionInfo] leaves a remembered identity alone. *)
Lemma GetSessionInfo_keeps_user (w : World S R) :
  memo_user (snd (GetSessionInfo w)) = memo_user w.
Proof.
  rewrite GetSessionInfo_unfold.
  destruct (memo_session w) as [si'|]; simpl; [reflexivity|].
  case_bool_decide; simpl.
  { unfold memo_user; simpl. rewrite lookup_insert_ne by discriminate. reflexivity. }
  destruct (Get _ _) as [data [err|]]; simpl.
  - destruct (errors.Is _ _); simpl; [|reflexivity].
    rewrite LogoutUser_unfold; simpl. unfold memo_user.
    destruct (http.Request_Cookie _ _) as [cookie [e|]]; simpl.
    { rewrite lookup_insert_ne by discriminate. reflexivity. }
    destruct (Del _ _) as [st [e|]]; simpl;
      rewrite lookup_insert_ne by discriminate; reflexivity.
  - unfold memo_user; simpl. rewrite lookup_insert_ne by discriminate. reflexivity.
Qed.

(** An identity returned without error, other than [AnonymousUser],
    is remembered. *)
Lemma GetUser_remembers (w : World S R) user :
  fst (GetUser w) = (user, None) ->
  user <> AnonymousUser ->
  memo_user (snd (GetUser w)) = Some user.
Proof.
  rewrite GetUser_unfold.
  destruct (memo_user w) as [user'|] eqn:Hm; simpl.
  { intros [= ->] _. exact Hm. }
  assert (Hsave : forall u (w0 : World S R),
             memo_user (snd (save_user u w0)) = Some u).
  { intros u w0. unfold memo_user; simpl. apply f_equal with (f := fun x => x).
    rewrite lookup_insert_eq. reflexivity. }
  destruct (negb _).
  - destruct (ttlcache.get _ _ _) as [[item|] c].
    { intros [= <-] _. apply Hsave. }
    destruct (basic_scheme _); [|intros [= <-] _; apply Hsave].
    destruct (base64.DecodeString _) as [b|]; [|intros [=]].
    destruct (strings.SplitN2 b ":") as [|login [|password [|]]];
      try (intros [= <-] _; apply Hsave).
    destruct (Authenticate _ _ _) as [[account [err|]] w2]; [intros [=]|].
    intros [= <-] _. apply Hsave.
  - destruct (GetSessionInfo w) as [[[si|] [err|]] w1]; simpl;
      try (intros [=]; congruence).
    destruct (s_cache_Get _ _) as [[item|] w2]; simpl.
    + intros [= <-] _. apply Hsave.
    + intros [= <-] Hne. congruence.
Qed.

(** [GetUser] leaves a remembered session alone. *)
Lemma GetUser_keeps_session (w : World S R) si :
  memo_session w = Some si ->
  memo_session (snd (GetUser w)) = Some si.
Proof.
  intros Hsi. rewrite GetUser_unfold.
  destruct (memo_user w) as [user'|]; simpl; [exact Hsi|].
  assert (Hsave : forall u (w0 : World S R),
             memo_session (snd (save_user u w0)) = memo_session w0).
  { intros u w0. apply memo_session_insert_user. }
  destruct (negb _).
  - destruct (ttlcache.get _ _ _) as [[item|] c].
    { rewrite Hsave. exact Hsi. }
    destruct (basic_scheme _); [|rewrite Hsave; exact Hsi].
    destruct (base64.DecodeString _) as [b|]; [|exact Hsi].
    destruct (strings.SplitN2 b ":") as [|login [|password [|]]];
      try (rewrite Hsave; exact Hsi).
    rewrite Authenticate_unfold.
    destruct (lookup _ _) as [account [err|]]; [exact Hsi|].
    destruct (negb (Account_Active account)); [exact Hsi|].
    destruct (negb (CheckPassword account password)); [exact Hsi|].
    rewrite Hsave. exact Hsi.
  - rewrite GetSessionInfo_memo_hit with (si := si) by exact Hsi.
    rewrite s_cache_Get_unfold.
    destruct (ttlcache.get _ _ _) as [[item|] c]; cbv beta iota zeta.
    { rewrite Hsave. exact Hsi. }
    destruct (GetByUsername _ _) as [account [err|]]; [exact Hsi|].
    destruct (ttlcache.Set_ _ _ _ _) as [item c'].
    rewrite Hsave. exact Hsi.
Qed.

Lemma run_ops_keeps_session (ops : list Op) (w : World S R) si :
  memo_session w = Some si -> memo_session (run_ops ops w) = Some si.
Proof.
  revert w. induction ops as [|op ops IH]; intros w Hsi; simpl; [exact Hsi|].
  apply IH. destruct op; simpl.
  - rewrite GetSessionInfo_memo_hit with (si := si) by exact Hsi. exact Hsi.
  - apply GetUser_keeps_session. exact Hsi.
Qed.

Lemma run_ops_keeps_user (ops : list Op) (w : World S R) user :
  memo_user w = Some user -> memo_user (run_ops ops w) = Some user.
Proof.
  revert w. induction ops as [|op ops IH]; intros w Hu; simpl; [exact Hu|].
  apply IH. destruct op; simpl.
  - rewrite GetSessionInfo_keeps_user. exact Hu.
  - rewrite GetUser_memo_hit with (user := user) by exact Hu. exact Hu.
Qed.

(** [GetSessionInfo] changes neither the caches nor the repository. *)
Lemma GetSessionInfo_keeps_caches (w : World S R) :
  let w' := snd (GetSessionInfo w) in
  cache (s w') = cache (s w) /\
  basicAuthCache (s w') = basicAuthCache (s w) /\
  accounts (s w') = accounts (s w) /\
  now w' = now w.
Proof.
  simpl. rewrite GetSessionInfo_unfold.
  destruct (memo_session w) as [si'|]; simpl; [repeat split|].
  case_bool_decide; simpl; [repeat split|].
  destruct (Get _ _) as [data [err|]]; simpl; [|repeat split].
  destruct (errors.Is _ _); simpl; [|repeat split].
  rewrite LogoutUser_unfold; simpl.
  destruct (http.Request_Cookie _ _) as [cookie [e|]]; simpl; [repeat split|].
  destruct (Del _ _) as [st [e|]]; simpl; repeat split.
Qed.

(** What [GetSessionInfo] answers on a request without identity. *)
Lemma without_identity_session (w : World S R) :
  without_identity w ->
  fst (GetSessionInfo w) = (None, None) \/
  exists si account err,
    fst (GetSessionInfo w) = (Some si, None) /\
    identity_cache_miss w (Username_ si) /\
    GetByUsername (accounts (s w)) (Username_ si) = (account, Some err).
Proof.
  intros [Hm Hsid | data err Hm Hsid Hget His
         | si account err Hres Hmiss Hload];
    rewrite GetSessionInfo_unfold.
  - left. rewrite Hm. cbv zeta. rewrite Hsid. reflexivity.
  - left. rewrite Hm. cbv zeta. rewrite bool_decide_eq_false_2 by exact Hsid.
    rewrite Hget, His. reflexivity.
  - right. exists si, account, err.
    split; [|split; assumption].
    destruct Hres as [Hm | (Hm & Hsid & Hid & Hget)]; rewrite Hm;
      [reflexivity|].
    cbv zeta. rewrite bool_decide_eq_false_2 by exact Hsid.
    rewrite Hget. simpl. rewrite <- Hid. destruct si; reflexivity.
Qed.

(** On a request without identity [GetUser] remembers no identity. *)
Lemma GetUser_anonymous_forgets (w : World S R) :
  memo_user w = None ->
  Authorization w = "" ->
  without_identity w ->
  memo_user (snd (GetUser w)) = None.
Proof.
  intros Hmemo Hauth Hwithout.
  rewrite GetUser_unfold, Hmemo. cbv zeta. rewrite Hauth. simpl.
  pose proof (GetSessionInfo_keeps_user w) as Hkeep.
  destruct (GetSessionInfo_keeps_caches w) as (Ec & _ & Ea & En).
  rewrite Hmemo in Hkeep.
  destruct (without_identity_session w Hwithout)
    as [Hnone | (si & account & err & Hsome & Hmiss & Hload)].
  - destruct (GetSessionInfo w) as [[r e] w1]. simpl in *.
    inversion Hnone; subst. exact Hkeep.
  - destruct (GetSessionInfo w) as [[r e] w1]. simpl in *.
    inversion Hsome; subst.
    rewrite s_cache_Get_unfold, Ec, En, Ea.
    unfold identity_cache_miss in Hmiss.
    destruct (ttlcache.get _ _ _) as [found c]. simpl in Hmiss. subst found.
    cbv beta iota zeta. rewrite Hload. exact Hkeep.
Qed.

(** C6, as the code has it: once [GetSessionInfo] has returned a
    session, every later [GetSessionInfo] on the same request
    context, after any further calls of [GetSessionInfo] and
    [GetUser], returns that session and leaves the world as it is,
    no call made; once [GetUser] has returned, without error, an
    identity other than [AnonymousUser], every later [GetUser]
    returns that identity and leaves the world as it is; a [GetUser]
    that finds no identity (no session, or no account for it)
    remembers none. *)
Theorem resolution_memoized (w : World S R) (ops : list Op) :
  (forall si, fst (GetSessionInfo w) = (Some si, None) ->
     let w2 := run_ops ops (snd (GetSessionInfo w)) in
     GetSessionInfo w2 = ((Some si, None), w2)) /\
  (forall user, fst (GetUser w) = (user, None) -> user <> AnonymousUser ->
     let w2 := run_ops ops (snd (GetUser w)) in
     GetUser w2 = ((user, None), w2)) /\
  (memo_user w = None -> Authorization w = "" -> without_identity w ->
     memo_user (snd (GetUser w)) = None).
Proof.
  split; [|split].
  - intros si Hfirst w2. apply GetSessionInfo_memo_hit.
    apply run_ops_keeps_session, GetSessionInfo_remembers, Hfirst.
  - intros user Hfirst Hne w2. apply GetUser_memo_hit.
    apply run_ops_keeps_user, GetUser_remembers; assumption.
  - apply GetUser_anonymous_forgets.
Qed.

End Memo.

(** ** Identities projected from accounts *)
Section Projection.
Context {S R : Type} `{!SessionStore S} `{!AccountsRepository R}
        `{!PasswordScheme}.

Lemma AccountToUser_consistent account : consistent (AccountToUser account).
Proof. intros [_ Hguest]. discriminate Hguest. Qed.

Lemma AnonymousUser_consistent : consistent AnonymousUser.
Proof. intros [Hauth _]. discriminate Hauth. Qed.

Lemma User_zero_consistent : consistent User_zero.
Proof. intros [Hauth _]. discriminate Hauth. Qed.

Lemma get_consistent (c : ttlcache.Cache User) now key :
  cache_consistent c ->
  cache_consistent (snd (ttlcache.get c now key)) /\
  forall item, fst (ttlcache.get c now key) = Some item ->
               consistent (ttlcache.Value item).
Proof.
  intros Hc. unfold ttlcache.get.
  destruct (ttlcache.items c !! key) as [item|] eqn:Hitem; simpl;
    [|split; [exact Hc | intros ? [=]]].
  destruct (ttlcache.isExpired now item); simpl;
    [split; [exact Hc | intros ? [=]]|].
  destruct (ttlcache.disableTouchOnHit c); simpl.
  - split; [exact Hc|]. intros ? [= <-]. eapply Hc, Hitem.
  - split.
    + intros k it. simpl. rewrite lookup_insert.
      case_decide; [intros [= <-]; simpl; eapply Hc, Hitem | apply Hc].
    + intros ? [= <-]. simpl. eapply Hc, Hitem.
Qed.

Lemma Set_consistent (c : ttlcache.Cache User) now key value :
  cache_consistent c -> consistent value ->
  cache_consistent (snd (ttlcache.Set_ c now key value)).
Proof.
  intros Hc Hv k it. simpl. rewrite lookup_insert.
  case_decide; [intros [= <-]; exact Hv | apply Hc].
Qed.

Lemma New_consistent ttl : cache_consistent (ttlcache.New ttl).
Proof. intros k it. simpl. rewrite lookup_empty. discriminate. Qed.

Lemma GetSessionInfo_consistent (w : World S R) :
  world_consistent w -> world_consistent (snd (GetSessionInfo w)).
Proof.
  intros (Hc & Hb & Hu).
  destruct (GetSessionInfo_keeps_caches w) as (Ec & Eb & _ & _).
  unfold world_consistent. rewrite Ec, Eb, GetSessionInfo_keeps_user.
  repeat split; assumption.
Qed.

Lemma save_user_consistent (w : World S R) user :
  world_consistent w -> consistent user ->
  consistent (fst (fst (save_user user w))) /\
  world_consistent (snd (save_user user w)).
Proof.
  intros (Hc & Hb & Hu) Huser. simpl. split; [exact Huser|].
  repeat split; try assumption.
  intros u. unfold memo_user; simpl. rewrite lookup_insert_eq.
  intros [= <-]. exact Huser.
Qed.

(** No identity [GetUser] returns, remembers or caches is both
    authenticated and a guest. *)
Lemma GetUser_consistent (w : World S R) :
  world_consistent w ->
  consistent (fst (fst (GetUser w))) /\ world_consistent (snd (GetUser w)).
Proof.
  intros Hw. pose proof Hw as (Hc & Hb & Hu).
  rewrite GetUser_unfold.
  destruct (memo_user w) as [user'|] eqn:Hm; simpl.
  { split; [apply Hu; reflexivity | exact Hw]. }
  destruct (negb _).
  - destruct (get_consistent (basicAuthCache (s w)) (now w) (Authorization w) Hb)
      as [Hb' Hitem].
    destruct (ttlcache.get _ _ _) as [found c]. simpl in Hb', Hitem.
    assert (Hw1 : world_consistent
                    (with_s (with_basicAuthCache c (s w))
                       (after_calls w [Call_basicAuthCache_Get (Authorization w)]))).
    { split; [exact Hc|]. split; [exact Hb'|].
      intros u Hu'. change (memo_user w = Some u) in Hu'. congruence. }
    destruct found as [item|].
    { apply save_user_consistent; [exact Hw1 | apply Hitem; reflexivity]. }
    destruct (basic_scheme _);
      [|apply save_user_consistent; [exact Hw1 | apply User_zero_consistent]].
    destruct (base64.DecodeString _) as [b|];
      [|split; [apply AnonymousUser_consistent | exact Hw1]].
    destruct (strings.SplitN2 b ":") as [|login [|password [|]]];
      try (apply save_user_consistent; [exact Hw1 | apply User_zero_consistent]).
    rewrite Authenticate_unfold.
    set (w1 := with_s _ _) in *.
    assert (Hw2 : world_consistent (after_calls w1 [lookup_call login])).
    { exact Hw1. }
    destruct (lookup _ _) as [account [err|]];
      [split; [apply AnonymousUser_consistent | exact Hw2]|].
    destruct (negb (Account_Active account));
      [split; [apply AnonymousUser_consistent | exact Hw2]|].
    destruct (negb (CheckPassword account password));
      [split; [apply AnonymousUser_consistent | exact Hw2]|].
    apply save_user_consistent; [|apply AccountToUser_consistent].
    destruct Hw2 as (Hc2 & Hb2 & Hu2).
    repeat split; try assumption.
    apply (Set_consistent _ _ _ _ Hb2 (AccountToUser_consistent account)).
  - pose proof (GetSessionInfo_consistent w Hw) as Hw1.
    destruct (GetSessionInfo w) as [[[si|] [err|]] w1]; simpl in Hw1;
      try (split; [apply AnonymousUser_consistent | exact Hw1]).
    rewrite s_cache_Get_unfold.
    destruct Hw1 as (Hc1 & Hb1 & Hu1).
    destruct (get_consistent (cache (s w1)) (now w1) (Username_ si) Hc1)
      as [Hc' Hitem].
    destruct (ttlcache.get _ _ _) as [found c]. simpl in Hc', Hitem.
    destruct found as [item|].
    { apply save_user_consistent; [|apply Hitem; reflexivity].
      repeat split; assumption. }
    destruct (GetByUsername _ _) as [account [err|]].
    { split; [apply AnonymousUser_consistent|]. repeat split; assumption. }
    pose proof (Set_consistent c (now w1) (Username_ si) _ Hc'
                  (AccountToUser_consistent account)) as Hset.
    unfold ttlcache.Set_ in *. cbv beta iota zeta. simpl in Hset.
    apply save_user_consistent; [|apply AccountToUser_consistent].
    repeat split; assumption.
Qed.


Lemma Authenticate_result_frame (w w1 : World S R) login password :
  accounts (s w1) = accounts (s w) ->
  fst (Authenticate login password w1) = fst (Authenticate login password w).
Proof.
  intros Hacc. rewrite !Authenticate_unfold. unfold lookup. rewrite Hacc.
  reflexivity.
Qed.

(** C10: the projection of an account is authenticated, not a guest,
    and carries the account's username, email, names, superuser flag
    and profile; it is what the identity cache loads and keeps on a
    miss and what the Basic-Auth path returns once the credentials
    are verified; and [GetUser] never returns, remembers or caches an
    identity that is both authenticated and a guest, provided none
    was there before. *)
Theorem projected_identity (w : World S R) :
  (forall account,
     let user := AccountToUser account in
     IsAuthenticated user = true /\ IsGuest user = false /\
     Username user = Account_Username account /\
     Email user = Account_Email account /\
     FirstName user = Account_FirstName account /\
     LastName user = Account_LastName account /\
     IsSuperuser user = Account_Superuser account /\
     Profile_ user = Account_Profile account) /\
  (forall username account,
     identity_cache_miss w username ->
     GetByUsername (accounts (s w)) username = (account, None) ->
     exists item,
       fst (s_cache_Get username w) = Some item /\
       ttlcache.Value item = AccountToUser account /\
       ttlcache.items (cache (s (snd (s_cache_Get username w)))) !! username
       = Some item) /\
  (forall b login password account,
     memo_user w = None ->
     Authorization w <> "" ->
     credential_cache_miss w ->
     basic_scheme (Authorization w) = true ->
     base64.DecodeString (payload (Authorization w)) = Some b ->
     strings.SplitN2 b ":" = [login; password] ->
     fst (Authenticate login password w) = (account, None) ->
     fst (GetUser w) = (AccountToUser account, None)) /\
  (world_consistent w ->
     consistent (fst (fst (GetUser w))) /\ world_consistent (snd (GetUser w))).
Proof.
  split; [intros account; repeat split|].
  split; [|split; [|apply GetUser_consistent]].
  - intros username account Hmiss Hload.
    rewrite s_cache_Get_unfold. unfold identity_cache_miss in Hmiss.
    destruct (ttlcache.get _ _ _) as [found c]. simpl in Hmiss. subst found.
    cbv beta iota zeta. rewrite Hload. unfold ttlcache.Set_. simpl.
    eexists. split; [reflexivity|]. split; [reflexivity|].
    apply lookup_insert_eq.
  - intros b login password account Hmemo Hauth Hmiss Hscheme Hdec Hsplit Hok.
    rewrite GetUser_unfold, Hmemo. cbv zeta.
    rewrite bool_decide_eq_false_2 by exact Hauth. simpl negb. cbv iota.
    unfold credential_cache_miss in Hmiss.
    destruct (ttlcache.get _ _ _) as [found c]. simpl in Hmiss. subst found.
    rewrite Hscheme, Hdec, Hsplit.
    match goal with
    | |- context [Authenticate login password ?w1] =>
        pose proof (Authenticate_result_frame w w1 login password eq_refl) as Hfr;
        rewrite Hok in Hfr;
        destruct (Authenticate login password w1) as [[account' err] w2]
    end.
    simpl in Hfr. inversion Hfr; subst. reflexivity.
Qed.

End Projection.


(** ** The login handler *)
Section Login.
Context {S R : Type} `{!SessionStore S} `{!AccountsRepository R}
        `{!PasswordScheme}.

Lemma handleLogin_rejects (srv : server.Server S R) form err :
  fst (server.Bind srv) = (form, None) ->
  server.validate_Struct form = None ->
  snd (fst (Authenticate (server.Username form) (server.Password form)
              (server.auth srv))) = Some err ->
  server.handleLogin srv
  = (Some (HTTPError http.StatusUnauthorized "Please provide valid credentials"),
     server.with_auth
       (after_calls (server.auth srv) [lookup_call (server.Username form)])
       srv).
Proof.
  intros Hbind Hvalid Hauth.
  unfold server.handleLogin, bind at 1.
  assert (Hb : server.Bind srv = ((form, None), srv)).
  { unfold server.Bind in *. destruct (http.Body _); simpl in *;
      [discriminate | congruence]. }
  rewrite Hb, Hvalid. unfold bind at 1, server.s_auth at 1.
  rewrite Authenticate_unfold in *. simpl in Hauth.
  destruct (lookup _ _) as [account [e|]]; simpl in *; [reflexivity|].
  destruct (negb (Account_Active account)); simpl in *; [reflexivity|].
  destruct (negb (CheckPassword account _)); simpl in *; [reflexivity|].
  discriminate.
Qed.

(** C9: whatever makes [Authenticate] fail, an unknown or inactive
    account in one request and a wrong password in another, the two
    login requests get the same answer from [handleLogin]: the error
    401 with the message "Please provide valid credentials", with no
    response body written, no cookie set and no session stored. *)
Theorem handleLogin_failures_indistinguishable
    (srv1 srv2 : server.Server S R) form1 form2 err1 err2 :
  fst (server.Bind srv1) = (form1, None) ->
  server.validate_Struct form1 = None ->
  fst (server.Bind srv2) = (form2, None) ->
  server.validate_Struct form2 = None ->
  snd (fst (Authenticate (server.Username form1) (server.Password form1)
              (server.auth srv1))) = Some err1 ->
  snd (fst (Authenticate (server.Username form2) (server.Password form2)
              (server.auth srv2))) = Some err2 ->
  fst (server.handleLogin srv1) = fst (server.handleLogin srv2) /\
  fst (server.handleLogin srv1)
  = Some (HTTPError http.StatusUnauthorized "Please provide valid credentials") /\
  (server.written (snd (server.handleLogin srv1)) = server.written srv1 /\
   c_Response (server.auth (snd (server.handleLogin srv1)))
   = c_Response (server.auth srv1) /\
   store (s (server.auth (snd (server.handleLogin srv1))))
   = store (s (server.auth srv1))) /\
  (server.written (snd (server.handleLogin srv2)) = server.written srv2 /\
   c_Response (server.auth (snd (server.handleLogin srv2)))
   = c_Response (server.auth srv2) /\
   store (s (server.auth (snd (server.handleLogin srv2))))
   = store (s (server.auth srv2))).
Proof.
  intros Hb1 Hv1 Hb2 Hv2 He1 He2.
  rewrite (handleLogin_rejects srv1 form1 err1 Hb1 Hv1 He1).
  rewrite (handleLogin_rejects srv2 form2 err2 Hb2 Hv2 He2).
  repeat split; reflexivity.
Qed.

End Login.

(** ** The properties on concrete requests *)

(** A request with valid Basic credentials, one with a session cookie
    the store holds, and one with a cookie the store does not hold. *)
Lemma GetUser_paths_exclusive_witness :
  let w := scenario.world
             (scenario.request (Some "Basic YWxpY2U6czNjcmV0") (Some "sid1") [])
             [scenario.alice] [("sid1", "alice")] in
  Authorization w <> "" /\
  store (s (snd (GetUser w))) = store (s w) /\
  calls (snd (GetUser w)) =
  [Call_basicAuthCache_Get "Basic YWxpY2U6czNjcmV0"; Call_GetByUsername "alice";
   Call_basicAuthCache_Set "Basic YWxpY2U6czNjcmV0"].
Proof.
  intros w.
  assert (Hauth : Authorization w <> "") by (vm_compute; discriminate).
  split; [exact Hauth|].
  destruct (GetUser_paths_exclusive w) as [Hbasic _].
  destruct (Hbasic Hauth) as (Hstore & _).
  split; [exact Hstore | reflexivity].
Defined.

Lemma GetSessionInfo_store_error_witness :
  let w := scenario.world (scenario.request None (Some "sid1") [])
             [scenario.alice] [] in
  memo_session w = None /\
  session_cookie w <> "" /\
  Get (store (s w)) (session_cookie w) = ("", Some ErrInvalidSession) /\
  fst (GetSessionInfo w) = (None, None) /\
  c_Response (snd (GetSessionInfo w)) = [clearing_cookie].
Proof.
  intros w.
  assert (Hsid : session_cookie w <> "") by (vm_compute; discriminate).
  assert (Hget : Get (store (s w)) (session_cookie w)
                 = ("", Some ErrInvalidSession)) by (vm_compute; reflexivity).
  split; [reflexivity|]. split; [exact Hsid|]. split; [exact Hget|].
  destruct (GetSessionInfo_store_error w "" ErrInvalidSession eq_refl Hsid Hget)
    as (Hinvalid & _ & _).
  destruct (Hinvalid eq_refl) as (Hres & _ & Hcookie & _).
  split; [exact Hres | exact Hcookie].
Defined.

(** A header of another scheme, and a Basic header whose payload
    decodes to a string without colon, are answered without error. *)
Lemma GetUser_malformed_header_without_error :
  let w1 := scenario.world (scenario.request (Some "Bearer abcdef") None [])
              [scenario.alice] [] in
  let w2 := scenario.world (scenario.request (Some "Basic dXNlcg==") None [])
              [scenario.alice] [] in
  (credential_cache_miss w1 /\
   basic_scheme (Authorization w1) = false /\
   fst (GetUser w1) = (User_zero, None) /\
   ~ (exists err, snd (fst (GetUser w1)) = Some err)) /\
  (credential_cache_miss w2 /\
   basic_scheme (Authorization w2) = true /\
   base64.DecodeString (payload (Authorization w2)) = Some "user" /\
   strings.SplitN2 "user" ":" = ["user"] /\
   fst (GetUser w2) = (User_zero, None) /\
   ~ (exists err, snd (fst (GetUser w2)) = Some err)).
Proof.
  vm_compute. repeat split; intros [err Herr]; discriminate Herr.
Qed.

Lemma GetUser_malformed_header_witness :
  let w := scenario.world (scenario.request (Some "Basic ####") None [])
             [scenario.alice] [] in
  memo_user w = None /\
  Authorization w <> "" /\
  credential_cache_miss w /\
  fst (GetUser w) = (AnonymousUser, Some CorruptInputError).
Proof.
  intros w.
  assert (Hauth : Authorization w <> "") by (vm_compute; discriminate).
  split; [reflexivity|]. split; [exact Hauth|]. split; [reflexivity|].
  destruct (GetUser_malformed_header w eq_refl Hauth eq_refl) as (Hcorrupt & _).
  apply Hcorrupt; reflexivity.
Defined.

(** The identity of a request without credentials is a guest. *)
Lemma GetUser_anonymous_is_guest :
  let w := scenario.world (scenario.request None None []) [scenario.alice] [] in
  Authorization w = "" /\
  session_cookie w = "" /\
  snd (fst (GetUser w)) = None /\
  IsAuthenticated (fst (fst (GetUser w))) = false /\
  IsGuest (fst (fst (GetUser w))) = true /\
  ~ (IsAuthenticated (fst (fst (GetUser w))) = false /\
     IsGuest (fst (fst (GetUser w))) = false).
Proof.
  vm_compute. repeat split. intros [_ Hguest]. discriminate Hguest.
Qed.

Lemma GetUser_anonymous_witness :
  let w := scenario.world (scenario.request None (Some "sid1") [])
             [scenario.alice] [("sid1", "bob")] in
  memo_user w = None /\
  Authorization w = "" /\
  without_identity w /\
  fst (GetUser w) = (AnonymousUser, None).
Proof.
  intros w.
  assert (Hwithout : without_identity w).
  { apply dangling_session
      with (si := mkSessionInfo "sid1" "bob") (account := Account_zero)
           (err := ErrAccountNotFound).
    - right. split; [reflexivity|]. split; [vm_compute; discriminate|].
      split; reflexivity.
    - reflexivity.
    - reflexivity. }
  split; [reflexivity|]. split; [reflexivity|]. split; [exact Hwithout|].
  apply (GetUser_anonymous w eq_refl eq_refl Hwithout).
Defined.

(** A session whose account is gone: the first [GetUser] answers with
    [AnonymousUser] and remembers nothing, and the second one asks the
    identity cache and the accounts repository again. *)
Lemma GetUser_anonymous_not_memoized :
  let w := scenario.world (scenario.request None (Some "sid1") [])
             [scenario.alice] [("sid1", "bob")] in
  let w1 := snd (GetUser w) in
  fst (GetUser w) = (AnonymousUser, None) /\
  memo_user w1 = None /\
  fst (GetUser w1) = (AnonymousUser, None) /\
  calls (snd (GetUser w1)) =
  (calls w1 ++ [Call_cache_Get "bob"; Call_GetByUsername "bob"])%list /\
  snd (GetUser w1) <> w1.
Proof.
  vm_compute. repeat split. intros Heq.
  apply (f_equal calls) in Heq. vm_compute in Heq. discriminate Heq.
Qed.

Lemma resolution_memoized_witness :
  let w := scenario.world (scenario.request None (Some "sid1") [])
             [scenario.alice] [("sid1", "alice")] in
  let user := AccountToUser (postgres.toAccount scenario.alice) in
  let w2 := run_ops [op_GetSessionInfo; op_GetUser] (snd (GetUser w)) in
  fst (GetUser w) = (user, None) /\
  user <> AnonymousUser /\
  GetUser w2 = ((user, None), w2).
Proof.
  intros w user w2.
  assert (Hne : user <> AnonymousUser) by (vm_compute; discriminate).
  split; [reflexivity|]. split; [exact Hne|].
  destruct (resolution_memoized w [op_GetSessionInfo; op_GetUser])
    as (_ & Huser & _).
  apply (Huser user eq_refl Hne).
Defined.

Lemma handleLogin_failures_indistinguishable_witness :
  let srv1 := scenario.serving
                (scenario.world
                   (scenario.request None None
                      [("username", "bob"); ("password", "x")])
                   [scenario.alice; scenario.carol] []) in
  let srv2 := scenario.serving
                (scenario.world
                   (scenario.request None None
                      [("username", "alice"); ("password", "wrong")])
                   [scenario.alice; scenario.carol] []) in
  snd (fst (Authenticate "bob" "x" (server.auth srv1))) = Some ErrAccountNotFound /\
  snd (fst (Authenticate "alice" "wrong" (server.auth srv2)))
  = Some ErrInvalidPassword /\
  fst (server.handleLogin srv1) = fst (server.handleLogin srv2).
Proof.
  intros srv1 srv2.
  split; [reflexivity|]. split; [reflexivity|].
  apply (handleLogin_failures_indistinguishable srv1 srv2
           (server.mkLoginForm "bob" "x") (server.mkLoginForm "alice" "wrong")
           ErrAccountNotFound ErrInvalidPassword);
    reflexivity.
Defined.

Lemma projected_identity_witness :
  let w := scenario.world
             (scenario.request (Some "Basic YWxpY2U6czNjcmV0") None [])
             [scenario.alice] [] in
  memo_user w = None /\
  Authorization w <> "" /\
  credential_cache_miss w /\
  fst (Authenticate "alice" "s3cret" w) = (postgres.toAccount scenario.alice, None) /\
  fst (GetUser w) = (AccountToUser (postgres.toAccount scenario.alice), None).
Proof.
  intros w.
  assert (Hauth : Authorization w <> "") by (vm_compute; discriminate).
  split; [reflexivity|]. split; [exact Hauth|]. split; [reflexivity|].
  split; [reflexivity|].
  destruct (projected_identity w) as (_ & _ & Hbasic & _).
  apply (Hbasic "alice:s3cret" "alice" "s3cret"); try reflexivity.
  exact Hauth.
Defined.

(** A session cookie the store does not hold: "no session" is stored
    under the context key as [nil], which the next [GetSessionInfo]
    does not recognise, so that it asks the store again. *)
Example GetSessionInfo_no_session_resolved_again :
  let w := scenario.world (scenario.request None (Some "sid1") [])
             [scenario.alice] [] in
  let w1 := snd (GetSessionInfo w) in
  fst (GetSessionInfo w) = (None, None) /\
  c_store w1 !! "session" = Some nil /\
  calls (snd (GetSessionInfo w1)) =
  (calls w1 ++ [Call_Cookie "gq_session"; Call_store_Get "sid1";
                Call_Cookie "gq_session"; Call_store_Del "sid1"])%list.
Proof. vm_compute. repeat split. Qed.

(** ** Lookups that leave the cache as it is *)
Lemma get_miss_unchanged {V} (c : ttlcache.Cache V) now key :
  fst (ttlcache.get c now key) = None -> snd (ttlcache.get c now key) = c.
Proof.
  unfold ttlcache.get.
  destruct (ttlcache.items c !! key) as [item|]; [|reflexivity].
  destruct (ttlcache.isExpired now item); [reflexivity|].
  destruct (ttlcache.disableTouchOnHit c); simpl; [intros [=] | intros [=]].
Qed.

Lemma get_untouched {V} (c : ttlcache.Cache V) now key :
  ttlcache.disableTouchOnHit c = true -> snd (ttlcache.get c now key) = c.
Proof.
  intros Hd. unfold ttlcache.get.
  destruct (ttlcache.items c !! key) as [item|]; [|reflexivity].
  destruct (ttlcache.isExpired now item); [reflexivity|].
  rewrite Hd. reflexivity.
Qed.

(** ** Concurrent lookups in the identity cache *)
Section Concurrent.
Context {S R : Type} `{!SessionStore S} `{!AccountsRepository R}
        `{!PasswordScheme}.

Lemma with_cache_same (a : AuthService S R) : with_cache (cache a) a = a.
Proof. destruct a; reflexivity. Qed.

(** The two steps of one goroutine are [s_cache_Get]. *)
Lemma s_cache_Get_in_steps (w : World S R) (key : string) :
  run_schedule [0; 0]%nat [looking_up key] w
  = let (item, w') := s_cache_Get key w in ([returned item], w').
Proof.
  unfold s_cache_Get, run_schedule, step, bind, ret, record. simpl.
  destruct (ttlcache.get _ _ _) as [[item|] c]; simpl; [reflexivity|].
  destruct (loader key _) as [item w']. reflexivity.
Qed.

Lemma run_schedule_app (first then_ : list nat) (gs : list Goroutine)
    (w : World S R) :
  run_schedule (first ++ then_) gs w
  = run_schedule then_ (fst (run_schedule first gs w))
      (snd (run_schedule first gs w)).
Proof.
  revert gs w. induction first as [|i first IH]; intros gs w; simpl;
    [reflexivity|].
  destruct (gs !! i) as [g|]; [|apply IH].
  unfold bind. destruct (step g w) as [g' w']. apply IH.
Qed.

Lemma run_schedule_cons (i : nat) (schedule : list nat) (gs : list Goroutine)
    (g : Goroutine) (w : World S R) :
  gs !! i = Some g ->
  run_schedule (i :: schedule) gs w
  = run_schedule schedule (<[i := fst (step g w)]> gs) (snd (step g w)).
Proof.
  intros Hg. simpl. rewrite Hg. unfold bind.
  destruct (step g w) as [g' w']. reflexivity.
Qed.

(** A lookup that misses changes nothing but the calls made. *)
Lemma step_lookup_miss (w : World S R) (key : string) :
  identity_cache_miss w key ->
  step (looking_up key) w
  = (loading key, after_calls w [Call_cache_Get key]).
Proof.
  unfold identity_cache_miss. intros Hmiss.
  pose proof (get_miss_unchanged _ _ _ Hmiss) as Hsame.
  unfold step, bind, ret, record, after_calls. simpl.
  destruct (ttlcache.get (cache (s w)) (now w) key) as [found c].
  simpl in Hmiss, Hsame. subst found c.
  rewrite with_cache_same. reflexivity.
Qed.

Lemma run_lookups (key : string) (m : nat) :
  forall (k : nat) (w : World S R),
    identity_cache_miss w key ->
    run_schedule (seq k m)
      (replicate k (loading key) ++ replicate m (looking_up key))%list w
    = (replicate (k + m) (loading key),
       after_calls w (replicate m (Call_cache_Get key))).
Proof.
  induction m as [|m IH]; intros k w Hmiss.
  - simpl. rewrite app_nil_r, Nat.add_0_r. unfold ret, after_calls.
    rewrite app_nil_r. destruct w; reflexivity.
  - cbn [seq].
    rewrite (run_schedule_cons _ _ _ (looking_up key)).
    2:{ rewrite lookup_app_r by (rewrite length_replicate; lia).
        rewrite length_replicate, Nat.sub_diag. reflexivity. }
    rewrite step_lookup_miss by exact Hmiss. cbn [fst snd].
    rewrite insert_app_r_alt by (rewrite length_replicate; lia).
    rewrite length_replicate, Nat.sub_diag. cbn [replicate].
    change (<[0%nat := loading key]> (looking_up key :: replicate m (looking_up key)))
      with (loading key :: replicate m (looking_up key)).
    change (replicate k (loading key) ++ loading key :: replicate m (looking_up key))%list
      with (replicate k (loading key) ++ [loading key] ++ replicate m (looking_up key))%list.
    rewrite app_assoc, <- replicate_S_end.
    rewrite (IH (Datatypes.S k)) by exact Hmiss.
    rewrite Nat.add_succ_r. simpl. f_equal.
    unfold after_calls. simpl. rewrite <- app_assoc. reflexivity.
Qed.

Lemma loaded_alike (w w' : World S R) (key : string) :
  loads_alike w w' -> loaded w' key = loaded w key.
Proof. intros (Ha & Hn & Ht). unfold loaded. rewrite Ha, Hn, Ht. reflexivity. Qed.

Lemma loads_after (w : World S R) (key : string) (more : list Call) :
  loads key (after_calls w more)
  = (loads key w
     + List.length
         (List.filter (fun call => bool_decide (call = Call_GetByUsername key))
            more))%nat.
Proof.
  unfold loads, after_calls. simpl. rewrite List.filter_app, length_app.
  reflexivity.
Qed.

Lemma lookups_load_nothing (key : string) (n : nat) :
  List.filter (fun call => bool_decide (call = Call_GetByUsername key))
    (replicate n (Call_cache_Get key)) = [].
Proof. induction n as [|n IH]; simpl; [reflexivity | exact IH]. Qed.

(** A goroutine that has missed loads, whatever the cache holds by
    then. *)
Lemma step_loading (w : World S R) (key : string) :
  fst (step (loading key) w) = returned (loaded w key) /\
  loads_alike w (snd (step (loading key) w)) /\
  loads key (snd (step (loading key) w)) = Datatypes.S (loads key w).
Proof.
  unfold step, loader, s_accounts_GetByUsername, s_cache_Set, logger_Errorw,
    record, bind, ret, loaded, loads_alike, loads. simpl.
  destruct (GetByUsername (accounts (s w)) key) as [account [err|]]; simpl;
    rewrite ?List.filter_app, ?length_app; simpl;
    rewrite bool_decide_eq_true_2 by reflexivity; simpl;
    (split; [reflexivity|]); (split; [repeat split; reflexivity|]); lia.
Qed.

Lemma run_loads (key : string) (schedule : list nat) :
  forall (gs : list Goroutine) (w : World S R),
    List.NoDup schedule ->
    (forall i, In i schedule -> gs !! i = Some (loading key)) ->
    let run := run_schedule schedule gs w in
    (forall i, In i schedule -> fst run !! i = Some (returned (loaded w key))) /\
    (forall i, ~ In i schedule -> fst run !! i = gs !! i) /\
    List.length (fst run) = List.length gs /\
    loads_alike w (snd run) /\
    loads key (snd run) = (loads key w + List.length schedule)%nat.
Proof.
  induction schedule as [|i schedule IH]; intros gs w Hnodup Hloading run.
  - subst run. simpl. split; [intros i []|]. split; [reflexivity|].
    split; [reflexivity|]. split; [repeat split; reflexivity | lia].
  - subst run.
    rewrite (run_schedule_cons _ _ _ (loading key))
      by exact (Hloading i (or_introl eq_refl)).
    destruct (step_loading w key) as (Hitem & Halike & Hcount).
    destruct (step (loading key) w) as [g' w1]. cbn [fst snd] in *.
    subst g'.
    apply NoDup_cons_iff in Hnodup. destruct Hnodup as [Hnotin Hnodup].
    assert (Hi : (i < List.length gs)%nat)
      by (eapply lookup_lt_Some, Hloading; left; reflexivity).
    destruct (IH (<[i := returned (loaded w key)]> gs) w1 Hnodup)
      as (Hran & Hrest & Hlen & Halike' & Hcount').
    { intros j Hj. rewrite list_lookup_insert_ne by (intros ->; contradiction).
      apply Hloading. right. exact Hj. }
    rewrite (loaded_alike _ _ _ Halike) in Hran.
    split; [|split; [|split; [|split]]].
    + intros j [<- | Hj]; [|apply Hran; exact Hj].
      rewrite Hrest by exact Hnotin.
      apply list_lookup_insert_eq. exact Hi.
    + intros j Hj. rewrite Hrest by (intros Hin; apply Hj; right; exact Hin).
      apply list_lookup_insert_ne. intros ->. apply Hj. left. reflexivity.
    + rewrite Hlen. apply length_insert.
    + destruct Halike as (Ha & Hn & Ht), Halike' as (Ha' & Hn' & Ht').
      repeat split; congruence.
    + rewrite Hcount', Hcount. simpl. lia.
Qed.

(** C8, as the code has it: when N lookups in the identity cache have
    missed on the same username before any load has stored its item,
    each of them runs the loader.  In whatever order the N goroutines
    then take their step, N loads from the accounts repository are
    made, one for each caller, and each caller returns what its own
    load gives: the item with the projection of the account, or no
    item when the account cannot be got. *)
Theorem concurrent_misses_each_load (w : World S R) (key : string) (N : nat)
    (loading_order : list nat) :
  identity_cache_miss w key ->
  Permutation loading_order (seq 0 N) ->
  let looked_up :=
    run_schedule (seq 0 N) (replicate N (looking_up key)) w in
  let done :=
    run_schedule (seq 0 N ++ loading_order) (replicate N (looking_up key)) w in
  fst looked_up = replicate N (loading key) /\
  loads key (snd looked_up) = loads key w /\
  fst done = replicate N (returned (loaded w key)) /\
  loads key (snd done) = (loads key w + N)%nat.
Proof.
  intros Hmiss Horder looked_up done.
  pose proof (run_lookups key N 0%nat w Hmiss) as Hlooked.
  simpl in Hlooked.
  assert (Hfirst : looked_up
                   = (replicate N (loading key),
                      after_calls w (replicate N (Call_cache_Get key))))
    by exact Hlooked.
  assert (Hquiet : loads key (after_calls w (replicate N (Call_cache_Get key)))
                   = loads key w).
  { rewrite loads_after.
    rewrite lookups_load_nothing. simpl. lia. }
  split; [rewrite Hfirst; reflexivity|].
  split; [rewrite Hfirst; exact Hquiet|].
  subst done. rewrite run_schedule_app. fold looked_up. rewrite Hfirst.
  cbn [fst snd].
  assert (Hnodup : List.NoDup loading_order).
  { apply (Permutation_NoDup (l := seq 0 N)); [symmetry; exact Horder|].
    apply seq_NoDup. }
  assert (Hin : forall i, In i loading_order <-> (i < N)%nat).
  { intros i. split; intros Hi.
    - apply (Permutation_in _ Horder), in_seq in Hi. lia.
    - apply (Permutation_in _ (Permutation_sym Horder)), in_seq. lia. }
  destruct (run_loads key loading_order (replicate N (loading key))
              (after_calls w (replicate N (Call_cache_Get key))) Hnodup)
    as (Hran & _ & Hlen & _ & Hcount).
  { intros i Hi. apply lookup_replicate_2, Hin, Hi. }
  split.
  - apply list_eq. intros i.
    destruct (decide (i < N)%nat) as [Hi|Hi].
    + rewrite Hran by (apply Hin; exact Hi).
      rewrite lookup_replicate_2 by exact Hi. reflexivity.
    + rewrite !lookup_ge_None_2; [reflexivity | |].
      * rewrite length_replicate. lia.
      * rewrite Hlen, length_replicate. lia.
  - rewrite Hcount, Hquiet.
    rewrite (Permutation_length Horder), length_seq. reflexivity.
Qed.

End Concurrent.

(** Two goroutines look [alice] up in the identity cache of a service
    that has just started.  Both miss before either has loaded, and the
    accounts repository is asked for the account twice. *)
Lemma concurrent_misses_load_twice :
  let w := scenario.world (scenario.request None None []) [scenario.alice] [] in
  let gs := [looking_up "alice"; looking_up "alice"] in
  let done := run_schedule [0; 1; 0; 1]%nat gs w in
  identity_cache_miss w "alice" /\
  fst (run_schedule [0; 1]%nat gs w) = [loading "alice"; loading "alice"] /\
  calls (snd done)
  = [Call_cache_Get "alice"; Call_cache_Get "alice";
     Call_GetByUsername "alice"; Call_cache_Set "alice";
     Call_GetByUsername "alice"; Call_cache_Set "alice"] /\
  loads "alice" w = 0%nat /\
  loads "alice" (snd done) = 2%nat /\
  loads "alice" (snd done) <> 1%nat.
Proof. vm_compute. repeat split. discriminate. Qed.

Lemma concurrent_misses_each_load_witness :
  let w := scenario.world (scenario.request None None []) [scenario.alice] [] in
  let done :=
    run_schedule (seq 0 2 ++ [1; 0]%nat) (replicate 2 (looking_up "alice")) w in
  identity_cache_miss w "alice" /\
  Permutation [1; 0]%nat (seq 0 2) /\
  fst done = replicate 2 (returned (loaded w "alice")) /\
  loads "alice" (snd done) = 2%nat.
Proof.
  intros w done.
  assert (Hmiss : identity_cache_miss w "alice") by reflexivity.
  assert (Horder : Permutation [1; 0]%nat (seq 0 2)) by apply perm_swap.
  destruct (concurrent_misses_each_load w "alice" 2 [1; 0]%nat Hmiss Horder)
    as (_ & _ & Hdone & Hloads).
  split; [exact Hmiss|]. split; [exact Horder|].
  split; [exact Hdone | exact Hloads].
Defined.

(** * Further properties *)

(** ** The PostgreSQL accounts repository *)

(** X1: The two conversions between rows and accounts lose nothing. *)
Theorem toAccount_toUser_round_trip :
  (forall a, postgres.toAccount (postgres.toUser a) = a) /\
  (forall row, postgres.toUser (postgres.toAccount row) = row).
Proof. split; intros []; reflexivity. Qed.

Lemma filter_map_commute {A} (p : A -> bool) (f : A -> A) (l : list A) :
  (forall x, p (f x) = p x) ->
  List.filter p (List.map f l) = List.map f (List.filter p l).
Proof.
  intros Hp. induction l as [|x l IH]; simpl; [reflexivity|].
  rewrite Hp. destruct (p x); simpl; rewrite IH; reflexivity.
Qed.

Lemma filter_nil_iff {A} (p : A -> bool) (l : list A) :
  List.filter p l = [] <-> existsb p l = false.
Proof.
  induction l as [|x l IH]; simpl; [tauto|].
  destruct (p x); simpl; [split; discriminate | exact IH].
Qed.

Lemma result_head_In {A} (code : list nat) (p : A -> bool) (l : list A) x rest :
  postgres.arrange code (List.filter p l) = x :: rest -> In x l /\ p x = true.
Proof.
  intros Hf. apply filter_In, (arrange_In code). rewrite Hf. left. reflexivity.
Qed.

Lemma result_nil_iff {A} (code : list nat) (p : A -> bool) (l : list A) :
  postgres.arrange code (List.filter p l) = [] <-> existsb p l = false.
Proof. rewrite arrange_nil_iff. apply filter_nil_iff. Qed.

Lemma filter_Permutation_bool {A} (p : A -> bool) (l l' : list A) :
  Permutation l l' -> Permutation (List.filter p l) (List.filter p l').
Proof.
  induction 1 as [|x l l' _ IH|x y l|l l' l'' _ IH1 _ IH2]; simpl.
  - reflexivity.
  - destruct (p x); [apply perm_skip|]; exact IH.
  - destruct (p x), (p y); try reflexivity. apply perm_swap.
  - etransitivity; eassumption.
Qed.

Lemma filter_filter_other {A} (p q : A -> bool) (l : list A) :
  (forall x, p x = true -> q x = true) ->
  List.filter p (List.filter q l) = List.filter p l.
Proof.
  intros Hpq. induction l as [|x l IH]; simpl; [reflexivity|].
  destruct (q x) eqn:Hq; simpl.
  - rewrite IH. reflexivity.
  - destruct (p x) eqn:Hp; [|exact IH].
    apply Hpq in Hp. congruence.
Qed.

(** X2: [GetByUsername] on a database that answers: the error is
    [ErrAccountNotFound] exactly when no row has the username, and an
    account that is returned comes from a row of the table and has the
    username asked for.  Whatever the database, [sql.ErrNoRows] itself
    is never returned. *)
Theorem GetByUsername_found (db : postgres.DB) (username : string) :
  (postgres.failure db = None ->
   (existsb (fun u => bool_decide (postgres.Username u = username))
            (postgres.users db) = false <->
    postgres.GetByUsername db username = (Account_zero, Some ErrAccountNotFound)) /\
   (existsb (fun u => bool_decide (postgres.Username u = username))
            (postgres.users db) = true <->
    snd (postgres.GetByUsername db username) = None)) /\
  (forall account, postgres.GetByUsername db username = (account, None) ->
     Account_Username account = username /\
     exists row, In row (postgres.users db) /\ account = postgres.toAccount row) /\
  snd (postgres.GetByUsername db username) <> Some ErrNoRows.
Proof.
  unfold postgres.GetByUsername, postgres.find, postgres.Get, postgres.Select.
  set (p := fun u => bool_decide (postgres.Username u = username)).
  change (postgres.where_ db (postgres.by_username username)) with p.
  set (code := postgres.order db (postgres.by_username username)).
  split; [|split].
  - intros ->.
    destruct (postgres.arrange code (List.filter p (postgres.users db)))
      as [|row rest] eqn:Hf; simpl.
    + apply result_nil_iff in Hf. rewrite Hf. split; split; congruence.
    + assert (He : existsb p (postgres.users db) = true).
      { destruct (existsb p (postgres.users db)) eqn:He; [reflexivity|].
        apply (result_nil_iff code) in He. congruence. }
      rewrite He. split; split; congruence.
  - intros account.
    destruct (postgres.failure db) as [err|]; simpl.
    { destruct (bool_decide (err = ErrNoRows)); intros [=]. }
    destruct (postgres.arrange code (List.filter p (postgres.users db)))
      as [|row rest] eqn:Hf; simpl; [intros [=]|].
    intros [= <-]. apply result_head_In in Hf. destruct Hf as [Hin Hp].
    split; [|eauto].
    unfold p in Hp. apply bool_decide_eq_true_1 in Hp. exact Hp.
  - destruct (postgres.failure db) as [err|]; simpl.
    { case_bool_decide as He; simpl; congruence. }
    destruct (postgres.arrange code (List.filter p (postgres.users db)));
      simpl; congruence.
Qed.

(** X3: [Update] on a database that answers.  When the statement is
    refused the database stays as it is.  When it returns no error,
    the accounts of other usernames are as before, and
    [GetByUsername] reads back the account written, with its
    timestamps as the columns keep them, in every field but the
    profile, which stays the row's; a username no row has leaves the
    database as it is.  An account whose timestamps the columns keep
    exactly is read back as it was written. *)
Theorem Update_then_GetByUsername (db : postgres.DB) (a : Account) :
  postgres.failure db = None ->
  let db' := fst (postgres.Update db a) in
  let kept := postgres.toAccount (postgres.stored db (postgres.toUser a)) in
  (snd (postgres.Update db a) <> None -> db' = db) /\
  (snd (postgres.Update db a) = None ->
   (forall username, username <> Account_Username a ->
      postgres.GetByUsername db' username = postgres.GetByUsername db username) /\
   (forall old, postgres.GetByUsername db (Account_Username a) = (old, None) ->
      postgres.GetByUsername db' (Account_Username a)
      = (with_Profile (Account_Profile old) kept, None)) /\
   (snd (postgres.GetByUsername db (Account_Username a)) = Some ErrAccountNotFound ->
      db' = db)) /\
  ((forall t, In (Some t) [Account_Created a; Account_Confirmed a;
                           Account_LastLogin a] ->
              postgres.timestamp db t = t) ->
   kept = a).
Proof.
  intros Hup db' kept.
  split; [|split].
  - subst db'. unfold postgres.Update. rewrite Hup. cbv zeta.
    destruct (postgres.constraints db _) as [err|]; simpl; congruence.
  - subst db' kept. unfold postgres.Update. rewrite Hup. cbv zeta.
    set (set := fun row : postgres.User => if bool_decide _ then _ else row).
    destruct (postgres.constraints db _) as [err|]; simpl; [discriminate|].
    intros _.
    assert (Hname : forall row, postgres.Username (set row) = postgres.Username row).
    { intros row. unfold set. case_bool_decide as Hrow; simpl in *; congruence. }
    unfold postgres.GetByUsername, postgres.find, postgres.Get, postgres.Select.
    simpl. rewrite Hup.
    split; [|split].
    + intros username Hne.
      rewrite filter_map_commute
        by (intros row; unfold postgres.where_; rewrite Hname; reflexivity).
      rewrite arrange_map.
      destruct (postgres.arrange _ (List.filter _ (postgres.users db)))
        as [|row rest] eqn:Hf; simpl; [reflexivity|].
      apply result_head_In in Hf. destruct Hf as [_ Hrow].
      apply bool_decide_eq_true_1 in Hrow.
      unfold set. rewrite bool_decide_eq_false_2 by (simpl; congruence).
      reflexivity.
    + intros old.
      rewrite filter_map_commute
        by (intros row; unfold postgres.where_; rewrite Hname; reflexivity).
      rewrite arrange_map.
      destruct (postgres.arrange _ (List.filter _ (postgres.users db)))
        as [|row rest] eqn:Hf; simpl; [intros [=]|].
      intros [= <-].
      apply result_head_In in Hf. destruct Hf as [_ Hrow].
      apply bool_decide_eq_true_1 in Hrow.
      unfold set. rewrite bool_decide_eq_true_2 by (simpl; exact Hrow).
      reflexivity.
    + destruct (postgres.arrange _ (List.filter _ (postgres.users db)))
        as [|row rest] eqn:Hf; simpl; [|intros [=]].
      intros _. apply arrange_nil_iff in Hf.
      assert (Hmap : List.map set (postgres.users db) = postgres.users db).
      { revert Hf. generalize (postgres.users db) as l.
        induction l as [|row l IH]; simpl; [reflexivity|].
        case_bool_decide as Hrow; simpl; [intros [=]|].
        intros Hf. rewrite IH by exact Hf. unfold set.
        rewrite bool_decide_eq_false_2 by (simpl; exact Hrow). reflexivity. }
      rewrite Hmap. destruct db; reflexivity.
  - subst kept. intros Hkeep.
    destruct a as [u e pw fn ln act su cr co ll pr]; simpl in *.
    unfold postgres.toAccount, postgres.stored; simpl.
    assert (Hfix : forall o, In o [cr; co; ll] -> postgres.timestamp db <$> o = o).
    { intros [t|] Hin; simpl; [|reflexivity]. rewrite Hkeep by exact Hin.
      reflexivity. }
    rewrite !Hfix by (simpl; tauto). reflexivity.
Qed.

(** X4: [Delete] on a database that answers never fails; afterwards the
    username is not found, and every other username is looked up as
    before. *)
Theorem Delete_then_GetByUsername (db : postgres.DB) (username : string) :
  postgres.failure db = None ->
  let db' := fst (postgres.Delete db username) in
  snd (postgres.Delete db username) = None /\
  postgres.GetByUsername db' username = (Account_zero, Some ErrAccountNotFound) /\
  (forall other, other <> username ->
     postgres.GetByUsername db' other = postgres.GetByUsername db other).
Proof.
  intros Hup db'. subst db'. unfold postgres.Delete. rewrite Hup. simpl.
  split; [reflexivity|].
  unfold postgres.GetByUsername, postgres.find, postgres.Get, postgres.Select.
  simpl. rewrite Hup.
  split.
  - assert (Hf : forall d,
               List.filter
                 (postgres.where_ d (postgres.by_username username))
                 (List.filter
                    (fun u => negb (bool_decide (postgres.Username u = username)))
                    (postgres.users db)) = []).
    { intros d.
      induction (postgres.users db) as [|row l IH]; simpl; [reflexivity|].
      case_bool_decide as Hrow; simpl; [exact IH|].
      rewrite bool_decide_eq_false_2 by exact Hrow. exact IH. }
    rewrite Hf. reflexivity.
  - intros other Hne.
    rewrite filter_filter_other; [reflexivity|].
    intros row Hrow. apply bool_decide_eq_true_1 in Hrow.
    rewrite bool_decide_eq_false_2 by congruence. reflexivity.
Qed.

(** X5: [UsernameExists] agrees with [GetByUsername]: on a database that
    answers it says yes exactly when the lookup succeeds; and where the
    lookup turns [sql.ErrNoRows] into "not found", it answers no
    without error. *)
Theorem UsernameExists_agrees (db : postgres.DB) (username : string) :
  (postgres.failure db = None ->
   snd (postgres.UsernameExists db username) = None /\
   (fst (postgres.UsernameExists db username) = true <->
    snd (postgres.GetByUsername db username) = None)) /\
  (postgres.failure db = Some ErrNoRows ->
   postgres.UsernameExists db username = (false, None) /\
   snd (postgres.GetByUsername db username) = Some ErrAccountNotFound).
Proof.
  unfold postgres.UsernameExists, postgres.GetByUsername, postgres.find,
    postgres.Get, postgres.Select.
  set (p := fun u => bool_decide (postgres.Username u = username)).
  change (postgres.where_ db (postgres.by_username username)) with p.
  set (code := postgres.order db (postgres.by_username username)).
  split; intros ->; simpl; [|split; reflexivity].
  split; [reflexivity|].
  destruct (postgres.arrange code (List.filter p (postgres.users db)))
    as [|row rest] eqn:Hf; simpl.
  - apply result_nil_iff in Hf. rewrite Hf. split; discriminate.
  - destruct (existsb p (postgres.users db)) eqn:He; [tauto|].
    apply (result_nil_iff code) in He. congruence.
Qed.

(** X6: On a database that answers, the listing of all accounts has the
    account of every row of the table, and the listing of active
    accounts has exactly the active ones among them, each as often;
    neither statement orders its rows, so the two listings need not
    agree on the order.  Both return no slice when the database
    fails. *)
Theorem GetActiveAccounts_of_all (db : postgres.DB) :
  (postgres.failure db = None ->
   exists everyone enabled,
     postgres.GetAllAccounts db = (Some everyone, None) /\
     postgres.GetActiveAccounts db = (Some enabled, None) /\
     Permutation everyone (List.map postgres.toAccount (postgres.users db)) /\
     Permutation enabled (List.filter Account_Active everyone)) /\
  (forall err, postgres.failure db = Some err ->
     postgres.GetAllAccounts db = (None, Some err) /\
     postgres.GetActiveAccounts db = (None, Some err)).
Proof.
  unfold postgres.GetAllAccounts, postgres.GetActiveAccounts, postgres.Select.
  split.
  - intros ->. do 2 eexists. split; [reflexivity|]. split; [reflexivity|].
    assert (Hall : List.filter (postgres.where_ db postgres.all) (postgres.users db)
                   = postgres.users db).
    { induction (postgres.users db) as [|row l IH]; simpl; congruence. }
    rewrite Hall.
    assert (Heveryone :
              Permutation
                (List.map postgres.toAccount
                   (postgres.arrange (postgres.order db postgres.all)
                      (postgres.users db)))
                (List.map postgres.toAccount (postgres.users db))).
    { apply Permutation_map, arrange_Permutation. }
    split; [exact Heveryone|].
    rewrite (filter_Permutation_bool _ _ _ Heveryone).
    rewrite arrange_Permutation.
    assert (Hactive : forall l,
               List.filter Account_Active (List.map postgres.toAccount l)
               = List.map postgres.toAccount
                   (List.filter (postgres.where_ db postgres.active) l)).
    { induction l as [|row l IH]; simpl; [reflexivity|].
      destruct (postgres.IsActive row); simpl; rewrite IH; reflexivity. }
    rewrite Hactive. reflexivity.
  - intros err ->. split; reflexivity.
Qed.

(** ** The Redis session store *)

Lemma redis_ttl_positive (expiration : Z) :
  0 < expiration -> 1 <= redis_ttl expiration.
Proof.
  intros Hpos. unfold redis_ttl, usePrecise, formatMs, formatSec.
  unfold time.Second, time.Millisecond.
  rewrite (bool_decide_eq_true_2 (0 < expiration)) by exact Hpos.
  assert (Hquot : forall unit, 0 < unit -> unit <= expiration ->
                               1 <= Z.quot expiration unit).
  { intros unit Hunit Hle. rewrite Z.quot_div_nonneg by lia.
    apply Z.div_le_lower_bound; lia. }
  destruct (bool_decide (expiration < 1000000)) eqn:Hms;
    destruct (bool_decide (expiration < 1000000000)) eqn:Hsec;
    destruct (bool_decide (Z.rem expiration 1000000000 = 0));
    cbv beta iota delta [orb andb negb];
    try apply bool_decide_eq_false_1 in Hms;
    try apply bool_decide_eq_false_1 in Hsec;
    try apply bool_decide_eq_true_1 in Hms;
    try apply bool_decide_eq_true_1 in Hsec;
    try lia;
    try (apply Hquot; lia);
    try (pose proof (Hquot 1000000000 ltac:(lia) ltac:(lia)); lia).
Qed.

Lemma redis_held_live (rdb : redis_Client) (key value : string) (expiry : Z) :
  redis_held rdb key = Some (value, Some expiry) -> clock rdb <= expiry.
Proof.
  unfold redis_held.
  destruct (keys rdb !! key) as [[v [e|]]|]; [|discriminate..].
  case_bool_decide as Hlate; [discriminate|].
  intros [= _ <-]. lia.
Qed.

(** The expiry [redis_Set] gives a key is not in the past. *)
Lemma redis_Set_expiry_live (rdb : redis_Client) (key : string) (expiration : Z) :
  forall expiry,
    (if bool_decide (0 < expiration)
     then Some (clock rdb + redis_ttl expiration)
     else if bool_decide (expiration = redis_KeepTTL)
          then held ← redis_held rdb key; snd held
          else None) = Some expiry ->
    clock rdb <= expiry.
Proof.
  intros expiry.
  case_bool_decide as Hpos.
  - intros [= <-]. pose proof (redis_ttl_positive expiration Hpos). lia.
  - case_bool_decide as Hkeep; [|discriminate].
    destruct (redis_held rdb key) as [[v [e|]]|] eqn:Hheld; simpl;
      [|discriminate..].
    intros [= <-]. exact (redis_held_live _ _ _ _ Hheld).
Qed.

Lemma Set_held (st : RedisSessionStore) (sessionID data : string)
    (expiration : Z) (other : string) :
  unavailable (rdb st) = None ->
  RedisSessionStore_Set st sessionID data expiration
  = (fst (RedisSessionStore_Set st sessionID data expiration), None) /\
  unavailable (rdb (fst (RedisSessionStore_Set st sessionID data expiration)))
  = None /\
  RedisSessionStore_Get
    (fst (RedisSessionStore_Set st sessionID data expiration)) other
  = if decide (sessionID = other) then (data, None)
    else RedisSessionStore_Get st other.
Proof.
  intros Hup.
  unfold RedisSessionStore_Set, RedisSessionStore_Get, redis_Set, redis_Get.
  rewrite Hup. cbv zeta.
  pose proof (redis_Set_expiry_live (rdb st) sessionID expiration) as Hlive.
  destruct (if bool_decide (0 < expiration) then _ else _) as [expiry|];
    simpl; (split; [reflexivity|]); (split; [reflexivity|]);
    unfold redis_held; simpl; rewrite lookup_insert; case_decide; simpl;
    try reflexivity.
  specialize (Hlive expiry eq_refl).
  rewrite bool_decide_eq_false_2 by lia. reflexivity.
Qed.

Lemma Del_gone (st : RedisSessionStore) (sessionID other : string) :
  unavailable (rdb st) = None ->
  snd (RedisSessionStore_Del st sessionID) = None /\
  RedisSessionStore_Get (fst (RedisSessionStore_Del st sessionID)) other
  = if decide (sessionID = other) then ("", Some ErrInvalidSession)
    else RedisSessionStore_Get st other.
Proof.
  intros Hup.
  unfold RedisSessionStore_Del, RedisSessionStore_Get, redis_Del, redis_Get.
  rewrite Hup. simpl. split; [reflexivity|].
  unfold redis_held. simpl.
  rewrite lookup_delete. case_decide; reflexivity.
Qed.

(** X7: On a Redis server that answers, a session that was set is read
    back, under its identifier only. *)
Theorem RedisSessionStore_Set_then_Get (st : RedisSessionStore)
    (sessionID data : string) (expiration : Z) :
  unavailable (rdb st) = None ->
  let st' := fst (RedisSessionStore_Set st sessionID data expiration) in
  snd (RedisSessionStore_Set st sessionID data expiration) = None /\
  RedisSessionStore_Get st' sessionID = (data, None) /\
  (forall other, other <> sessionID ->
     RedisSessionStore_Get st' other = RedisSessionStore_Get st other).
Proof.
  intros Hup st'. subst st'.
  destruct (Set_held st sessionID data expiration sessionID Hup)
    as (Hok & _ & Hself).
  split; [rewrite Hok; reflexivity|]. split.
  - rewrite Hself. case_decide; [reflexivity | congruence].
  - intros other Hne.
    destruct (Set_held st sessionID data expiration other Hup) as (_ & _ & Hget).
    rewrite Hget. case_decide; [congruence | reflexivity].
Qed.

(** X8: On a Redis server that answers, a session that was deleted is
    reported as [ErrInvalidSession], and the other sessions stay. *)
Theorem RedisSessionStore_Del_then_Get (st : RedisSessionStore) (sessionID : string) :
  unavailable (rdb st) = None ->
  let st' := fst (RedisSessionStore_Del st sessionID) in
  snd (RedisSessionStore_Del st sessionID) = None /\
  RedisSessionStore_Get st' sessionID = ("", Some ErrInvalidSession) /\
  (forall other, other <> sessionID ->
     RedisSessionStore_Get st' other = RedisSessionStore_Get st other).
Proof.
  intros Hup st'. subst st'.
  destruct (Del_gone st sessionID sessionID Hup) as (Hok & Hself).
  split; [exact Hok|]. split.
  - rewrite Hself. case_decide; [reflexivity | congruence].
  - intros other Hne.
    destruct (Del_gone st sessionID other Hup) as (_ & Hget).
    rewrite Hget. case_decide; [congruence | reflexivity].
Qed.

Section RedisOutage.
Context {R : Type} `{!AccountsRepository R} `{!PasswordScheme}.

(** X9: A failure of Redis other than [redis.Nil] is not taken for an
    invalid session: [GetSessionInfo] returns it as an error, the
    response gets no cookie and the store is left alone; and [GetUser]
    returns an error that wraps it, not the anonymous identity without
    error. *)
Theorem Redis_outage_is_not_a_logout (w : World RedisSessionStore R) (e : error) :
  unavailable (rdb (store (s w))) = Some e ->
  e <> redis_Nil ->
  memo_session w = None ->
  session_cookie w <> "" ->
  let err := Errorf_v "redis get session: %v" e in
  GetSessionInfo w
  = ((None, Some err),
     after_calls w [Call_Cookie "gq_session"; Call_store_Get (session_cookie w)]) /\
  errors.Is err ErrInvalidSession = false /\
  c_Response (snd (GetSessionInfo w)) = c_Response w /\
  (memo_user w = None -> Authorization w = "" ->
   fst (GetUser w)
   = (AnonymousUser, Some (Errorf_w "auth: get session user: %w" err)) /\
   c_Response (snd (GetUser w)) = c_Response w).
Proof.
  intros Hdown Hne Hmemo Hsid err.
  assert (Hget : Get (store (s w)) (session_cookie w) = ("", Some err)).
  { simpl. unfold RedisSessionStore_Get, redis_Get. rewrite Hdown.
    rewrite bool_decide_eq_false_2 by exact Hne. reflexivity. }
  assert (Hrun : GetSessionInfo w
                 = ((None, Some err),
                    after_calls w [Call_Cookie "gq_session";
                                   Call_store_Get (session_cookie w)])).
  { rewrite GetSessionInfo_unfold, Hmemo. cbv zeta.
    rewrite bool_decide_eq_false_2 by exact Hsid.
    rewrite Hget. reflexivity. }
  split; [exact Hrun|]. split; [reflexivity|].
  split; [rewrite Hrun; reflexivity|].
  intros Hu Hauth. rewrite GetUser_unfold, Hu. cbv zeta.
  rewrite Hauth, Hrun. split; reflexivity.
Qed.

End RedisOutage.

(** ** Login and logout *)
Section Lifecycle.
Context {S R : Type} `{!SessionStore S} `{!AccountsRepository R}
        `{!PasswordScheme}.

Lemma LoginUser_unfold (w : World S R) (account : Account) :
  LoginUser account w =
  let exp := expiration (s w) in
  let w0 := with_uuid_count (Datatypes.S (uuid_count w)) w in
  match uuid_source w (uuid_count w) with
  | (_, Some err) => (Some err, w0)
  | (sid, None) =>
      let (st, err) := Set_ (store (s w)) sid (Account_Username account) exp in
      let w1 := with_s (with_store st (s w))
                  (after_calls w0 [Call_store_Set sid]) in
      match err with
      | Some err => (Some (Errorf_v "save session: %v" err), w1)
      | None =>
          let w2 :=
            match http.Request_Cookie (c_Request w) "gq_session" with
            | (old, None) =>
                let (st', err) := Del st (http.Value old) in
                let w2 := with_s (with_store st' (s w1))
                            (after_calls w1 [Call_Cookie "gq_session";
                                             Call_store_Del (http.Value old)]) in
                match err with
                | Some err =>
                    with_logger
                      (logger w ++ [mkLogEntry Error
                                      "deleting old session on login" err]) w2
                | None => w2
                end
            | (_, Some _) => after_calls w1 [Call_Cookie "gq_session"]
            end in
          let (r, err) :=
            Update (accounts (s w)) (with_LastLogin (Some (now w)) account) in
          let w3 := with_s (with_accounts r (s w2))
                      (after_calls w2 [Call_Update (Account_Username account)]) in
          let w4 :=
            match err with
            | Some err =>
                with_logger
                  (logger w3 ++ [mkLogEntry Warn
                                   "updating time of last login" err]) w3
            | None => w3
            end in
          (None,
           with_c_Response
             (c_Response w ++ [login_cookie sid (now w + exp)]) w4)
      end
  end.
Proof.
  unfold LoginUser, LoginUserWithExpiration, uuid_NewV4, s_store_Set,
    s_store_Del, s_accounts_Update, Cookie, SetCookie, time_Now,
    logger_Errorw, logger_Warnw, record, bind, ret, after_calls,
    with_LastLogin, login_cookie.
  simpl.
  destruct (uuid_source w (uuid_count w)) as [sid [e|]]; simpl; [reflexivity|].
  destruct (Set_ _ _ _ _) as [st [e|]]; simpl; [reflexivity|].
  destruct (http.Request_Cookie _ _) as [old [e|]]; simpl.
  - destruct (Update _ _) as [r [e'|]]; simpl;
      rewrite <- ?app_assoc; reflexivity.
  - destruct (Del _ _) as [st' [e|]]; simpl;
      destruct (Update _ _) as [r [e'|]]; simpl;
      rewrite <- ?app_assoc; reflexivity.
Qed.


(** X11: Once the token is drawn and the session saved, [LoginUser]
    succeeds whatever the deletion of the old session and the update
    of the last login answer: the response gets the session cookie
    with the token, valid for the configured expiration, the repository
    is asked to store the login time, and neither cache nor the
    request's remembered values are touched. *)
Theorem LoginUser_best_effort (w : World S R) (account : Account)
    (tok : string) (st : S) :
  uuid_source w (uuid_count w) = (tok, None) ->
  Set_ (store (s w)) tok (Account_Username account) (expiration (s w))
  = (st, None) ->
  let w' := snd (LoginUser account w) in
  fst (LoginUser account w) = None /\
  c_Response w'
  = (c_Response w ++ [login_cookie tok (now w + expiration (s w))])%list /\
  accounts (s w')
  = fst (Update (accounts (s w)) (with_LastLogin (Some (now w)) account)) /\
  store (s w')
  = match http.Request_Cookie (c_Request w) "gq_session" with
    | (old, None) => fst (Del st (http.Value old))
    | (_, Some _) => st
    end /\
  cache (s w') = cache (s w) /\
  basicAuthCache (s w') = basicAuthCache (s w) /\
  c_store w' = c_store w.
Proof.
  intros Huuid Hset w'. subst w'.
  rewrite LoginUser_unfold. cbv zeta. rewrite Huuid, Hset.
  destruct (http.Request_Cookie _ _) as [old [e|]].
  - destruct (Update _ _) as [r [e'|]]; simpl; repeat split; reflexivity.
  - destruct (Del _ _) as [st' [e|]];
      destruct (Update _ _) as [r [e'|]]; simpl; repeat split; reflexivity.
Qed.

(** X12: When no token can be drawn, or the session cannot be saved,
    [LoginUser] returns the error and sets no cookie; the repository is
    not asked to store a login time, and no old session is deleted. *)
Theorem LoginUser_fails_cleanly (w : World S R) (account : Account) :
  (forall tok err, uuid_source w (uuid_count w) = (tok, Some err) ->
     LoginUser account w
     = (Some err, with_uuid_count (Datatypes.S (uuid_count w)) w)) /\
  (forall tok st err,
     uuid_source w (uuid_count w) = (tok, None) ->
     Set_ (store (s w)) tok (Account_Username account) (expiration (s w))
     = (st, Some err) ->
     let w' := snd (LoginUser account w) in
     fst (LoginUser account w) = Some (Errorf_v "save session: %v" err) /\
     c_Response w' = c_Response w /\
     accounts (s w') = accounts (s w) /\
     calls w' = (calls w ++ [Call_store_Set tok])%list).
Proof.
  split.
  - intros tok err Huuid. rewrite LoginUser_unfold. cbv zeta.
    rewrite Huuid. reflexivity.
  - intros tok st err Huuid Hset w'. subst w'.
    rewrite LoginUser_unfold. cbv zeta. rewrite Huuid, Hset.
    repeat split; reflexivity.
Qed.

End Lifecycle.

Section RedisLifecycle.
Context {R : Type} `{!AccountsRepository R} `{!PasswordScheme}.

Lemma session_cookie_value (w : World RedisSessionStore R) cookie :
  http.Request_Cookie (c_Request w) "gq_session" = (cookie, None) ->
  session_cookie w = http.Value cookie.
Proof. unfold session_cookie. intros ->. reflexivity. Qed.

(** The store after a login, on a Redis server that answers. *)
Lemma LoginUser_store (w : World RedisSessionStore R) account tok :
  uuid_source w (uuid_count w) = (tok, None) ->
  unavailable (rdb (store (s w))) = None ->
  fst (LoginUser account w) = None /\
  store (s (snd (LoginUser account w)))
  = match http.Request_Cookie (c_Request w) "gq_session" with
    | (old, None) =>
        fst (RedisSessionStore_Del
               (fst (RedisSessionStore_Set (store (s w)) tok
                       (Account_Username account) (expiration (s w))))
               (http.Value old))
    | (_, Some _) =>
        fst (RedisSessionStore_Set (store (s w)) tok
               (Account_Username account) (expiration (s w)))
    end.
Proof.
  intros Huuid Hup.
  destruct (Set_held (store (s w)) tok (Account_Username account)
              (expiration (s w)) tok Hup) as (Hok & _).
  rewrite LoginUser_unfold. cbv zeta. rewrite Huuid.
  change (Set_ (store (s w)) tok (Account_Username account) (expiration (s w)))
    with (RedisSessionStore_Set (store (s w)) tok (Account_Username account)
            (expiration (s w))).
  rewrite Hok.
  destruct (http.Request_Cookie _ _) as [old [e|]].
  - destruct (Update _ _) as [r [e'|]]; split; reflexivity.
  - change (Del (fst (RedisSessionStore_Set (store (s w)) tok
                       (Account_Username account) (expiration (s w))))
              (http.Value old))
      with (RedisSessionStore_Del
              (fst (RedisSessionStore_Set (store (s w)) tok
                      (Account_Username account) (expiration (s w))))
              (http.Value old)).
    destruct (RedisSessionStore_Del _ _) as [st' [e|]];
      destruct (Update _ _) as [r [e'|]]; split; reflexivity.
Qed.

(** The key of the new session after a login, on a Redis server that
    answers and with a positive expiration. *)
Lemma LoginUser_key (w : World RedisSessionStore R) account tok :
  uuid_source w (uuid_count w) = (tok, None) ->
  unavailable (rdb (store (s w))) = None ->
  session_cookie w <> tok ->
  0 < expiration (s w) ->
  let rdb' := rdb (store (s (snd (LoginUser account w)))) in
  keys rdb' !! tok
  = Some (Account_Username account,
          Some (clock (rdb (store (s w))) + redis_ttl (expiration (s w)))) /\
  clock rdb' = clock (rdb (store (s w))) /\
  unavailable rdb' = None.
Proof.
  intros Huuid Hup Hold Hpos rdb'. subst rdb'.
  destruct (LoginUser_store w account tok Huuid Hup) as [_ Hstore].
  rewrite Hstore.
  assert (Hset : rdb (fst (RedisSessionStore_Set (store (s w)) tok
                             (Account_Username account) (expiration (s w))))
                 = mkClient
                     (<[tok := (Account_Username account,
                                Some (clock (rdb (store (s w)))
                                      + redis_ttl (expiration (s w))))]>
                        (keys (rdb (store (s w)))))
                     (clock (rdb (store (s w)))) None).
  { unfold RedisSessionStore_Set, redis_Set. rewrite Hup. cbv zeta.
    rewrite bool_decide_eq_true_2 by exact Hpos. reflexivity. }
  destruct (http.Request_Cookie (c_Request w) "gq_session")
    as [old [e|]] eqn:Hck.
  - rewrite Hset. simpl. rewrite lookup_insert_eq. repeat split; reflexivity.
  - apply session_cookie_value in Hck.
    unfold RedisSessionStore_Del, redis_Del. rewrite Hset. simpl.
    rewrite lookup_delete_ne by congruence.
    rewrite lookup_insert_eq. repeat split; reflexivity.
Qed.

(** X13: A session created by [LoginUser] resolves until Redis drops it:
    on a Redis server that answers, with a positive expiration, a later
    request that carries the cookie just set gets the session of the
    account that logged in as long as the server's clock has not
    advanced by more than the time to live the key was given, and
    afterwards gets no session, no error, and the cookie that clears
    the session cookie; provided the token is not empty and is not the
    value of the cookie the login request came with. *)
Theorem LoginUser_then_GetSessionInfo (w : World RedisSessionStore R)
    (account : Account) (tok : string) (req : http.Request)
    (elapsed waited : Z) :
  uuid_source w (uuid_count w) = (tok, None) ->
  tok <> "" ->
  unavailable (rdb (store (s w))) = None ->
  session_cookie w <> tok ->
  0 < expiration (s w) ->
  let w2 := redis_later waited
              (next_request req elapsed (snd (LoginUser account w))) in
  session_cookie w2 = tok ->
  fst (LoginUser account w) = None /\
  (waited <= redis_ttl (expiration (s w)) ->
   fst (GetSessionInfo w2)
   = (Some {| ID := tok; Username_ := Account_Username account |}, None)) /\
  (redis_ttl (expiration (s w)) < waited ->
   fst (GetSessionInfo w2) = (None, None) /\
   c_Response (snd (GetSessionInfo w2)) = [clearing_cookie]).
Proof.
  intros Huuid Htok Hup Hold Hpos w2 Hcookie.
  destruct (LoginUser_store w account tok Huuid Hup) as [Hres _].
  split; [exact Hres|].
  destruct (LoginUser_key w account tok Huuid Hup Hold Hpos)
    as (Hkey & Hclock & Hav).
  assert (Hget : Get (store (s w2)) tok
                 = if bool_decide (redis_ttl (expiration (s w)) < waited)
                   then ("", Some ErrInvalidSession)
                   else (Account_Username account, None)).
  { subst w2. simpl.
    unfold RedisSessionStore_Get, redis_Get, redis_held, redis_elapse. simpl.
    rewrite Hav, Hkey, Hclock.
    destruct (decide (redis_ttl (expiration (s w)) < waited)) as [Hlate|Hlate].
    - rewrite (bool_decide_eq_true_2 (_ + _ < _ + _)) by lia.
      rewrite (bool_decide_eq_true_2 (redis_ttl _ < waited)) by exact Hlate.
      reflexivity.
    - rewrite (bool_decide_eq_false_2 (_ + _ < _ + _)) by lia.
      rewrite (bool_decide_eq_false_2 (redis_ttl _ < waited)) by exact Hlate.
      reflexivity. }
  assert (Hmemo : memo_session w2 = None) by reflexivity.
  assert (Hresp : c_Response w2 = []) by reflexivity.
  clearbody w2.
  rewrite GetSessionInfo_unfold, Hmemo. cbv zeta. rewrite Hcookie.
  rewrite bool_decide_eq_false_2 by exact Htok.
  rewrite Hget.
  split; intros Hwaited.
  - rewrite bool_decide_eq_false_2 by lia. reflexivity.
  - rewrite bool_decide_eq_true_2 by exact Hwaited.
    simpl errors.Is. cbv iota.
    rewrite LogoutUser_unfold.
    assert (Hck2 : exists c2, http.Request_Cookie (c_Request w2) "gq_session"
                              = (c2, None)).
    { unfold session_cookie in Hcookie.
      destruct (http.Request_Cookie (c_Request w2) "gq_session") as [c2 [e|]];
        [congruence | eauto]. }
    destruct Hck2 as [c2 Hck2].
    simpl. rewrite Hck2, Hresp.
    destruct (RedisSessionStore_Del (store (s w2)) _) as [st [e|]];
      split; reflexivity.
Qed.

(** X14: Logging in again ends the session of the cookie the request came
    with, and that one only: on a Redis server that answers, the old
    session is reported invalid afterwards, the new one is held, and
    every other session is as before. *)
Theorem LoginUser_invalidates_old_session (w : World RedisSessionStore R)
    (account : Account) (tok : string) (old : http.Cookie) :
  uuid_source w (uuid_count w) = (tok, None) ->
  unavailable (rdb (store (s w))) = None ->
  http.Request_Cookie (c_Request w) "gq_session" = (old, None) ->
  http.Value old <> tok ->
  let st' := store (s (snd (LoginUser account w))) in
  Get st' (http.Value old) = ("", Some ErrInvalidSession) /\
  Get st' tok = (Account_Username account, None) /\
  (forall other, other <> tok -> other <> http.Value old ->
     Get st' other = Get (store (s w)) other).
Proof.
  intros Huuid Hup Hck Hne st'. subst st'.
  destruct (LoginUser_store w account tok Huuid Hup) as [_ Hstore].
  rewrite Hstore, Hck. simpl.
  assert (Hav : unavailable
                  (rdb (fst (RedisSessionStore_Set (store (s w)) tok
                               (Account_Username account) (expiration (s w)))))
                = None)
    by apply (Set_held (store (s w)) tok _ _ tok Hup).
  assert (Hlook : forall other,
             RedisSessionStore_Get
               (fst (RedisSessionStore_Del
                       (fst (RedisSessionStore_Set (store (s w)) tok
                               (Account_Username account) (expiration (s w))))
                       (http.Value old))) other
             = if decide (http.Value old = other)
               then ("", Some ErrInvalidSession)
               else if decide (tok = other)
                    then (Account_Username account, None)
                    else RedisSessionStore_Get (store (s w)) other).
  { intros other.
    destruct (Del_gone _ (http.Value old) other Hav) as (_ & Hdel).
    destruct (Set_held (store (s w)) tok (Account_Username account)
                (expiration (s w)) other Hup) as (_ & _ & Hset).
    rewrite Hdel, Hset. reflexivity. }
  split; [|split].
  - rewrite Hlook, decide_True by reflexivity. reflexivity.
  - rewrite Hlook, decide_False, decide_True by congruence. reflexivity.
  - intros other H1 H2.
    rewrite Hlook, !decide_False by congruence. reflexivity.
Qed.

(** X15: After a logout, on a Redis server that answers, a later request
    that still carries the old session cookie is anonymous, without
    error, and is told once more to drop the cookie. *)
Theorem LogoutUser_then_request (w : World RedisSessionStore R)
    (cookie : http.Cookie) (req : http.Request) (elapsed : Z) :
  unavailable (rdb (store (s w))) = None ->
  http.Request_Cookie (c_Request w) "gq_session" = (cookie, None) ->
  http.Value cookie <> "" ->
  let w2 := next_request req elapsed (snd (LogoutUser w)) in
  session_cookie w2 = http.Value cookie ->
  Authorization w2 = "" ->
  fst (GetUser w2) = (AnonymousUser, None) /\
  c_Response (snd (GetUser w2)) = [clearing_cookie].
Proof.
  intros Hup Hck Hval w2 Hcookie Hauth.
  destruct (Del_gone (store (s w)) (http.Value cookie) (http.Value cookie) Hup)
    as (Hok & Hgone).
  rewrite decide_True in Hgone by reflexivity.
  assert (Hstore : store (s w2)
                   = fst (RedisSessionStore_Del (store (s w)) (http.Value cookie))).
  { subst w2. rewrite LogoutUser_unfold, Hck. simpl.
    destruct (RedisSessionStore_Del _ _) as [st [e|]]; reflexivity. }
  rewrite <- Hcookie in Hval.
  assert (Hget : Get (store (s w2)) (session_cookie w2)
                 = ("", Some ErrInvalidSession)).
  { rewrite Hstore, Hcookie. exact Hgone. }
  assert (Hmemo : memo_session w2 = None) by reflexivity.
  assert (Hsid : session_cookie w2 <> "") by exact Hval.
  assert (Hu : memo_user w2 = None) by reflexivity.
  assert (Hresp : c_Response w2 = []) by reflexivity.
  clearbody w2.
  rewrite GetUser_unfold, Hu. cbv zeta. rewrite Hauth. simpl negb. cbv iota.
  rewrite GetSessionInfo_unfold, Hmemo. cbv zeta.
  rewrite bool_decide_eq_false_2 by exact Hsid.
  rewrite Hget. simpl errors.Is. cbv iota.
  rewrite LogoutUser_unfold.
  assert (Hck2 : exists c2, http.Request_Cookie (c_Request w2) "gq_session"
                            = (c2, None)).
  { unfold session_cookie in Hsid.
    destruct (http.Request_Cookie (c_Request w2) "gq_session") as [c2 [e|]];
      [congruence | eauto]. }
  destruct Hck2 as [c2 Hck2].
  simpl. rewrite Hck2, Hresp.
  destruct (RedisSessionStore_Del (store (s w2)) _) as [st [e|]];
    split; reflexivity.
Qed.

End RedisLifecycle.

(** ** The two caches *)
Section Caches.
Context {S R : Type} `{!SessionStore S} `{!AccountsRepository R}
        `{!PasswordScheme}.

(** What [GetUser] leaves in the credential cache once it has
    verified credentials. *)
Lemma GetUser_caches_credentials (w : World S R) (user : User) :
  memo_user w = None ->
  Authorization w <> "" ->
  credential_cache_miss w ->
  fst (GetUser w) = (user, None) ->
  IsAuthenticated user = true ->
  let c := basicAuthCache (s w) in
  basicAuthCache (s (snd (GetUser w)))
  = snd (ttlcache.Set_ c (now w) (Authorization w) user) /\
  now (snd (GetUser w)) = now w.
Proof.
  intros Hmemo Hauth Hmiss. unfold credential_cache_miss in Hmiss.
  pose proof (get_miss_unchanged _ _ _ Hmiss) as Hsame.
  rewrite GetUser_unfold, Hmemo. cbv zeta.
  rewrite bool_decide_eq_false_2 by exact Hauth. simpl negb. cbv iota.
  destruct (ttlcache.get _ _ _) as [found c]. simpl in Hmiss, Hsame.
  subst found c.
  destruct (basic_scheme _); [|intros [= <-]; discriminate].
  destruct (base64.DecodeString _) as [b|]; [|intros [=]].
  destruct (strings.SplitN2 b ":") as [|login [|password [|]]];
    try (intros [= <-]; discriminate).
  rewrite Authenticate_unfold.
  destruct (lookup _ _) as [account [err|]]; [intros [=]|].
  destruct (negb (Account_Active account)); [intros [=]|].
  destruct (negb (CheckPassword account password)); [intros [=]|].
  intros [= <-] _. split; reflexivity.
Qed.

(** X16: Verified credentials are cached for the time to live of the
    credential cache: a later request with the same header, before
    that time has passed, gets the same identity from one call to the
    cache, the repository not being asked; once that time has passed
    the header misses the cache again.  Reading the cache, when it does
    not touch items on a hit, leaves it as it is. *)
Theorem credentials_cached_for_ttl (w : World S R) (user : User)
    (req : http.Request) (elapsed : Z) :
  memo_user w = None ->
  Authorization w <> "" ->
  credential_cache_miss w ->
  fst (GetUser w) = (user, None) ->
  IsAuthenticated user = true ->
  0 < ttlcache.ttl (basicAuthCache (s w)) ->
  let w2 := next_request req elapsed (snd (GetUser w)) in
  Authorization w2 = Authorization w ->
  (elapsed < ttlcache.ttl (basicAuthCache (s w)) ->
     fst (GetUser w2) = (user, None) /\
     calls (snd (GetUser w2))
     = (calls w2 ++ [Call_basicAuthCache_Get (Authorization w)])%list /\
     (ttlcache.disableTouchOnHit (basicAuthCache (s w)) = true ->
      basicAuthCache (s (snd (GetUser w2))) = basicAuthCache (s w2))) /\
  (ttlcache.ttl (basicAuthCache (s w)) < elapsed -> credential_cache_miss w2).
Proof.
  intros Hmemo Hauth Hmiss Hres Hin Httl w2 Hsame.
  destruct (GetUser_caches_credentials w user Hmemo Hauth Hmiss Hres Hin)
    as [Hcache Hnow].
  assert (Hc2 : basicAuthCache (s w2)
                = snd (ttlcache.Set_ (basicAuthCache (s w)) (now w)
                         (Authorization w) user)) by exact Hcache.
  assert (Hn2 : now w2 = now w + elapsed).
  { subst w2. simpl. rewrite Hnow. reflexivity. }
  assert (Hm2 : memo_user w2 = None) by reflexivity.
  clearbody w2.
  set (T := ttlcache.ttl (basicAuthCache (s w))) in *.
  assert (Hlook : ttlcache.items (basicAuthCache (s w2)) !! Authorization w
                  = Some (ttlcache.mkItem user T (now w + T))).
  { rewrite Hc2. simpl. apply lookup_insert_eq. }
  assert (Hd2 : ttlcache.disableTouchOnHit (basicAuthCache (s w2))
                = ttlcache.disableTouchOnHit (basicAuthCache (s w))).
  { rewrite Hc2. reflexivity. }
  split.
  - intros Hfresh.
    assert (Hget : exists item,
               fst (ttlcache.get (basicAuthCache (s w2)) (now w2)
                      (Authorization w)) = Some item /\
               ttlcache.Value item = user).
    { unfold ttlcache.get. rewrite Hlook. unfold ttlcache.isExpired. simpl.
      rewrite bool_decide_eq_false_2 by lia.
      rewrite bool_decide_eq_false_2 by lia.
      destruct (ttlcache.disableTouchOnHit (basicAuthCache (s w2)));
        simpl; eexists; split; reflexivity. }
    destruct Hget as (item & Hget & Hvalue).
    rewrite GetUser_unfold, Hm2. cbv zeta. rewrite Hsame.
    rewrite bool_decide_eq_false_2 by exact Hauth. simpl negb. cbv iota.
    pose proof (get_untouched (basicAuthCache (s w2)) (now w2) (Authorization w))
      as Hun.
    destruct (ttlcache.get _ _ _) as [found c]. simpl in Hget, Hun.
    subst found. simpl. rewrite Hvalue.
    split; [reflexivity|]. split; [reflexivity|].
    intros Hd. apply Hun. rewrite Hd2. exact Hd.
  - intros Hstale. unfold credential_cache_miss, ttlcache.get.
    rewrite Hsame, Hlook. unfold ttlcache.isExpired. simpl.
    rewrite bool_decide_eq_false_2 by lia.
    rewrite bool_decide_eq_true_2 by lia. reflexivity.
Qed.


(** X17: A session whose identity is in the identity cache, not expired,
    gets that identity without the repository being asked, whatever
    has become of the account since; the identity is remembered for
    the request, and the cache, when it does not touch items on a hit,
    stays as it is, so that reading an item does not prolong it. *)
Theorem cached_identity_served (w : World S R) (si : SessionInfo)
    (item : ttlcache.Item User) :
  memo_user w = None ->
  Authorization w = "" ->
  resolves_to w si ->
  fst (ttlcache.get (cache (s w)) (now w) (Username_ si)) = Some item ->
  let w' := snd (GetUser w) in
  fst (GetUser w) = (ttlcache.Value item, None) /\
  memo_user w' = Some (ttlcache.Value item) /\
  accounts (s w') = accounts (s w) /\
  (exists more, calls w' = (calls w ++ more)%list /\
                forallb (fun call => negb (source_call call)) more = true) /\
  (ttlcache.disableTouchOnHit (cache (s w)) = true -> cache (s w') = cache (s w)).
Proof.
  intros Hmemo Hauth Hres Hhit w'. subst w'.
  pose proof (get_untouched (cache (s w)) (now w) (Username_ si)) as Hun.
  rewrite GetUser_unfold, Hmemo. cbv zeta. rewrite Hauth. simpl negb. cbv iota.
  rewrite GetSessionInfo_unfold.
  destruct Hres as [Hm | (Hm & Hsid & Hid & Hget)]; rewrite Hm.
  - rewrite s_cache_Get_unfold.
    destruct (ttlcache.get _ _ _) as [found c]. simpl in Hhit, Hun. subst found.
    cbv beta iota zeta. unfold memo_user. simpl. rewrite lookup_insert_eq.
    repeat split; try reflexivity; [solve_calls | exact Hun].
  - cbv zeta. rewrite bool_decide_eq_false_2 by exact Hsid. rewrite Hget.
    cbv beta iota zeta. rewrite s_cache_Get_unfold. simpl.
    destruct (ttlcache.get _ _ _) as [found c]. simpl in Hhit, Hun. subst found.
    cbv beta iota zeta. unfold memo_user. simpl. rewrite lookup_insert_eq.
    repeat split; try reflexivity; [solve_calls | exact Hun].
Qed.

(** X18: A session that resolves, whose account is not in the identity
    cache and is found in the repository, gets the projection of that
    account, active or not: the cookie path does not look at the active
    flag.  The identity is cached under the username and remembered
    for the request. *)
Theorem session_identity_loaded (w : World S R) (si : SessionInfo)
    (account : Account) :
  memo_user w = None ->
  Authorization w = "" ->
  resolves_to w si ->
  identity_cache_miss w (Username_ si) ->
  GetByUsername (accounts (s w)) (Username_ si) = (account, None) ->
  let w' := snd (GetUser w) in
  fst (GetUser w) = (AccountToUser account, None) /\
  IsAuthenticated (fst (fst (GetUser w))) = true /\
  memo_user w' = Some (AccountToUser account) /\
  exists item, ttlcache.items (cache (s w')) !! Username_ si = Some item /\
               ttlcache.Value item = AccountToUser account /\
               ttlcache.ExpiresAt item = now w + ttlcache.ttl (cache (s w)).
Proof.
  intros Hmemo Hauth Hres Hmiss Hload w'. subst w'.
  unfold identity_cache_miss in Hmiss.
  pose proof (get_miss_unchanged _ _ _ Hmiss) as Hsame.
  rewrite GetUser_unfold, Hmemo. cbv zeta. rewrite Hauth. simpl negb. cbv iota.
  rewrite GetSessionInfo_unfold.
  destruct Hres as [Hm | (Hm & Hsid & Hid & Hget)]; rewrite Hm.
  - rewrite s_cache_Get_unfold.
    destruct (ttlcache.get _ _ _) as [found c]. simpl in Hmiss, Hsame.
    subst found c. cbv beta iota zeta. rewrite Hload.
    unfold ttlcache.Set_, memo_user. simpl. rewrite !lookup_insert_eq.
    repeat split. eexists. repeat split.
  - cbv zeta. rewrite bool_decide_eq_false_2 by exact Hsid. rewrite Hget.
    cbv beta iota zeta. rewrite s_cache_Get_unfold. simpl.
    destruct (ttlcache.get _ _ _) as [found c]. simpl in Hmiss, Hsame.
    subst found c. cbv beta iota zeta. rewrite Hload.
    unfold ttlcache.Set_, memo_user. simpl. rewrite !lookup_insert_eq.
    repeat split. eexists. repeat split.
Qed.

(** X19: Failures are not cached: when [GetUser] returns an error it
    returns it with [AnonymousUser], and neither cache nor the
    remembered identity has changed. *)
Theorem GetUser_error_leaves_caches (w : World S R) (user : User) (err : error) :
  fst (GetUser w) = (user, Some err) ->
  let w' := snd (GetUser w) in
  user = AnonymousUser /\
  basicAuthCache (s w') = basicAuthCache (s w) /\
  cache (s w') = cache (s w) /\
  memo_user w' = memo_user w.
Proof.
  intros Hres w'. subst w'. revert Hres.
  rewrite GetUser_unfold.
  destruct (memo_user w) as [u|] eqn:Hmemo; [intros [=]|]. cbv zeta.
  destruct (negb _).
  - pose proof (get_miss_unchanged (basicAuthCache (s w)) (now w)
                  (Authorization w)) as Hsame.
    destruct (ttlcache.get _ _ _) as [[item|] c]; [intros [=]|].
    simpl in Hsame. rewrite Hsame by reflexivity.
    destruct (basic_scheme _); [|intros [=]].
    destruct (base64.DecodeString _) as [b|].
    2:{ intros [= <- <-]. destruct (s w); repeat split; exact Hmemo. }
    destruct (strings.SplitN2 b ":") as [|login [|password [|]]];
      try solve [intros [=]].
    rewrite Authenticate_unfold.
    destruct (lookup _ _) as [account [e|]].
    { intros [= <- <-]. destruct (s w); repeat split; exact Hmemo. }
    destruct (negb (Account_Active account)).
    { intros [= <- <-]. destruct (s w); repeat split; exact Hmemo. }
    destruct (negb (CheckPassword account password)).
    { intros [= <- <-]. destruct (s w); repeat split; exact Hmemo. }
    intros [=].
  - destruct (GetSessionInfo_keeps_caches w) as (Ec & Eb & _ & _).
    pose proof (GetSessionInfo_keeps_user w) as Eu.
    destruct (GetSessionInfo w) as [[[si|] [e|]] w1]; simpl in *.
    + intros [= <- <-]. repeat split; congruence.
    + destruct (s_cache_Get _ _) as [[item|] w2]; intros [=].
    + intros [= <- <-]. repeat split; congruence.
    + intros [=].
Qed.

End Caches.

(** ** What resolution reads and what it leaves alone *)

Lemma cut_app (sep : ascii) (before after : string) :
  strings.cut sep before = None ->
  strings.cut sep (before ++ String sep after) = Some (before, after).
Proof.
  induction before as [|a before IH]; simpl.
  - intros _. rewrite bool_decide_eq_true_2 by reflexivity. reflexivity.
  - case_bool_decide as Ha; [intros [=]|].
    destruct (strings.cut sep before) as [[b1 b2]|]; [intros [=]|].
    intros _. rewrite IH by reflexivity. reflexivity.
Qed.

Section Resolution.
Context {S R : Type} `{!SessionStore S} `{!AccountsRepository R}
        `{!PasswordScheme}.

(** X20: The credentials of a Basic header are split at the first colon:
    the login has none, the password may have any.  Those are
    the credentials verified, and the outcome of [GetUser] is the
    outcome of [Authenticate] on them. *)
Theorem GetUser_basic_credentials (w : World S R) (login password : string) :
  memo_user w = None ->
  Authorization w <> "" ->
  credential_cache_miss w ->
  basic_scheme (Authorization w) = true ->
  base64.DecodeString (payload (Authorization w))
  = Some (login ++ String ":" password) ->
  strings.Contains login ":" = false ->
  fst (GetUser w)
  = match fst (Authenticate login password w) with
    | (_, Some err) => (AnonymousUser, Some err)
    | (account, None) => (AccountToUser account, None)
    end.
Proof.
  intros Hmemo Hauth Hmiss Hscheme Hdec Hcolon.
  apply cut_None_iff in Hcolon.
  rewrite GetUser_unfold, Hmemo. cbv zeta.
  rewrite bool_decide_eq_false_2 by exact Hauth. simpl negb. cbv iota.
  unfold credential_cache_miss in Hmiss.
  destruct (ttlcache.get _ _ _) as [found c]. simpl in Hmiss. subst found.
  rewrite Hscheme, Hdec. unfold strings.SplitN2.
  rewrite (cut_app ":" login password Hcolon).
  match goal with
  | |- context [Authenticate login password ?w1] =>
      rewrite <- (Authenticate_result_frame w w1 login password eq_refl);
      destruct (Authenticate login password w1) as [[account [err|]] w2]
  end; reflexivity.
Qed.

(** X10: A request without session cookie, or with one of empty value, has
    no session: the store is not asked, and no cookie is set on the
    response. *)
Theorem GetSessionInfo_without_cookie (w : World S R) :
  memo_session w = None ->
  session_cookie w = "" ->
  let w' := snd (GetSessionInfo w) in
  fst (GetSessionInfo w) = (None, None) /\
  calls w' = (calls w ++ [Call_Cookie "gq_session"])%list /\
  c_Response w' = c_Response w /\
  s w' = s w.
Proof.
  intros Hmemo Hsid w'. subst w'.
  rewrite GetSessionInfo_unfold, Hmemo. cbv zeta. rewrite Hsid.
  repeat split.
Qed.

Lemma GetSessionInfo_reads (w : World S R) :
  let w' := snd (GetSessionInfo w) in
  accounts (s w') = accounts (s w) /\
  uuid_count w' = uuid_count w /\
  (c_Response w' = c_Response w \/
   c_Response w' = (c_Response w ++ [clearing_cookie])%list) /\
  exists more, calls w' = (calls w ++ more)%list /\
               forallb (fun call => negb (writing_call call)) more = true.
Proof.
  simpl. rewrite GetSessionInfo_unfold.
  destruct (memo_session w) as [si|]; simpl.
  { repeat split; [left; reflexivity|]. exists []. rewrite app_nil_r. split; reflexivity. }
  case_bool_decide; simpl.
  { repeat split; [left; reflexivity | solve_calls]. }
  destruct (Get _ _) as [data [err|]]; simpl.
  - destruct (errors.Is _ _); simpl.
    + rewrite LogoutUser_unfold; simpl.
      destruct (http.Request_Cookie _ _) as [cookie [e|]]; simpl.
      { repeat split; [right; reflexivity | solve_calls]. }
      destruct (Del _ _) as [st [e|]]; simpl;
        (repeat split; [right; reflexivity | solve_calls]).
    + repeat split; [left; reflexivity | solve_calls].
  - repeat split; [left; reflexivity | solve_calls].
Qed.

(** X21: Resolving a session or an identity writes nothing: neither
    [GetSessionInfo] nor [GetUser] saves a session or updates an
    account, the repository stays as it is and no token is drawn; the
    response is left alone or gets the cookie that clears the session
    cookie. *)
Theorem resolution_writes_nothing (w : World S R) :
  (let w' := snd (GetSessionInfo w) in
   accounts (s w') = accounts (s w) /\
   uuid_count w' = uuid_count w /\
   (c_Response w' = c_Response w \/
    c_Response w' = (c_Response w ++ [clearing_cookie])%list) /\
   exists more, calls w' = (calls w ++ more)%list /\
                forallb (fun call => negb (writing_call call)) more = true) /\
  (let w' := snd (GetUser w) in
   accounts (s w') = accounts (s w) /\
   uuid_count w' = uuid_count w /\
   (c_Response w' = c_Response w \/
    c_Response w' = (c_Response w ++ [clearing_cookie])%list) /\
   exists more, calls w' = (calls w ++ more)%list /\
                forallb (fun call => negb (writing_call call)) more = true).
Proof.
  split; [apply GetSessionInfo_reads|].
  simpl. rewrite GetUser_unfold.
  destruct (memo_user w) as [user|]; simpl.
  { repeat split; [left; reflexivity|]. exists []. rewrite app_nil_r. split; reflexivity. }
  destruct (negb _).
  - destruct (ttlcache.get _ _ _) as [[item|] c]; simpl.
    { repeat split; [left; reflexivity | solve_calls]. }
    destruct (basic_scheme _); simpl;
      [|repeat split; [left; reflexivity | solve_calls]].
    destruct (base64.DecodeString _) as [b|]; simpl;
      [|repeat split; [left; reflexivity | solve_calls]].
    destruct (strings.SplitN2 b ":") as [|login [|password [|]]]; simpl;
      try (repeat split; [left; reflexivity | solve_calls]).
    rewrite Authenticate_unfold. unfold lookup_call.
    destruct (lookup _ _) as [account [err|]]; simpl;
      [repeat split; [left; reflexivity | solve_calls]|].
    destruct (negb (Account_Active account)); simpl;
      [repeat split; [left; reflexivity | solve_calls]|].
    destruct (negb (CheckPassword account password)); simpl;
      repeat split; first [left; reflexivity | solve_calls].
  - destruct (GetSessionInfo_reads w) as (Ea & Eu & Er & more & Ec & Hw).
    destruct (GetSessionInfo w) as [[[si|] [err|]] w1]; simpl in *;
      try (repeat split; [assumption .. | exists more; split; assumption]).
    rewrite s_cache_Get_unfold.
    destruct (ttlcache.get _ _ _) as [[item|] c]; simpl.
    { repeat split; try assumption.
      exists (more ++ [Call_cache_Get (Username_ si)])%list.
      rewrite Ec, <- app_assoc. split; [reflexivity|].
      rewrite forallb_app, Hw. reflexivity. }
    destruct (GetByUsername _ _) as [account [err|]]; simpl.
    + repeat split; try assumption.
      eexists (more ++ [_; _])%list.
      rewrite Ec, <- !app_assoc. split; [reflexivity|].
      rewrite forallb_app, Hw. reflexivity.
    + repeat split; try assumption.
      eexists (more ++ [_; _; _])%list.
      rewrite Ec, <- !app_assoc. split; [reflexivity|].
      rewrite forallb_app, Hw. reflexivity.
Qed.

End Resolution.

(** ** An invariant of the running service *)
Section Running.
Context {S R : Type} `{!SessionStore S} `{!AccountsRepository R}
        `{!PasswordScheme}.

Lemma LoginUser_keeps_identities (w : World S R) account :
  let w' := snd (LoginUser account w) in
  cache (s w') = cache (s w) /\
  basicAuthCache (s w') = basicAuthCache (s w) /\
  c_store w' = c_store w.
Proof.
  simpl. rewrite LoginUser_unfold. cbv zeta.
  destruct (uuid_source w (uuid_count w)) as [sid [e|]]; [repeat split|].
  destruct (Set_ _ _ _ _) as [st [e|]]; [repeat split|].
  destruct (http.Request_Cookie _ _) as [old [e|]].
  - destruct (Update _ _) as [r [e'|]]; repeat split.
  - destruct (Del _ _) as [st' [e|]];
      destruct (Update _ _) as [r [e'|]]; repeat split.
Qed.

Lemma LogoutUser_keeps_identities (w : World S R) :
  let w' := snd (LogoutUser w) in
  cache (s w') = cache (s w) /\
  basicAuthCache (s w') = basicAuthCache (s w) /\
  c_store w' = c_store w.
Proof.
  simpl. rewrite LogoutUser_unfold. simpl.
  destruct (http.Request_Cookie _ _) as [old [e|]]; [repeat split|].
  destruct (Del _ _) as [st' [e|]]; repeat split.
Qed.

Lemma run_step_consistent (w : World S R) (step : Step) :
  world_consistent w -> world_consistent (run_step w step).
Proof.
  intros Hw. destruct step as [| |login password|account| |req elapsed]; simpl.
  - apply GetSessionInfo_consistent, Hw.
  - apply GetUser_consistent, Hw.
  - rewrite Authenticate_unfold. exact Hw.
  - destruct (LoginUser_keeps_identities w account) as (Ec & Eb & Es).
    destruct Hw as (Hc & Hb & Hu). unfold world_consistent, memo_user.
    rewrite Ec, Eb, Es. repeat split; assumption.
  - destruct (LogoutUser_keeps_identities w) as (Ec & Eb & Es).
    destruct Hw as (Hc & Hb & Hu). unfold world_consistent, memo_user.
    rewrite Ec, Eb, Es. repeat split; assumption.
  - destruct Hw as (Hc & Hb & Hu). repeat split; try assumption.
    intros user. unfold memo_user. simpl. rewrite lookup_empty. discriminate.
Qed.

(** X22: From a service as [NewAuthService] builds it, whatever requests
    arrive and whatever is called on them (session and identity
    resolution, credential checks, logins, logouts), no identity that
    is cached, remembered or returned by [GetUser] is both
    authenticated and a guest. *)
Theorem service_identities_consistent (w : World S R)
    (expiration : Z) (accounts : R) (store : S) (steps : list Step) :
  s w = NewAuthService expiration accounts store ->
  c_store w = ∅ ->
  world_consistent (run_steps steps w) /\
  consistent (fst (fst (GetUser (run_steps steps w)))).
Proof.
  intros Hs Hstore.
  assert (Hw : world_consistent w).
  { unfold world_consistent, memo_user. rewrite Hs, Hstore. simpl.
    repeat split; try apply New_consistent.
    intros user. rewrite lookup_empty. discriminate. }
  assert (Hrun : world_consistent (run_steps steps w)).
  { clear Hs Hstore. revert w Hw.
    induction steps as [|step steps IH]; intros w Hw; simpl; [exact Hw|].
    apply IH, run_step_consistent, Hw. }
  split; [exact Hrun|]. apply GetUser_consistent, Hrun.
Qed.

End Running.

(** ** The handlers *)
Section HandlerProperties.
Context {S R : Type} `{!SessionStore S} `{!AccountsRepository R}
        `{!PasswordScheme} `{!server.PasswordSetter}.

(** X23: A login request that cannot be bound, or that lacks the username
    or the password, is answered with the error 400 before anything
    else happens: the credentials are not checked and the server is
    left as it was. *)
Theorem handleLogin_bad_request (srv : server.Server S R) :
  (forall msg, http.Body (c_Request (server.auth srv)) = http.Malformed msg ->
     server.handleLogin srv
     = (Some (HTTPError_of http.StatusBadRequest (BindingError msg)), srv)) /\
  (forall fields,
     http.Body (c_Request (server.auth srv)) = http.Fields fields ->
     default "" (fields !! "username") = "" \/
     default "" (fields !! "password") = "" ->
     exists missing,
       missing <> [] /\
       server.handleLogin srv
       = (Some (HTTPError_of http.StatusBadRequest (ValidationErrors missing)),
          srv)).
Proof.
  split.
  - intros msg Hbody. unfold server.handleLogin, bind at 1, server.Bind.
    rewrite Hbody. reflexivity.
  - intros fields Hbody Hmissing.
    unfold server.handleLogin, bind at 1, server.Bind.
    rewrite Hbody. unfold server.validate_Struct. simpl.
    destruct Hmissing as [Hm | Hm]; rewrite Hm; simpl.
    + eexists. split; [|reflexivity]. discriminate.
    + case_bool_decide; simpl; (eexists; split; [|reflexivity]); discriminate.
Qed.

(** X25: [handleLogout] always succeeds: whatever the session store
    answers, it returns no error, answers 200 without body and sets
    the cookie that clears the session cookie. *)
Theorem handleLogout_always_ok (srv : server.Server S R) :
  let srv' := snd (server.handleLogout srv) in
  fst (server.handleLogout srv) = None /\
  server.written srv' = Some (http.StatusOK, None) /\
  c_Response (server.auth srv')
  = (c_Response (server.auth srv) ++ [clearing_cookie])%list.
Proof.
  unfold server.handleLogout, bind, server.s_auth, server.c_NoContent.
  rewrite LogoutUser_unfold. simpl.
  destruct (http.Request_Cookie _ _) as [cookie [e|]]; simpl; [repeat split|].
  destruct (Del _ _) as [st [e|]]; simpl; repeat split.
Qed.


Lemma handleLogin_accepts (srv : server.Server S R)
    (form : server.LoginForm) (account : Account) :
  fst (server.Bind srv) = (form, None) ->
  server.validate_Struct form = None ->
  fst (Authenticate (server.Username form) (server.Password form)
         (server.auth srv)) = (account, None) ->
  server.handleLogin srv =
  let w1 := snd (Authenticate (server.Username form) (server.Password form)
                   (server.auth srv)) in
  let srv2 := server.with_auth (snd (LoginUser account w1)) srv in
  match fst (LoginUser account w1) with
  | Some err => (Some err, srv2)
  | None =>
      match Account_Profile account with
      | Some _ =>
          (None, server.with_written
                   (Some (http.StatusOK, Some (AccountToUser account))) srv2)
      | None =>
          let r := server.getUserProfile (AccountToUser account) srv2 in
          (None,
           server.with_written
             (Some (http.StatusOK,
                    Some (mkUser (Account_Username account)
                            (Account_Email account)
                            (Account_FirstName account)
                            (Account_LastName account)
                            (Account_Superuser account) true false
                            (fst (fst r)))))
             (match snd (fst r) with
              | Some err =>
                  server.with_log
                    (server.log srv ++ [mkLogEntry Warn "handleLogin" err])
                    srv2
              | None => srv2
              end))
      end
  end.
Proof.
  intros Hbind Hvalid Hauth.
  assert (Hb : server.Bind srv = ((form, None), srv)).
  { unfold server.Bind in *. destruct (http.Body _); simpl in *;
      [discriminate | congruence]. }
  unfold server.handleLogin, bind at 1. rewrite Hb, Hvalid.
  unfold bind at 1, server.s_auth at 1.
  destruct (Authenticate _ _ _) as [[account' err] w1]. simpl in Hauth.
  inversion Hauth; subst. cbv beta iota zeta. simpl snd.
  unfold bind at 1, server.s_auth at 1.
  cbn [server.auth server.with_auth].
  destruct (LoginUser account w1) as [[e|] w2]; simpl fst; simpl snd;
    cbv beta iota; [reflexivity|].
  change (Profile_ (AccountToUser account)) with (Account_Profile account).
  destruct (Account_Profile account) as [p|] eqn:Hp; [reflexivity|].
  unfold bind, server.getUserProfile, server.log_Warnw, server.c_JSON. simpl.
  destruct (server.ReadFile _ _) as [content [e|]]; simpl.
  - destruct (negb (errors.Is e ErrNotExist)); reflexivity.
  - destruct (server.Unmarshal _ _) as [profile [e|]]; reflexivity.
Qed.

(** X24: Once the credentials are verified and the session is created,
    [handleLogin] succeeds whatever reading the profile file gives: it
    answers 200 with the identity of the account, authenticated and
    not a guest, which carries the account's own profile when it has
    one; and the response has the cookies [LoginUser] set.  When the
    session cannot be created the handler returns that error and
    writes no answer. *)
Theorem handleLogin_success (srv : server.Server S R)
    (form : server.LoginForm) (account : Account) :
  fst (server.Bind srv) = (form, None) ->
  server.validate_Struct form = None ->
  fst (Authenticate (server.Username form) (server.Password form)
         (server.auth srv)) = (account, None) ->
  let w1 := snd (Authenticate (server.Username form) (server.Password form)
                   (server.auth srv)) in
  let srv' := snd (server.handleLogin srv) in
  (fst (LoginUser account w1) = None ->
     fst (server.handleLogin srv) = None /\
     c_Response (server.auth srv') = c_Response (snd (LoginUser account w1)) /\
     exists user,
       server.written srv' = Some (http.StatusOK, Some user) /\
       domain.Username user = Account_Username account /\
       IsAuthenticated user = true /\ IsGuest user = false /\
       (forall p, Account_Profile account = Some p ->
                  user = AccountToUser account)) /\
  (forall err, fst (LoginUser account w1) = Some err ->
     fst (server.handleLogin srv) = Some err /\
     server.written srv' = server.written srv).
Proof.
  intros Hbind Hvalid Hauth w1 srv'. subst srv'.
  rewrite (handleLogin_accepts srv form account Hbind Hvalid Hauth).
  fold w1. cbv zeta.
  destruct (fst (LoginUser account w1)) as [e|].
  - split; [intros [=]|]. intros err [= <-]. split; reflexivity.
  - split; [|intros err [=]]. intros _.
    destruct (Account_Profile account) as [p|] eqn:Hp.
    + split; [reflexivity|]. split; [reflexivity|].
      eexists. split; [reflexivity|]. repeat split.
    + split; [reflexivity|]. split.
      { destruct (snd (fst _)); reflexivity. }
      eexists. split; [destruct (snd (fst _)); reflexivity|].
      repeat split. intros p [=].
Qed.

(** What [GetUser] answers on a request without identity. *)
Lemma GetUser_without_identity (w : World S R) :
  memo_user w = None -> Authorization w = "" -> without_identity w ->
  fst (GetUser w) = (AnonymousUser, None).
Proof.
  intros Hmemo Hauth Hwithout.
  rewrite GetUser_unfold, Hmemo. cbv zeta. rewrite Hauth. simpl.
  destruct (GetSessionInfo_keeps_caches w) as (Ec & _ & Ea & En).
  destruct (without_identity_session w Hwithout)
    as [Hnone | (si & account & err & Hsome & Hmiss & Hload)].
  - destruct (GetSessionInfo w) as [[r e] w1]. simpl in *.
    inversion Hnone; subst. reflexivity.
  - destruct (GetSessionInfo w) as [[r e] w1]. simpl in *.
    inversion Hsome; subst.
    rewrite s_cache_Get_unfold, Ec, En, Ea.
    unfold identity_cache_miss in Hmiss.
    destruct (ttlcache.get _ _ _) as [found c]. simpl in Hmiss. subst found.
    cbv beta iota zeta. rewrite Hload. reflexivity.
Qed.

(** X26: [handleGetSessionUser] does not refuse a request without identity
    (no session cookie, a session the store no longer holds, or a
    session without account): it answers 200 with [AnonymousUser], the
    guest. *)
Theorem handleGetSessionUser_guest (srv : server.Server S R) :
  memo_user (server.auth srv) = None ->
  Authorization (server.auth srv) = "" ->
  without_identity (server.auth srv) ->
  fst (server.handleGetSessionUser srv) = None /\
  server.written (snd (server.handleGetSessionUser srv))
  = Some (http.StatusOK, Some AnonymousUser).
Proof.
  intros Hmemo Hauth Hwithout.
  pose proof (GetUser_without_identity _ Hmemo Hauth Hwithout) as Hres.
  unfold server.handleGetSessionUser, bind, server.s_auth.
  destruct (GetUser (server.auth srv)) as [[user err] w1]. simpl in Hres.
  inversion Hres; subst. split; reflexivity.
Qed.

Lemma BindChangePassword_keeps (srv : server.Server S R) :
  snd (server.BindChangePassword srv) = srv.
Proof.
  unfold server.BindChangePassword. destruct (http.Body _); reflexivity.
Qed.

Lemma handleChangePassword_unfold (srv : server.Server S R) :
  server.handleChangePassword srv =
  match fst (server.BindChangePassword srv) with
  | (_, Some err) => (Some (HTTPError_of http.StatusBadRequest err), srv)
  | (form, None) =>
      match server.validate_ChangePassword form with
      | Some err => (Some (HTTPError_of http.StatusBadRequest err), srv)
      | None =>
          if negb (bool_decide (server.NewPassword form
                                = server.NewPasswordConfirm form))
          then (Some (HTTPError http.StatusBadRequest
                        "New passwords doesn't match"), srv)
          else
            match GetSessionInfo (server.auth srv) with
            | ((_, Some err), w1) => (Some err, server.with_auth w1 srv)
            | ((None, None), w1) =>
                (Some (HTTPError http.StatusUnauthorized "Unauthorized"),
                 server.with_auth w1 srv)
            | ((Some si, None), w1) =>
                let w2 := after_calls w1 [Call_GetByUsername (Username_ si)] in
                match GetByUsername (accounts (s w1)) (Username_ si) with
                | (_, Some err) =>
                    (if errors.Is err ErrAccountNotFound
                     then Some (HTTPError http.StatusBadRequest "Invalid account")
                     else Some err,
                     server.with_auth w2 srv)
                | (account, None) =>
                    if negb (CheckPassword account (server.OldPassword form))
                    then (Some (HTTPError http.StatusBadRequest
                                  "Old password doesn't match"),
                          server.with_auth w2 srv)
                    else
                      match server.SetPassword account (server.NewPassword form) with
                      | (_, Some err) => (Some err, server.with_auth w2 srv)
                      | (account', None) =>
                          let (r, err) := Update (accounts (s w1)) account' in
                          (err,
                           server.with_auth
                             (with_s (with_accounts r (s w2))
                                (after_calls w2
                                   [Call_Update (Account_Username account')]))
                             srv)
                      end
                end
            end
      end
  end.
Proof.
  unfold server.handleChangePassword, bind at 1.
  pose proof (BindChangePassword_keeps srv) as Hkeep.
  destruct (server.BindChangePassword srv) as [[form [e|]] srv0];
    simpl in Hkeep; subst srv0; simpl fst; cbv beta iota; [reflexivity|].
  destruct (server.validate_ChangePassword form) as [e|]; [reflexivity|].
  destruct (negb _); [reflexivity|].
  unfold bind at 1, server.s_auth at 1.
  destruct (GetSessionInfo (server.auth srv)) as [[[si|] [e|]] w1];
    cbv beta iota; try reflexivity.
  unfold bind at 1, server.s_auth at 1, s_accounts_GetByUsername, bind at 1,
    record, after_calls. simpl.
  destruct (GetByUsername _ _) as [account [e|]]; simpl.
  { destruct (errors.Is e ErrAccountNotFound); reflexivity. }
  destruct (negb (CheckPassword account _)); [reflexivity|].
  destruct (server.SetPassword account _) as [account' [e|]]; [reflexivity|].
  unfold server.s_auth, s_accounts_Update, bind, record. simpl.
  destruct (Update _ _) as [r e]. rewrite <- app_assoc. reflexivity.
Qed.

(** X27: [handleChangePassword] changes the repository only by updating
    the account the session names, after the two new passwords were
    found equal and the old password verified against that account;
    and with a well-formed form but no session it answers 401. *)
Theorem handleChangePassword_guard (srv : server.Server S R) :
  let srv' := snd (server.handleChangePassword srv) in
  (accounts (s (server.auth srv')) <> accounts (s (server.auth srv)) ->
   exists form si account account',
     fst (server.BindChangePassword srv) = (form, None) /\
     server.NewPassword form = server.NewPasswordConfirm form /\
     fst (GetSessionInfo (server.auth srv)) = (Some si, None) /\
     GetByUsername (accounts (s (server.auth srv))) (Username_ si)
     = (account, None) /\
     CheckPassword account (server.OldPassword form) = true /\
     server.SetPassword account (server.NewPassword form) = (account', None) /\
     accounts (s (server.auth srv'))
     = fst (Update (accounts (s (server.auth srv))) account')) /\
  (forall form,
     fst (server.BindChangePassword srv) = (form, None) ->
     server.validate_ChangePassword form = None ->
     server.NewPassword form = server.NewPasswordConfirm form ->
     fst (GetSessionInfo (server.auth srv)) = (None, None) ->
     fst (server.handleChangePassword srv)
     = Some (HTTPError http.StatusUnauthorized "Unauthorized")).
Proof.
  simpl. rewrite handleChangePassword_unfold.
  destruct (fst (server.BindChangePassword srv)) as [form [e|]].
  { simpl. split; [congruence | intros ? [=]]. }
  destruct (server.validate_ChangePassword form) as [e|] eqn:Hvalid.
  { simpl. split; [congruence|]. intros f [= <-]. congruence. }
  case_bool_decide as Hnew; simpl negb; cbv iota.
  2:{ simpl. split; [congruence|]. intros f [= <-] _ Heq. congruence. }
  destruct (GetSessionInfo_keeps_caches (server.auth srv)) as (_ & _ & Ea & _).
  destruct (GetSessionInfo (server.auth srv)) as [[[si|] [e|]] w1];
    simpl in Ea; simpl fst; cbv beta iota zeta.
  - simpl. split; [congruence | intros f _ _ _ [=]].
  - split; [|intros f _ _ _ [=]].
    rewrite Ea.
    destruct (GetByUsername _ _) as [account [e|]] eqn:Hload; simpl.
    { congruence. }
    destruct (CheckPassword account (server.OldPassword form)) eqn:Hold; simpl;
      [|congruence].
    destruct (server.SetPassword account (server.NewPassword form))
      as [account' [e|]] eqn:Hset; simpl; [congruence|].
    intros _. exists form, si, account, account'.
    destruct (Update _ _) as [r e]. simpl. repeat split; assumption.
  - simpl. split; [congruence | intros f _ _ _ [=]].
  - simpl. split; [congruence | intros f _ _ _ _; reflexivity].
Qed.

End HandlerProperties.

(** ** The further properties on concrete requests *)

Lemma GetByUsername_found_witness :
  let db := scenario.db [scenario.alice; scenario.carol] in
  postgres.failure db = None /\
  postgres.GetByUsername db "bob" = (Account_zero, Some ErrAccountNotFound) /\
  snd (postgres.GetByUsername db "carol") = None.
Proof.
  intros db.
  destruct (GetByUsername_found db "bob") as (Hbob & _).
  destruct (GetByUsername_found db "carol") as (Hcarol & _).
  split; [reflexivity|]. split.
  - apply (Hbob eq_refl). reflexivity.
  - apply (Hcarol eq_refl). reflexivity.
Defined.

Lemma Update_then_GetByUsername_witness :
  let db := scenario.db [scenario.alice; scenario.carol] in
  let a := with_LastLogin (Some 1234567) (postgres.toAccount scenario.alice) in
  let strict :=
    postgres.mkDB [scenario.alice; scenario.carol] scenario.like None
      (fun _ => []) scenario.unique_email scenario.microseconds in
  let b := postgres.toAccount (scenario.row "carol" "alice@x.com" "pa55" false) in
  postgres.failure db = None /\
  snd (postgres.Update db a) = None /\
  postgres.GetByUsername (fst (postgres.Update db a)) "alice"
  = (with_LastLogin (Some 1234000) (postgres.toAccount scenario.alice), None) /\
  postgres.GetByUsername (fst (postgres.Update db a)) "carol"
  = postgres.GetByUsername db "carol" /\
  postgres.failure strict = None /\
  snd (postgres.Update strict b) <> None /\
  fst (postgres.Update strict b) = strict.
Proof.
  intros db a strict b.
  assert (Hok : snd (postgres.Update db a) = None) by reflexivity.
  assert (Hrefused : snd (postgres.Update strict b) <> None)
    by (vm_compute; discriminate).
  destruct (Update_then_GetByUsername db a eq_refl) as (_ & Hdone & _).
  destruct (Hdone Hok) as (Hother & Hself & _).
  destruct (Update_then_GetByUsername strict b eq_refl) as (Hkept & _).
  split; [reflexivity|]. split; [exact Hok|]. split; [|split].
  - exact (Hself (postgres.toAccount scenario.alice) eq_refl).
  - apply Hother. vm_compute. discriminate.
  - split; [reflexivity|]. split; [exact Hrefused|]. exact (Hkept Hrefused).
Defined.

Lemma Delete_then_GetByUsername_witness :
  let db := scenario.db [scenario.alice; scenario.carol] in
  postgres.failure db = None /\
  postgres.GetByUsername (fst (postgres.Delete db "alice")) "alice"
  = (Account_zero, Some ErrAccountNotFound).
Proof.
  intros db. split; [reflexivity|].
  apply (Delete_then_GetByUsername db "alice" eq_refl).
Defined.

Lemma UsernameExists_agrees_witness :
  let db := scenario.db [scenario.alice; scenario.carol] in
  postgres.failure db = None /\
  snd (postgres.GetByUsername db "alice") = None /\
  fst (postgres.UsernameExists db "alice") = true.
Proof.
  intros db.
  destruct (UsernameExists_agrees db "alice") as (Hup & _).
  destruct (Hup eq_refl) as (_ & Hiff).
  split; [reflexivity|]. split; [reflexivity|].
  apply Hiff. reflexivity.
Defined.

Lemma GetActiveAccounts_of_all_witness :
  let db :=
    postgres.mkDB [scenario.alice; scenario.carol; scenario.alicia]
      scenario.like None
      (fun q => match q with postgres.all => [2; 0; 0]%nat | _ => [] end)
      (fun _ => None) scenario.microseconds in
  postgres.failure db = None /\
  exists everyone enabled,
    postgres.GetAllAccounts db = (Some everyone, None) /\
    postgres.GetActiveAccounts db = (Some enabled, None) /\
    Permutation enabled (List.filter Account_Active everyone) /\
    List.map Account_Username everyone = ["carol"; "alicia"; "alice"] /\
    List.map Account_Username enabled = ["alice"; "alicia"].
Proof.
  intros db. split; [reflexivity|].
  destruct (GetActiveAccounts_of_all db) as (Hup & _).
  destruct (Hup eq_refl) as (everyone & enabled & Hall & Hactive & _ & Hsame).
  exists everyone, enabled.
  split; [exact Hall|]. split; [exact Hactive|]. split; [exact Hsame|].
  assert (Heveryone : Some everyone = fst (postgres.GetAllAccounts db))
    by (rewrite Hall; reflexivity).
  assert (Henabled : Some enabled = fst (postgres.GetActiveAccounts db))
    by (rewrite Hactive; reflexivity).
  injection Heveryone as ->. injection Henabled as ->.
  split; reflexivity.
Defined.

Lemma RedisSessionStore_Set_then_Get_witness :
  let st := scenario.redis [("sid1", "alice")] in
  unavailable (rdb st) = None /\
  RedisSessionStore_Get (fst (RedisSessionStore_Set st "sid2" "carol" 60)) "sid2"
  = ("carol", None).
Proof.
  intros st. split; [reflexivity|].
  apply (RedisSessionStore_Set_then_Get st "sid2" "carol" 60 eq_refl).
Defined.

Lemma RedisSessionStore_Del_then_Get_witness :
  let st := scenario.redis [("sid1", "alice")] in
  unavailable (rdb st) = None /\
  RedisSessionStore_Get (fst (RedisSessionStore_Del st "sid1")) "sid1"
  = ("", Some ErrInvalidSession).
Proof.
  intros st. split; [reflexivity|].
  apply (RedisSessionStore_Del_then_Get st "sid1" eq_refl).
Defined.

Lemma Redis_outage_is_not_a_logout_witness :
  let w := scenario.world_of (scenario.request None (Some "sid1") [])
             (NewAuthService 3600 (scenario.db [scenario.alice])
                scenario.redis_down) in
  unavailable (rdb (store (s w)))
  = Some (errorString "dial tcp: connection refused") /\
  memo_session w = None /\
  session_cookie w <> "" /\
  c_Response (snd (GetSessionInfo w)) = c_Response w.
Proof.
  intros w.
  assert (Hsid : session_cookie w <> "") by (vm_compute; discriminate).
  assert (Hne : errorString "dial tcp: connection refused" <> redis_Nil)
    by discriminate.
  split; [reflexivity|]. split; [reflexivity|]. split; [exact Hsid|].
  destruct (Redis_outage_is_not_a_logout w _ eq_refl Hne eq_refl Hsid)
    as (_ & _ & Hresp & _).
  exact Hresp.
Defined.

Lemma LoginUser_best_effort_witness :
  let w := scenario.world (scenario.request None None [])
             [scenario.alice] [] in
  let account := postgres.toAccount scenario.alice in
  uuid_source w (uuid_count w) = ("a-token", None) /\
  fst (LoginUser account w) = None /\
  c_Response (snd (LoginUser account w))
  = [login_cookie "a-token" (3600 * time.Second)].
Proof.
  intros w account.
  assert (Hset : Set_ (store (s w)) "a-token" (Account_Username account)
                   (expiration (s w))
                 = (fst (Set_ (store (s w)) "a-token" (Account_Username account)
                           (expiration (s w))), None))
    by (vm_compute; reflexivity).
  destruct (LoginUser_best_effort w account "a-token" _ eq_refl Hset)
    as (Hres & Hcookie & _).
  split; [reflexivity|]. split; [exact Hres | exact Hcookie].
Defined.

Lemma LoginUser_fails_cleanly_witness :
  let w := scenario.world_of (scenario.request None None [])
             (NewAuthService 3600 (scenario.db [scenario.alice])
                scenario.redis_down) in
  let account := postgres.toAccount scenario.alice in
  uuid_source w (uuid_count w) = ("a-token", None) /\
  c_Response (snd (LoginUser account w)) = [] /\
  accounts (s (snd (LoginUser account w))) = accounts (s w).
Proof.
  intros w account.
  destruct (LoginUser_fails_cleanly w account) as (_ & Hsave).
  destruct (Hsave "a-token" scenario.redis_down
              (Errorf_v "redis save session: %v"
                 (errorString "dial tcp: connection refused"))
              eq_refl eq_refl) as (_ & Hresp & Hacc & _).
  split; [reflexivity|]. split; [exact Hresp | exact Hacc].
Defined.

Lemma LoginUser_then_GetSessionInfo_witness :
  let w := scenario.world (scenario.request None None [])
             [scenario.alice] [] in
  let account := postgres.toAccount scenario.alice in
  let later waited :=
    redis_later waited
      (next_request (scenario.request None (Some "a-token") [])
         (waited * time.Millisecond) (snd (LoginUser account w))) in
  uuid_source w (uuid_count w) = ("a-token", None) /\
  unavailable (rdb (store (s w))) = None /\
  session_cookie w <> "a-token" /\
  0 < expiration (s w) /\
  redis_ttl (expiration (s w)) = 3600000 /\
  session_cookie (later 3600000) = "a-token" /\
  fst (GetSessionInfo (later 3600000))
  = (Some (mkSessionInfo "a-token" "alice"), None) /\
  fst (GetSessionInfo (later 3600001)) = (None, None).
Proof.
  intros w account later.
  assert (Htok : "a-token" <> "") by discriminate.
  assert (Hold : session_cookie w <> "a-token") by (vm_compute; discriminate).
  assert (Hpos : 0 < expiration (s w)) by reflexivity.
  assert (Httl : redis_ttl (expiration (s w)) = 3600000) by reflexivity.
  split; [reflexivity|]. split; [reflexivity|]. split; [exact Hold|].
  split; [exact Hpos|]. split; [exact Httl|]. split; [reflexivity|].
  split.
  - apply (LoginUser_then_GetSessionInfo w account "a-token"
             (scenario.request None (Some "a-token") [])
             (3600000 * time.Millisecond) 3600000
             eq_refl Htok eq_refl Hold Hpos eq_refl).
    rewrite Httl. lia.
  - apply (LoginUser_then_GetSessionInfo w account "a-token"
             (scenario.request None (Some "a-token") [])
             (3600001 * time.Millisecond) 3600001
             eq_refl Htok eq_refl Hold Hpos eq_refl).
    rewrite Httl. lia.
Defined.

Lemma LoginUser_invalidates_old_session_witness :
  let w := scenario.world (scenario.request None (Some "sid1") [])
             [scenario.alice] [("sid1", "alice"); ("sid9", "alice")] in
  let account := postgres.toAccount scenario.alice in
  let st' := store (s (snd (LoginUser account w))) in
  uuid_source w (uuid_count w) = ("a-token", None) /\
  unavailable (rdb (store (s w))) = None /\
  Get st' "sid1" = ("", Some ErrInvalidSession) /\
  Get st' "sid9" = ("alice", None).
Proof.
  intros w account st'.
  assert (Hne : "sid1" <> "a-token") by discriminate.
  destruct (LoginUser_invalidates_old_session w account "a-token"
              (http.mkCookie "gq_session" "sid1" "" None 0 false false
                 http.SameSiteUnset)
              eq_refl eq_refl eq_refl Hne) as (Hold & _ & Hother).
  split; [reflexivity|]. split; [reflexivity|]. split; [exact Hold|].
  subst st'. rewrite Hother by discriminate. reflexivity.
Defined.

Lemma LogoutUser_then_request_witness :
  let w := scenario.world (scenario.request None (Some "sid1") [])
             [scenario.alice] [("sid1", "alice")] in
  let w2 := next_request (scenario.request None (Some "sid1") []) 5
              (snd (LogoutUser w)) in
  unavailable (rdb (store (s w))) = None /\
  Authorization w2 = "" /\
  fst (GetUser w2) = (AnonymousUser, None).
Proof.
  intros w w2.
  assert (Hval : "sid1" <> "") by discriminate.
  split; [reflexivity|]. split; [reflexivity|].
  apply (LogoutUser_then_request w
           (http.mkCookie "gq_session" "sid1" "" None 0 false false
              http.SameSiteUnset)
           (scenario.request None (Some "sid1") []) 5
           eq_refl eq_refl Hval eq_refl eq_refl).
Defined.

Lemma credentials_cached_for_ttl_witness :
  let w := scenario.world
             (scenario.request (Some "Basic YWxpY2U6czNjcmV0") None [])
             [scenario.alice] [] in
  let user := AccountToUser (postgres.toAccount scenario.alice) in
  let w2 := next_request
              (scenario.request (Some "Basic YWxpY2U6czNjcmV0") None [])
              (10 * time.Second) (snd (GetUser w)) in
  fst (GetUser w) = (user, None) /\
  10 * time.Second < ttlcache.ttl (basicAuthCache (s w)) /\
  fst (GetUser w2) = (user, None) /\
  calls (snd (GetUser w2))
  = (calls w2 ++ [Call_basicAuthCache_Get "Basic YWxpY2U6czNjcmV0"])%list.
Proof.
  intros w user w2.
  assert (Hauth : Authorization w <> "") by (vm_compute; discriminate).
  assert (Httl : 0 < ttlcache.ttl (basicAuthCache (s w))) by (vm_compute; reflexivity).
  assert (Hfresh : 10 * time.Second < ttlcache.ttl (basicAuthCache (s w)))
    by (vm_compute; reflexivity).
  assert (Hmiss : credential_cache_miss w) by reflexivity.
  assert (Hfirst : fst (GetUser w) = (user, None)) by (vm_compute; reflexivity).
  assert (Hsame : Authorization w2 = Authorization w) by reflexivity.
  destruct (credentials_cached_for_ttl w user
              (scenario.request (Some "Basic YWxpY2U6czNjcmV0") None [])
              (10 * time.Second) eq_refl Hauth Hmiss Hfirst eq_refl Httl
              Hsame) as (Hhit & _).
  destruct (Hhit Hfresh) as (Hres & Hcalls & _).
  split; [reflexivity|]. split; [exact Hfresh|].
  split; [exact Hres | exact Hcalls].
Defined.

Lemma cached_identity_served_witness :
  let w := scenario.world (scenario.request None (Some "sid1") [])
             [scenario.alice] [("sid1", "alice")] in
  let w2 := next_request (scenario.request None (Some "sid1") [])
              (10 * time.Second) (snd (GetUser w)) in
  let user := AccountToUser (postgres.toAccount scenario.alice) in
  memo_user w2 = None /\
  Authorization w2 = "" /\
  resolves_to w2 (mkSessionInfo "sid1" "alice") /\
  fst (GetUser w2) = (user, None) /\
  accounts (s (snd (GetUser w2))) = accounts (s w2).
Proof.
  intros w w2 user.
  assert (Hres : resolves_to w2 (mkSessionInfo "sid1" "alice")).
  { right. split; [reflexivity|]. split; [vm_compute; discriminate|].
    split; reflexivity. }
  assert (Hhit : fst (ttlcache.get (cache (s w2)) (now w2) "alice")
                 = Some (ttlcache.mkItem user (45 * time.Second)
                           (45 * time.Second)))
    by (vm_compute; reflexivity).
  destruct (cached_identity_served w2 (mkSessionInfo "sid1" "alice") _
              eq_refl eq_refl Hres Hhit) as (Huser & _ & Hacc & _).
  split; [reflexivity|]. split; [reflexivity|]. split; [exact Hres|].
  split; [exact Huser | exact Hacc].
Defined.

Lemma session_identity_loaded_witness :
  let w := scenario.world (scenario.request None (Some "sid1") [])
             [scenario.alice; scenario.carol] [("sid1", "carol")] in
  memo_user w = None /\
  Authorization w = "" /\
  identity_cache_miss w "carol" /\
  Account_Active (postgres.toAccount scenario.carol) = false /\
  fst (GetUser w) = (AccountToUser (postgres.toAccount scenario.carol), None) /\
  IsAuthenticated (fst (fst (GetUser w))) = true.
Proof.
  intros w.
  assert (Hres : resolves_to w (mkSessionInfo "sid1" "carol")).
  { right. split; [reflexivity|]. split; [vm_compute; discriminate|].
    split; reflexivity. }
  assert (Hmiss : identity_cache_miss w "carol") by reflexivity.
  assert (Hload : GetByUsername (accounts (s w)) "carol"
                  = (postgres.toAccount scenario.carol, None))
    by (vm_compute; reflexivity).
  destruct (session_identity_loaded w (mkSessionInfo "sid1" "carol")
              (postgres.toAccount scenario.carol)
              eq_refl eq_refl Hres Hmiss Hload) as (Huser & Hin & _).
  split; [reflexivity|]. split; [reflexivity|]. split; [reflexivity|].
  split; [reflexivity|]. split; [exact Huser | exact Hin].
Defined.

Lemma GetUser_error_leaves_caches_witness :
  let w := scenario.world
             (scenario.request (Some "Basic YWxpY2U6d3Jvbmc=") None [])
             [scenario.alice] [] in
  fst (GetUser w) = (AnonymousUser, Some ErrInvalidPassword) /\
  basicAuthCache (s (snd (GetUser w))) = basicAuthCache (s w).
Proof.
  intros w.
  assert (Hres : fst (GetUser w) = (AnonymousUser, Some ErrInvalidPassword))
    by (vm_compute; reflexivity).
  destruct (GetUser_error_leaves_caches w _ _ Hres) as (_ & Hcache & _).
  split; [exact Hres | exact Hcache].
Defined.

Lemma GetUser_basic_credentials_witness :
  let w := scenario.world
             (scenario.request (Some "Basic YWxpY2U6czM6Y3JldA==") None [])
             [scenario.row "alice" "alice@x.com" "s3:cret" true] [] in
  base64.DecodeString (payload (Authorization w)) = Some "alice:s3:cret" /\
  strings.Contains "alice" ":" = false /\
  IsAuthenticated (fst (fst (GetUser w))) = true.
Proof.
  intros w.
  assert (Hauth : Authorization w <> "") by (vm_compute; discriminate).
  split; [reflexivity|]. split; [reflexivity|].
  assert (Hmiss : credential_cache_miss w) by reflexivity.
  assert (Hscheme : basic_scheme (Authorization w) = true)
    by (vm_compute; reflexivity).
  assert (Hdec : base64.DecodeString (payload (Authorization w))
                 = Some ("alice" ++ String ":" "s3:cret"))
    by (vm_compute; reflexivity).
  rewrite (GetUser_basic_credentials w "alice" "s3:cret" eq_refl Hauth
             Hmiss Hscheme Hdec eq_refl).
  vm_compute. reflexivity.
Defined.

Lemma GetSessionInfo_without_cookie_witness :
  let w := scenario.world (scenario.request None (Some "") [])
             [scenario.alice] [("", "alice")] in
  memo_session w = None /\
  session_cookie w = "" /\
  fst (GetSessionInfo w) = (None, None) /\
  calls (snd (GetSessionInfo w)) = [Call_Cookie "gq_session"].
Proof.
  intros w.
  destruct (GetSessionInfo_without_cookie w eq_refl eq_refl)
    as (Hres & Hcalls & _).
  split; [reflexivity|]. split; [reflexivity|].
  split; [exact Hres | exact Hcalls].
Defined.

Lemma service_identities_consistent_witness :
  let w := scenario.world
             (scenario.request (Some "Basic YWxpY2U6czNjcmV0") None [])
             [scenario.alice] [] in
  let steps := [step_GetUser;
                step_LoginUser (postgres.toAccount scenario.alice);
                step_request (scenario.request None (Some "a-token") []) 5;
                step_GetUser; step_LogoutUser] in
  c_store w = ∅ /\
  consistent (fst (fst (GetUser (run_steps steps w)))).
Proof.
  intros w steps.
  split; [reflexivity|].
  apply (service_identities_consistent w (3600 * time.Second)
           (scenario.db [scenario.alice]) (scenario.redis []) steps
           eq_refl eq_refl).
Defined.

Lemma handleLogin_bad_request_witness :
  let srv := scenario.serving
               (scenario.world
                  (scenario.request None None [("username", "alice")])
                  [scenario.alice] []) in
  exists missing,
    missing <> [] /\
    server.handleLogin srv
    = (Some (HTTPError_of http.StatusBadRequest (ValidationErrors missing)), srv).
Proof.
  intros srv.
  destruct (handleLogin_bad_request srv) as (_ & Hfields).
  apply (Hfields (list_to_map [("username", "alice")]) eq_refl).
  right. reflexivity.
Defined.

Lemma handleLogin_success_witness :
  let srv := scenario.serving
               (scenario.world
                  (scenario.request None None
                     [("username", "alice"); ("password", "s3cret")])
                  [scenario.alice] []) in
  fst (Authenticate "alice" "s3cret" (server.auth srv))
  = (postgres.toAccount scenario.alice, None) /\
  fst (server.handleLogin srv) = None /\
  c_Response (server.auth (snd (server.handleLogin srv)))
  = [login_cookie "a-token" (3600 * time.Second)].
Proof.
  intros srv.
  assert (Hauth : fst (Authenticate "alice" "s3cret" (server.auth srv))
                  = (postgres.toAccount scenario.alice, None))
    by (vm_compute; reflexivity).
  destruct (handleLogin_success srv (server.mkLoginForm "alice" "s3cret")
              (postgres.toAccount scenario.alice) eq_refl eq_refl Hauth)
    as (Hok & _).
  assert (Hlogin : fst (LoginUser (postgres.toAccount scenario.alice)
                          (snd (Authenticate "alice" "s3cret" (server.auth srv))))
                   = None) by (vm_compute; reflexivity).
  destruct (Hok Hlogin) as (Hres & Hcookie & _).
  split; [exact Hauth|]. split; [exact Hres|].
  rewrite Hcookie. vm_compute. reflexivity.
Defined.

Lemma handleGetSessionUser_guest_witness :
  let srv := scenario.serving
               (scenario.world (scenario.request None (Some "sid1") [])
                  [scenario.alice] []) in
  without_identity (server.auth srv) /\
  fst (server.handleGetSessionUser srv) = None /\
  server.written (snd (server.handleGetSessionUser srv))
  = Some (http.StatusOK, Some AnonymousUser).
Proof.
  intros srv.
  assert (Hwithout : without_identity (server.auth srv)).
  { apply expired_session with (data := "") (err := ErrInvalidSession);
      [reflexivity | vm_compute; discriminate | reflexivity | reflexivity]. }
  split; [exact Hwithout|].
  apply (handleGetSessionUser_guest srv eq_refl eq_refl Hwithout).
Defined.

Lemma handleChangePassword_guard_witness :
  let srv := scenario.serving
               (scenario.world
                  (scenario.request None None
                     [("old_password", "s3cret"); ("new_password1", "n3w");
                      ("new_password2", "n3w")])
                  [scenario.alice] []) in
  fst (GetSessionInfo (server.auth srv)) = (None, None) /\
  fst (server.handleChangePassword srv)
  = Some (HTTPError http.StatusUnauthorized "Unauthorized").
Proof.
  intros srv.
  destruct (handleChangePassword_guard srv) as (_ & Hnone).
  split; [reflexivity|].
  assert (Hsession : fst (GetSessionInfo (server.auth srv)) = (None, None))
    by (vm_compute; reflexivity).
  apply (Hnone (server.mkChangePasswordForm "s3cret" "n3w" "n3w")
           eq_refl eq_refl eq_refl Hsession).
Defined.

(** ** The profile file *)

Lemma Is_refl (err : error) : errors.Is err err = true.
Proof.
  destruct err; simpl; try reflexivity;
    rewrite bool_decide_eq_true_2 by reflexivity; reflexivity.
Qed.

Section ProfileFile.
Context {S R : Type} `{!SessionStore S} `{!AccountsRepository R}
        `{!PasswordScheme}.

(** X28: [getUserProfile] changes nothing and reads the profile file of
    authenticated users only: another user has no profile and no
    error.  A file that does not exist is not an error either; any
    other failure to read it, and a file that cannot be parsed, is
    returned as an error that wraps the cause, without profile. *)
Theorem getUserProfile_errors (srv : server.Server S R) (user : User) :
  let file := [server.ProjectsRoot srv; domain.Username user; "profile.json"] in
  snd (server.getUserProfile user srv) = srv /\
  (IsAuthenticated user = false ->
     fst (server.getUserProfile user srv) = (None, None)) /\
  (forall content err,
     IsAuthenticated user = true ->
     server.ReadFile srv file = (content, Some err) ->
     (errors.Is err ErrNotExist = true ->
        fst (server.getUserProfile user srv) = (None, None)) /\
     (errors.Is err ErrNotExist = false ->
        exists e, fst (server.getUserProfile user srv) = (None, Some e) /\
                  errors.Is e err = true)) /\
  (forall content profile err,
     IsAuthenticated user = true ->
     server.ReadFile srv file = (content, None) ->
     server.Unmarshal srv content = (profile, Some err) ->
     exists e, fst (server.getUserProfile user srv) = (None, Some e) /\
               errors.Is e err = true) /\
  (forall profile e,
     fst (server.getUserProfile user srv) = (profile, Some e) -> profile = None).
Proof.
  unfold server.getUserProfile. cbv zeta.
  destruct (IsAuthenticated user); simpl.
  - split.
    { destruct (server.ReadFile _ _) as [content [e|]].
      - destruct (negb _); reflexivity.
      - destruct (server.Unmarshal _ _) as [p [e|]]; reflexivity. }
    split; [discriminate|]. split; [|split].
    + intros content err _ ->. split; intros ->; simpl; [reflexivity|].
      eexists. split; [reflexivity|]. simpl. rewrite Is_refl.
      apply orb_true_r.
    + intros content profile err _ -> ->. eexists. split; [reflexivity|].
      simpl. rewrite Is_refl. apply orb_true_r.
    + intros profile e.
      destruct (server.ReadFile _ _) as [content [e'|]].
      * destruct (negb _); simpl; congruence.
      * destruct (server.Unmarshal _ _) as [p [e'|]]; simpl; congruence.
  - split; [reflexivity|]. split; [reflexivity|].
    split; [discriminate|]. split; [discriminate|]. intros profile e [=].
Qed.

End ProfileFile.

Lemma getUserProfile_errors_witness :
  let srv := scenario.serving
               (scenario.world (scenario.request None None [])
                  [scenario.alice] []) in
  let user := AccountToUser (postgres.toAccount scenario.alice) in
  IsAuthenticated user = true /\
  server.ReadFile srv [server.ProjectsRoot srv; "alice"; "profile.json"]
  = ("", Some ErrNotExist) /\
  fst (server.getUserProfile user srv) = (None, None).
Proof.
  intros srv user.
  destruct (getUserProfile_errors srv user) as (_ & _ & Hread & _).
  destruct (Hread "" ErrNotExist eq_refl eq_refl) as (Hmissing & _).
  split; [reflexivity|]. split; [reflexivity|].
  apply Hmissing. reflexivity.
Defined.
